(** * Section-aware chunking and the exact-match index

    A shallow embedding of
    - [projects/manufacturing-sop-standardization/backend/section_chunker.py]
      (class [SectionChunker]) and
    - [backend/exact_match_service.py] (class [ExactMatchService]),
    followed by the properties of the specification that concern them.

    Conventions.  A Python [str] is a [string] of 8-bit characters; the
    classification of characters (whitespace, digits, letter case) is the one
    CPython applies to the ASCII range, characters above 127 are inert.
    A [dict] keyed by strings is a [gmap string _], a [set] of strings a
    [gset string], a [defaultdict] is a [gmap] whose reads go through
    [dd_get], which inserts the default at a missing key the way
    [defaultdict.__getitem__] does.  Methods that mutate [self] take the
    state and return the new one.  A loop over a [set] visits [elements] of
    the [gset]; no statement below depends on that order.  Every method of
    [ExactMatchService] wraps its body in [try]/[except]: on the records of
    [Data], where ['text'] and ['metadata'] are always present, no statement
    of those bodies raises, so the handlers are not modelled. *)

From Stdlib Require Import ZArith NArith QArith Ascii String List Lia Bool.
From Stdlib Require Import DecimalString.
From stdpp Require Import base gmap sets list strings.

Local Open Scope nat_scope.

(** ** Python string primitives *)

Module PyStr.

Definition code (c : ascii) : N := N_of_ascii c.

Definition between (lo hi : N) (c : ascii) : bool :=
  ((lo <=? code c) && (code c <=? hi))%N.

(** [str.isspace] on one character, which is also the class [\s] of [re]
    and the set removed by [str.strip()] and split on by [str.split()]:
    TAB LF VT FF CR, FS GS RS US, and the space. *)
Definition isspace (c : ascii) : bool := between 9 13 c || between 28 32 c.

Definition isdigit (c : ascii) : bool := between 48 57 c.
Definition isupper (c : ascii) : bool := between 65 90 c.
Definition islower (c : ascii) : bool := between 97 122 c.

Definition lower_char (c : ascii) : ascii :=
  if isupper c then ascii_of_N (code c + 32) else c.

Definition upper_char (c : ascii) : ascii :=
  if islower c then ascii_of_N (code c - 32) else c.

Definition newline : ascii := "010"%char.
Definition space : ascii := " "%char.

(** [str.lower] *)
Fixpoint lower (s : string) : string :=
  match s with
  | EmptyString => EmptyString
  | String c s' => String (lower_char c) (lower s')
  end.

(** [str.lstrip()], [str.rstrip()], [str.strip()] *)
Fixpoint lstrip (s : string) : string :=
  match s with
  | EmptyString => EmptyString
  | String c s' => if isspace c then lstrip s' else s
  end.

Fixpoint rstrip (s : string) : string :=
  match s with
  | EmptyString => EmptyString
  | String c s' =>
      match rstrip s' with
      | EmptyString => if isspace c then EmptyString else String c EmptyString
      | r => String c r
      end
  end.

Definition strip (s : string) : string := lstrip (rstrip s).

(** [re.sub(r'\s+', ' ', s)]: every maximal run of whitespace becomes one
    space.  [in_run] tells that the previous character was whitespace. *)
Fixpoint collapse_from (in_run : bool) (s : string) : string :=
  match s with
  | EmptyString => EmptyString
  | String c s' =>
      if isspace c
      then (if in_run then collapse_from true s'
            else String space (collapse_from true s'))
      else String c (collapse_from false s')
  end.

Definition collapse_ws (s : string) : string := collapse_from false s.

(** Is [p] a prefix of [s]? *)
Fixpoint startswith (p s : string) : bool :=
  match p, s with
  | EmptyString, _ => true
  | String a p', String b s' => if Ascii.eqb a b then startswith p' s' else false
  | String _ _, EmptyString => false
  end.

(** [s.split(sep)] for a non-empty separator, as the first piece and the
    others: the scan is left to right and a separator that has been found
    is skipped whole ([skip] counts what is left of it). *)
Fixpoint split_from (sep : string) (skip : nat) (s : string) : string * list string :=
  match s with
  | EmptyString => (EmptyString, [])
  | String c s' =>
      match skip with
      | S k => split_from sep k s'
      | O =>
          if startswith sep s
          then let '(h, t) := split_from sep (String.length sep - 1) s' in
               (EmptyString, h :: t)
          else let '(h, t) := split_from sep 0 s' in
               (String c h, t)
      end
  end.

Definition split (sep s : string) : list string :=
  let '(h, t) := split_from sep 0 s in h :: t.

(** [s.split()]: the maximal runs of non-whitespace.  [cur] is the word
    being read, if any. *)
Fixpoint words_from (cur : option string) (s : string) : list string :=
  match s with
  | EmptyString => match cur with Some w => [w] | None => [] end
  | String c s' =>
      if isspace c
      then match cur with
           | Some w => w :: words_from None s'
           | None => words_from None s'
           end
      else words_from (Some (match cur with
                             | Some w => w +:+ String c EmptyString
                             | None => String c EmptyString
                             end)) s'
  end.

Definition words (s : string) : list string := words_from None s.

(** [sep.join(l)] *)
Fixpoint join (sep : string) (l : list string) : string :=
  match l with
  | [] => EmptyString
  | [x] => x
  | x :: l' => x +:+ sep +:+ join sep l'
  end.

(** [s[:n]] *)
Fixpoint take (n : nat) (s : string) : string :=
  match n, s with
  | S k, String c s' => String c (take k s')
  | _, _ => EmptyString
  end.

(** [str(n)] for a non-negative integer *)
Definition of_nat (n : nat) : string := NilEmpty.string_of_uint (Nat.to_uint n).

(** [n] copies of [c], to write long literals *)
Fixpoint replicate_char (n : nat) (c : ascii) : string :=
  match n with
  | O => EmptyString
  | S k => String c (replicate_char k c)
  end.

(** Truthiness of a string *)
Definition nonempty (s : string) : bool :=
  match s with EmptyString => false | String _ _ => true end.

(** The predicate "every character satisfies [p]" *)
Fixpoint all_chars (p : ascii -> bool) (s : string) : bool :=
  match s with
  | EmptyString => true
  | String c s' => p c && all_chars p s'
  end.

End PyStr.

(** ** [hashlib.sha256(...).hexdigest()]

    The digest of FIPS 180-4 over the bytes of the string (for text in the
    ASCII range [encode('utf-8')] is the identity on codes). *)

Module Sha256.

Local Open Scope N_scope.

Definition mask32 : N := 0xffffffff.
Definition add32 (a b : N) : N := N.land (a + b) mask32.
Definition rotr (n x : N) : N :=
  N.lor (N.shiftr x n) (N.land (N.shiftl x (32 - n)) mask32).
Definition not32 (x : N) : N := N.lxor x mask32.

Definition Ch (x y z : N) : N := N.lxor (N.land x y) (N.land (not32 x) z).
Definition Maj (x y z : N) : N :=
  N.lxor (N.lxor (N.land x y) (N.land x z)) (N.land y z).
Definition bsig0 (x : N) : N := N.lxor (N.lxor (rotr 2 x) (rotr 13 x)) (rotr 22 x).
Definition bsig1 (x : N) : N := N.lxor (N.lxor (rotr 6 x) (rotr 11 x)) (rotr 25 x).
Definition ssig0 (x : N) : N := N.lxor (N.lxor (rotr 7 x) (rotr 18 x)) (N.shiftr x 3).
Definition ssig1 (x : N) : N := N.lxor (N.lxor (rotr 17 x) (rotr 19 x)) (N.shiftr x 10).

(** The constants are derived the way FIPS 180-4 defines them: from the
    fractional parts of the square roots of the first 8 primes and of the
    cube roots of the first 64. *)
Definition is_prime (n : N) : bool :=
  (1 <? n) && forallb (fun d => negb (n mod d =? 0)) (map N.of_nat (seq 2 (N.to_nat n - 2))).

Definition primes64 : list N :=
  Eval vm_compute in List.filter is_prime (map N.of_nat (seq 2 310)).

(** The integer cube root of [x], one bit at a time from bit [bits - 1] down *)
Fixpoint cube_root (bits : nat) (x r : N) : N :=
  match bits with
  | O => r
  | S b =>
      let r' := r + N.shiftl 1 (N.of_nat b) in
      cube_root b x (if r' * r' * r' <=? x then r' else r)
  end.

Definition frac_sqrt32 (p : N) : N := N.land (N.sqrt (N.shiftl p 64)) mask32.
Definition frac_cbrt32 (p : N) : N := N.land (cube_root 36 (N.shiftl p 96) 0) mask32.

Definition K : list N := Eval vm_compute in map frac_cbrt32 primes64.

Definition H0 : list N := Eval vm_compute in map frac_sqrt32 (firstn 8 primes64).

Fixpoint bytes_of (s : string) : list N :=
  match s with
  | EmptyString => []
  | String c s' => N_of_ascii c :: bytes_of s'
  end.

(** Big-endian bytes of [x], [n] of them *)
Fixpoint be_bytes (n : nat) (x : N) : list N :=
  match n with
  | O => []
  | S k => N.land (N.shiftr x (8 * N.of_nat k)) 0xff :: be_bytes k x
  end.

(** The message, the bit 1, zeros up to 56 modulo 64, the bit length *)
Definition pad (msg : list N) : list N :=
  let len := length msg in
  let zeros := ((119 - len mod 64) mod 64)%nat in
  msg ++ [0x80] ++ List.repeat 0 zeros ++ be_bytes 8 (8 * N.of_nat len).

(** Big-endian 32-bit words of a byte list *)
Fixpoint words32 (fuel : nat) (bs : list N) : list N :=
  match fuel, bs with
  | S k, a :: b :: c :: d :: bs' =>
      (N.shiftl a 24 + N.shiftl b 16 + N.shiftl c 8 + d) :: words32 k bs'
  | _, _ => []
  end.

(** The message schedule is kept newest first: [w] holds W[t-1], W[t-2], ... *)
Fixpoint schedule (n : nat) (w : list N) : list N :=
  match n with
  | O => w
  | S k =>
      let wt := add32 (add32 (ssig1 (nth 1 w 0)) (nth 6 w 0))
                      (add32 (ssig0 (nth 14 w 0)) (nth 15 w 0)) in
      schedule k (wt :: w)
  end.

Record regs := Regs { ra : N; rb : N; rc : N; rd : N; re : N; rf : N; rg : N; rh : N }.

Definition round (r : regs) (kw : N * N) : regs :=
  let t1 := add32 (add32 (add32 (rh r) (bsig1 (re r))) (Ch (re r) (rf r) (rg r)))
                  (add32 (fst kw) (snd kw)) in
  let t2 := add32 (bsig0 (ra r)) (Maj (ra r) (rb r) (rc r)) in
  Regs (add32 t1 t2) (ra r) (rb r) (rc r) (add32 (rd r) t1) (re r) (rf r) (rg r).

Definition of_list (h : list N) : regs :=
  Regs (nth 0 h 0) (nth 1 h 0) (nth 2 h 0) (nth 3 h 0)
       (nth 4 h 0) (nth 5 h 0) (nth 6 h 0) (nth 7 h 0).

Definition to_list (r : regs) : list N :=
  [ra r; rb r; rc r; rd r; re r; rf r; rg r; rh r].

Definition compress (h : list N) (block : list N) : list N :=
  let w := List.rev (schedule 48 (List.rev (words32 16 block))) in
  let r := fold_left round (combine K w) (of_list h) in
  map (fun p => add32 (fst p) (snd p)) (combine h (to_list r)).

Fixpoint blocks (fuel : nat) (h : list N) (bs : list N) : list N :=
  match fuel with
  | O => h
  | S k =>
      match bs with
      | [] => h
      | _ => blocks k (compress h (firstn 64 bs)) (skipn 64 bs)
      end
  end.

Definition hex_digit (n : N) : ascii :=
  if n <? 10 then ascii_of_N (48 + n) else ascii_of_N (87 + n).

Fixpoint hex_of_bytes (bs : list N) : string :=
  match bs with
  | [] => EmptyString
  | b :: bs' => String (hex_digit (N.shiftr b 4)) (String (hex_digit (N.land b 0xf)) (hex_of_bytes bs'))
  end.

Definition hexdigest (s : string) : string :=
  let m := pad (bytes_of s) in
  let h := blocks (length m) H0 m in
  hex_of_bytes (flat_map (be_bytes 4) h).

End Sha256.

(** ** The fragment of [re] the chunker uses *)

Module Re.
Import PyStr.

(** Members of a bracketed set *)
Inductive item : Type :=
| IChar (c : ascii)
| IRange (lo hi : ascii)
| IDigit
| ISpace.

(** One-character matchers: a literal, [\d], [\s], [.], [[...]] *)
Inductive atom : Type :=
| Lit (c : ascii)
| Digit
| Space
| Dot
| OneOf (items : list item).

(** [^], [$], one atom, [a+], [a?] (both greedy), and the two parentheses of
    a capturing group.  Groups are not nested in any pattern of the source. *)
Inductive node : Type :=
| Bol
| Eol
| One (a : atom)
| Plus (a : atom)
| Opt (a : atom)
| Open
| Close.

Definition regex : Type := list node.

Fixpoint lits (s : string) : regex :=
  match s with
  | EmptyString => []
  | String c s' => One (Lit c) :: lits s'
  end.

Definition same_char (icase : bool) (x c : ascii) : bool :=
  Ascii.eqb c x || (icase && Ascii.eqb (lower_char c) (lower_char x)).

Definition in_range (lo hi c : ascii) : bool := between (code lo) (code hi) c.

Definition item_ok (icase : bool) (it : item) (c : ascii) : bool :=
  match it with
  | IChar x => same_char icase x c
  | IRange lo hi =>
      in_range lo hi c
      || (icase && (in_range lo hi (lower_char c) || in_range lo hi (upper_char c)))
  | IDigit => isdigit c
  | ISpace => isspace c
  end.

Definition atom_ok (icase : bool) (a : atom) (c : ascii) : bool :=
  match a with
  | Lit x => same_char icase x c
  | Digit => isdigit c
  | Space => isspace c
  | Dot => negb (Ascii.eqb c newline)
  | OneOf items => existsb (fun it => item_ok icase it c) items
  end.

(** The result of a match from some point on: the text consumed up to the
    next [Close] and the groups closed after it. *)
Definition out : Type := string * list string.

Definition consume (c : ascii) (r : option out) : option out :=
  match r with
  | Some (w, gs) => Some (String c w, gs)
  | None => None
  end.

(** [a+] followed by [k]: one character of the class, then as many more as
    possible, giving one back each time what follows fails. *)
Fixpoint plus_then (ok : ascii -> bool) (k : string -> option out) (s : string) : option out :=
  match s with
  | EmptyString => None
  | String c s' =>
      if ok c
      then match plus_then ok k s' with
           | Some r => consume c (Some r)
           | None => consume c (k s')
           end
      else None
  end.

(** Backtracking match of [r] at the head of [s]; [bol] tells that nothing
    has been consumed yet. *)
Fixpoint run (icase : bool) (r : regex) (bol : bool) (s : string) : option out :=
  match r with
  | [] => Some (EmptyString, [])
  | Bol :: r' => if bol then run icase r' bol s else None
  | Eol :: r' =>
      match s with
      | EmptyString => run icase r' bol s
      | String c EmptyString => if Ascii.eqb c newline then run icase r' bol s else None
      | _ => None
      end
  | One a :: r' =>
      match s with
      | String c s' => if atom_ok icase a c then consume c (run icase r' false s') else None
      | EmptyString => None
      end
  | Plus a :: r' => plus_then (atom_ok icase a) (run icase r' false) s
  | Opt a :: r' =>
      match s with
      | String c s' =>
          if atom_ok icase a c
          then match consume c (run icase r' false s') with
               | Some o => Some o
               | None => run icase r' bol s
               end
          else run icase r' bol s
      | EmptyString => run icase r' bol s
      end
  | Open :: r' =>
      match run icase r' bol s with
      | Some (w, gs) => Some (EmptyString, w :: gs)
      | None => None
      end
  | Close :: r' =>
      match run icase r' bol s with
      | Some (_, gs) => Some (EmptyString, gs)
      | None => None
      end
  end.

(** [re.match(r, s, flags)]: [Some] of the groups, or [None] *)
Definition rmatch (icase : bool) (r : regex) (s : string) : option (list string) :=
  match run icase r true s with
  | Some (_, gs) => Some gs
  | None => None
  end.

(** Sentence-terminal punctuation, the class [[.!?]] *)
Definition is_terminal (c : ascii) : bool :=
  Ascii.eqb c "."%char || Ascii.eqb c "!"%char || Ascii.eqb c "?"%char.

(** [re.split(r'[.!?]+', s)], as the first piece and the others *)
Fixpoint split_terminal_from (in_sep : bool) (s : string) : string * list string :=
  match s with
  | EmptyString => (EmptyString, [])
  | String c s' =>
      if is_terminal c
      then (if in_sep then split_terminal_from true s'
            else let '(h, t) := split_terminal_from true s' in (EmptyString, h :: t))
      else let '(h, t) := split_terminal_from false s' in (String c h, t)
  end.

Definition split_terminal (s : string) : list string :=
  let '(h, t) := split_terminal_from false s in h :: t.

(** Does [s] begin with a match of [[.!?]+\s]? *)
Fixpoint sep_ahead (s : string) : bool :=
  match s with
  | EmptyString => false
  | String c s' =>
      if is_terminal c
      then match s' with
           | String d _ => if isspace d then true else sep_ahead s'
           | EmptyString => false
           end
      else false
  end.

Inductive split_mode : Type := InText | InPunct | InSpace.

(** [re.split(r'[.!?]+\s+', s)]: a separator is a run of terminal
    punctuation that whitespace follows, with all of that whitespace. *)
Fixpoint split_sentence_from (m : split_mode) (s : string) : string * list string :=
  match s with
  | EmptyString => (EmptyString, [])
  | String c s' =>
      let text :=
        if sep_ahead s
        then let '(h, t) := split_sentence_from InPunct s' in (EmptyString, h :: t)
        else let '(h, t) := split_sentence_from InText s' in (String c h, t) in
      match m with
      | InText => text
      | InPunct =>
          if is_terminal c then split_sentence_from InPunct s'
          else split_sentence_from InSpace s'
      | InSpace =>
          if isspace c then split_sentence_from InSpace s' else text
      end
  end.

Definition split_sentence (s : string) : list string :=
  let '(h, t) := split_sentence_from InText s in h :: t.

End Re.

(** ** The records exchanged by the two classes *)

Module Data.

(** One entry of a chunk's ['sentence_hashes'] *)
Record SentenceHash : Type := mkSentenceHash {
  sh_sentence_index : nat;
  sh_sentence_text : string;
  sh_sentence_hash : string;
  sh_word_count : nat
}.

(** ['chunk_index'] is the integer position of the section, or for a
    sub-chunk the string ["<parent>.<i>"]. *)
Inductive chunk_index : Type :=
| IdxInt (i : nat)
| IdxStr (s : string).

(** [f"{idx}"] *)
Definition idx_str (i : chunk_index) : string :=
  match i with
  | IdxInt n => PyStr.of_nat n
  | IdxStr s => s
  end.

Record ChunkMetadata : Type := mkChunkMetadata {
  md_chunk_index : chunk_index;
  md_section_level : nat;
  md_section_number : string;
  md_section_title : string;
  md_parent_section : string;
  md_start_char : nat;
  md_end_char : nat;
  md_char_count : nat;
  md_word_count : nat;
  md_chunk_type : string;
  md_filename : string;
  md_content_hash : string;
  md_hash_type : string;
  md_sentence_count : nat;
  md_sub_chunk_index : option nat
}.

(** A chunk dictionary.  ['text'] and ['metadata'] are always there;
    ['content_hash'] may be missing (or empty), and ['sentence_hashes'] is a
    key that sub-chunks do not have. *)
Record Chunk : Type := mkChunk {
  ck_text : string;
  ck_content_hash : option string;
  ck_sentence_hashes : option (list SentenceHash);
  ck_metadata : ChunkMetadata
}.

End Data.

(** ** [section_chunker.py] *)

Module SectionChunker.
Import PyStr Re Data.

Record Section : Type := mkSection {
  level : nat;
  number : string;
  title : string;
  content : string;
  start_pos : nat;
  end_pos : nat;
  parent_section : option string
}.

Definition digits : list node := [Plus Digit].
Definition dot : node := One (Lit "."%char).
Definition letters (lo hi : ascii) : atom := OneOf [IRange lo hi].
Definition roman : atom :=
  OneOf [IChar "I"%char; IChar "V"%char; IChar "X"%char].

(** [self.section_patterns], in the order of the source *)
Definition section_patterns : list regex :=
  [ (* ^(\d+)\.\s+(.+) *)
    [Bol; Open; Plus Digit; Close; dot; Plus Space; Open; Plus Dot; Close];
    (* ^(\d+\.\d+)\.?\s+(.+) *)
    [Bol; Open; Plus Digit; dot; Plus Digit; Close; Opt (Lit "."%char);
     Plus Space; Open; Plus Dot; Close];
    (* ^(\d+\.\d+\.\d+)\.?\s+(.+) *)
    [Bol; Open; Plus Digit; dot; Plus Digit; dot; Plus Digit; Close;
     Opt (Lit "."%char); Plus Space; Open; Plus Dot; Close];
    (* ^([A-Z])\.\s+(.+) *)
    [Bol; Open; One (letters "A" "Z"); Close; dot; Plus Space; Open; Plus Dot; Close];
    (* ^([IVX]+)\.\s+(.+) *)
    [Bol; Open; Plus roman; Close; dot; Plus Space; Open; Plus Dot; Close];
    (* ^Section\s+(\d+):?\s+(.+) *)
    Bol :: lits "Section"
      ++ [Plus Space; Open; Plus Digit; Close; Opt (Lit ":"%char); Plus Space;
          Open; Plus Dot; Close];
    (* ^SECTION\s+(\d+):?\s+(.+) *)
    Bol :: lits "SECTION"
      ++ [Plus Space; Open; Plus Digit; Close; Opt (Lit ":"%char); Plus Space;
          Open; Plus Dot; Close];
    (* ^(\d+)\)\s+(.+) *)
    [Bol; Open; Plus Digit; Close; One (Lit ")"%char); Plus Space; Open; Plus Dot; Close];
    (* ^([a-z])\)\s+(.+) *)
    [Bol; Open; One (letters "a" "z"); Close; One (Lit ")"%char); Plus Space;
     Open; Plus Dot; Close] ].

(** Truthiness of [re.match(r, s)] without flags *)
Definition matches (r : regex) (s : string) : bool :=
  match rmatch false r s with Some _ => true | None => false end.

Definition normalize (text : string) : string :=
  collapse_ws (lower (strip text)).

Definition _generate_content_hash (text : string) : string :=
  let normalized_text := lower (strip text) in
  let normalized_text := collapse_ws normalized_text in
  Sha256.hexdigest normalized_text.

(** The body of the loop of [_generate_sentence_hashes] over
    [enumerate(sentences)], from index [i] on *)
Fixpoint sentence_hashes_from (i : nat) (sentences : list string) : list SentenceHash :=
  match sentences with
  | [] => []
  | sentence :: rest =>
      let sentence := strip sentence in
      if 10 <? String.length sentence
      then
        let normalized_sentence := strip (lower sentence) in
        let normalized_sentence := collapse_ws normalized_sentence in
        let sentence_hash := Sha256.hexdigest normalized_sentence in
        mkSentenceHash i sentence sentence_hash (length (words sentence))
          :: sentence_hashes_from (S i) rest
      else sentence_hashes_from (S i) rest
  end.

Definition _generate_sentence_hashes (text : string) : list SentenceHash :=
  sentence_hashes_from 0 (split_terminal text).

Definition _determine_section_level (number : string) : nat :=
  if matches ([Bol] ++ digits ++ [Eol]) number then 1
  else if matches ([Bol] ++ digits ++ [dot] ++ digits ++ [Eol]) number then 2
  else if matches ([Bol] ++ digits ++ [dot] ++ digits ++ [dot] ++ digits ++ [Eol]) number then 3
  else if matches [Bol; One (letters "A" "Z"); Eol] number then 1
  else if matches [Bol; Plus roman; Eol] number then 1
  else if matches [Bol; One (letters "a" "z"); Eol] number then 2
  else 1.

Definition _is_valid_section (title : string) : bool :=
  if String.length (strip title) <? 2 then false
  else if 100 <? String.length title then false
  else if matches
            [Bol; Plus (OneOf [IDigit; ISpace; IChar "."%char; IChar "-"%char; IChar "_"%char]); Eol]
            title
       then false
  else true.

(** The loop of [_match_section_header] over the patterns that are left *)
Fixpoint match_header_from (patterns : list regex) (line : string) : option (nat * string * string) :=
  match patterns with
  | [] => None
  | pattern :: rest =>
      match rmatch true pattern line with
      | Some groups =>
          let number := nth 0 groups EmptyString in
          let title :=
            match groups with
            | _ :: g2 :: _ => strip g2
            | _ => line
            end in
          let level := _determine_section_level number in
          if _is_valid_section title then Some (level, number, title)
          else match_header_from rest line
      | None => match_header_from rest line
      end
  end.

Definition _match_section_header (line : string) : option (nat * string * string) :=
  match_header_from section_patterns line.

(** ['.' in number] *)
Fixpoint contains_char (c : ascii) (s : string) : bool :=
  match s with
  | EmptyString => false
  | String d s' => Ascii.eqb c d || contains_char c s'
  end.

Definition _find_parent_section (number : string) (existing_sections : list Section)
  : option string :=
  if contains_char "."%char number && negb (String.eqb number "auto")
  then
    let parts := split "." number in
    if 1 <? length parts
    then
      let parent_number := join "." (removelast parts) in
      if existsb (fun section => String.eqb (SectionChunker.number section) parent_number)
                 existing_sections
      then Some parent_number
      else None
    else None
  else None.

Definition _get_text_position (text : string) (line_index : nat) : nat :=
  let lines := split (String newline EmptyString) text in
  fold_left (fun position l => position + (String.length l + 1))
            (firstn (min line_index (length lines)) lines) 0.

Definition close_section (s : Section) (content_buffer : list string) (end_pos : nat) : Section :=
  mkSection (level s) (number s) (title s)
            (strip (join (String newline EmptyString) content_buffer))
            (start_pos s) end_pos (parent_section s).

(** The state of the loop of [detect_sections] *)
Record detect_state : Type := mkDetect {
  sections : list Section;
  current_section : option Section;
  content_buffer : list string
}.

Definition detect_line (text : string) (st : detect_state) (i : nat) (line : string)
  : detect_state :=
  let line_stripped := strip line in
  let section_match :=
    if nonempty line_stripped then _match_section_header line_stripped else None in
  match section_match with
  | Some (level, number, title) =>
      let sections :=
        match current_section st with
        | Some cur =>
            sections st ++ [close_section cur (content_buffer st) (_get_text_position text i)]
        | None => sections st
        end in
      mkDetect sections
               (Some (mkSection level number title EmptyString
                                (_get_text_position text i) 0
                                (_find_parent_section number sections)))
               []
  | None =>
      match current_section st with
      | Some _ => mkDetect (sections st) (current_section st) (content_buffer st ++ [line_stripped])
      | None => st
      end
  end.

Fixpoint detect_loop (text : string) (st : detect_state) (i : nat) (lines : list string)
  : detect_state :=
  match lines with
  | [] => st
  | line :: rest => detect_loop text (detect_line text st i line) (S i) rest
  end.

Definition detect_sections (text : string) : list Section :=
  let lines := split (String newline EmptyString) text in
  let st := detect_loop text (mkDetect [] None []) 0 lines in
  let sections :=
    match current_section st with
    | Some cur => sections st ++ [close_section cur (content_buffer st) (String.length text)]
    | None => sections st
    end in
  match sections with
  | [] => [mkSection 1 "1" "Document Content" (strip text) 0 (String.length text) None]
  | _ => sections
  end.

(** The greedy packing of sentences of [_subdivide_large_section] *)
Fixpoint pack_sentences (sentences : list string) (current_para : string)
  : list string * string :=
  match sentences with
  | [] => ([], current_para)
  | sentence :: rest =>
      if String.length (current_para +:+ sentence) <? 1000
      then pack_sentences rest (current_para +:+ sentence +:+ ". ")
      else
        let '(paragraphs, last) := pack_sentences rest (sentence +:+ ". ") in
        (if nonempty current_para then strip current_para :: paragraphs else paragraphs, last)
  end.

(** The paragraphs between blank lines, trimmed, the empty ones dropped *)
Definition blank_line_paragraphs (content : string) : list string :=
  map strip (List.filter (fun p => nonempty (strip p))
                         (split (String newline (String newline EmptyString)) content)).

(** The fallback: sentences packed into paragraphs of about 1000 characters *)
Definition sentence_paragraphs (content : string) : list string :=
  let sentences := split_sentence content in
  let '(paragraphs, current_para) := pack_sentences sentences EmptyString in
  if nonempty current_para then paragraphs ++ [strip current_para] else paragraphs.

Definition sub_paragraphs (content : string) : list string :=
  let paragraphs := blank_line_paragraphs content in
  if length paragraphs <=? 1 then sentence_paragraphs content else paragraphs.

Definition sub_chunk (metadata : ChunkMetadata) (i : nat) (para : string) : Chunk :=
  let sub_content_hash := _generate_content_hash para in
  mkChunk para (Some sub_content_hash) None
    (mkChunkMetadata
       (IdxStr (idx_str (md_chunk_index metadata) +:+ "." +:+ of_nat i))
       (md_section_level metadata) (md_section_number metadata)
       (md_section_title metadata) (md_parent_section metadata)
       (md_start_char metadata) (md_end_char metadata)
       (String.length para) (length (words para))
       "section_subdivision" (md_filename metadata)
       sub_content_hash "content" (md_sentence_count metadata) (Some i)).

Fixpoint sub_chunks_from (metadata : ChunkMetadata) (i : nat) (paragraphs : list string)
  : list Chunk :=
  match paragraphs with
  | [] => []
  | para :: rest =>
      if String.length (strip para) <? 30
      then sub_chunks_from metadata (S i) rest
      else sub_chunk metadata i para :: sub_chunks_from metadata (S i) rest
  end.

Definition _subdivide_large_section (chunk : Chunk) : list Chunk :=
  let content := ck_text chunk in
  let metadata := ck_metadata chunk in
  let paragraphs := sub_paragraphs content in
  let sub_chunks := sub_chunks_from metadata 0 paragraphs in
  match sub_chunks with
  | [] => [chunk]
  | _ => sub_chunks
  end.

Definition section_chunk (filename : string) (i : nat) (section : Section) : Chunk :=
  let content_hash := _generate_content_hash (content section) in
  let sentence_hashes := _generate_sentence_hashes (content section) in
  mkChunk (content section) (Some content_hash) (Some sentence_hashes)
    (mkChunkMetadata (IdxInt i) (level section) (number section) (title section)
       (match parent_section section with
        | Some p => if nonempty p then p else "none"
        | None => "none"
        end)
       (start_pos section) (end_pos section)
       (String.length (content section))
       (if nonempty (content section) then length (words (content section)) else 0)
       "section_based" filename content_hash "content" (length sentence_hashes) None).

Fixpoint section_chunks_from (filename : string) (i : nat) (sections : list Section)
  : list Chunk :=
  match sections with
  | [] => []
  | section :: rest =>
      if String.length (strip (content section)) <? 50
      then section_chunks_from filename (S i) rest
      else section_chunk filename i section :: section_chunks_from filename (S i) rest
  end.

Definition refine_chunk (chunk : Chunk) : list Chunk :=
  if 2000 <? md_char_count (ck_metadata chunk)
  then _subdivide_large_section chunk
  else [chunk].

Definition create_section_chunks (text filename : string) : list Chunk :=
  let sections := detect_sections text in
  let chunks := section_chunks_from filename 0 sections in
  flat_map refine_chunk chunks.

(** [keyword in line_lower] for one keyword: is [k] a substring of [s]? *)
Fixpoint contains (k s : string) : bool :=
  if startswith k s then true
  else match s with
       | EmptyString => false
       | String _ s' => contains k s'
       end.

(** [self.sop_keywords] *)
Definition sop_keywords : list string :=
  [ "purpose"; "scope"; "responsibility"; "procedure"; "materials";
    "equipment"; "safety"; "precautions"; "steps"; "process";
    "instructions"; "requirements"; "specifications"; "quality";
    "control"; "documentation"; "records"; "references"; "definitions";
    "training"; "maintenance"; "troubleshooting"; "emergency";
    "procedures"; "background"; "overview"; "introduction" ].

Definition _contains_sop_keywords (line : string) : bool :=
  let line_lower := lower line in
  existsb (fun keyword => contains keyword line_lower) sop_keywords.

(** The dictionaries of [get_section_hierarchy] *)
Record SubsectionEntry : Type := mkSubsectionEntry {
  se_title : string;
  se_chunk_count : nat
}.

Record SectionEntry : Type := mkSectionEntry {
  en_title : string;
  en_subsections : gmap string SubsectionEntry;
  en_chunk_count : nat
}.

Record Hierarchy : Type := mkHierarchy {
  hy_document_structure : gmap string SectionEntry;
  hy_section_count : nat;
  hy_subsection_count : nat;
  hy_total_chunks : nat
}.

(** One turn of the loop of [get_section_hierarchy] *)
Definition hierarchy_step (hierarchy : Hierarchy) (chunk : Chunk) : Hierarchy :=
  let metadata := ck_metadata chunk in
  let level := md_section_level metadata in
  let number := md_section_number metadata in
  let title := md_section_title metadata in
  if level =? 1
  then mkHierarchy
         (<[number := mkSectionEntry title ∅ 1]> (hy_document_structure hierarchy))
         (hy_section_count hierarchy + 1)
         (hy_subsection_count hierarchy)
         (hy_total_chunks hierarchy)
  else if level =? 2
  then
    let parent := md_parent_section metadata in
    let structure :=
      match (if nonempty parent then hy_document_structure hierarchy !! parent else None) with
      | Some entry =>
          <[parent := mkSectionEntry (en_title entry)
                        (<[number := mkSubsectionEntry title 1]> (en_subsections entry))
                        (en_chunk_count entry + 1)]>
            (hy_document_structure hierarchy)
      | None => hy_document_structure hierarchy
      end in
    mkHierarchy structure (hy_section_count hierarchy)
                (hy_subsection_count hierarchy + 1) (hy_total_chunks hierarchy)
  else hierarchy.

Definition get_section_hierarchy (chunks : list Chunk) : Hierarchy :=
  fold_left hierarchy_step chunks (mkHierarchy ∅ 0 0 (length chunks)).

End SectionChunker.

(** ** [exact_match_service.py] *)

Module ExactMatchService.
Import PyStr Data.

(** The [chunk_ref] dictionary stored per content hash *)
Record ChunkRef : Type := mkChunkRef {
  cr_document_name : string;
  cr_chunk_index : chunk_index;
  cr_section_number : string;
  cr_section_title : string;
  cr_content : string;
  cr_text_preview : string;
  cr_word_count : nat;
  cr_char_count : nat
}.

(** The [sentence_ref] dictionary stored per sentence hash *)
Record SentenceRef : Type := mkSentenceRef {
  sr_document_name : string;
  sr_chunk_index : chunk_index;
  sr_section_number : string;
  sr_section_title : string;
  sr_sentence_index : nat;
  sr_sentence_text : string;
  sr_word_count : nat
}.

(** The JSON object of the persistence file: sets are written as lists *)
Record SavedData : Type := mkSavedData {
  sd_hash_to_documents : gmap string (list ChunkRef);
  sd_sentence_hash_to_documents : gmap string (list SentenceRef);
  sd_document_to_hashes : gmap string (list string);
  sd_document_to_sentence_hashes : gmap string (list string)
}.

(** The attributes of [self]; [persistence_file] is the content of
    ["./exact_match_data.json"], [None] while the file does not exist. *)
Record Service : Type := mkService {
  hash_to_documents : gmap string (list ChunkRef);
  document_to_hashes : gmap string (gset string);
  sentence_hash_to_documents : gmap string (list SentenceRef);
  document_to_sentence_hashes : gmap string (gset string);
  persistence_file : option SavedData
}.

(** [d[k]] on a [defaultdict(list)]: a missing key is inserted *)
Definition dd_get {V : Type} (k : string) (d : gmap string (list V))
  : list V * gmap string (list V) :=
  match d !! k with
  | Some v => (v, d)
  | None => ([], <[k := []]> d)
  end.

(** [d[k].append(v)] on a [defaultdict(list)] *)
Definition dd_append {V : Type} (k : string) (v : V) (d : gmap string (list V))
  : gmap string (list V) :=
  <[k := default [] (d !! k) ++ [v]]> d.

(** [d[k].add(x)] on a [defaultdict(set)] *)
Definition dd_add (k x : string) (d : gmap string (gset string)) : gmap string (gset string) :=
  <[k := default ∅ (d !! k) ∪ {[x]}]> d.

Definition _save_data (self : Service) : Service :=
  let data :=
    mkSavedData (hash_to_documents self) (sentence_hash_to_documents self)
                (elements <$> document_to_hashes self)
                (elements <$> document_to_sentence_hashes self) in
  mkService (hash_to_documents self) (document_to_hashes self)
            (sentence_hash_to_documents self) (document_to_sentence_hashes self)
            (Some data).

Definition _load_data (self : Service) : Service :=
  match persistence_file self with
  | Some data =>
      mkService (sd_hash_to_documents data)
                (list_to_set <$> sd_document_to_hashes data)
                (sd_sentence_hash_to_documents data)
                (list_to_set <$> sd_document_to_sentence_hashes data)
                (persistence_file self)
  | None => self
  end.

(** [ExactMatchService()] in a directory whose persistence file is [file] *)
Definition init (file : option SavedData) : Service :=
  _load_data (mkService ∅ ∅ ∅ ∅ file).

Definition text_preview (text : string) : string :=
  if 100 <? String.length text then take 100 text +:+ "..." else text.

Definition chunk_ref (document_name : string) (chunk : Chunk) : ChunkRef :=
  mkChunkRef document_name
             (md_chunk_index (ck_metadata chunk))
             (md_section_number (ck_metadata chunk))
             (md_section_title (ck_metadata chunk))
             (ck_text chunk)
             (text_preview (ck_text chunk))
             (md_word_count (ck_metadata chunk))
             (md_char_count (ck_metadata chunk)).

Definition sentence_ref (document_name : string) (chunk : Chunk) (sentence_data : SentenceHash)
  : SentenceRef :=
  mkSentenceRef document_name
                (md_chunk_index (ck_metadata chunk))
                (md_section_number (ck_metadata chunk))
                (md_section_title (ck_metadata chunk))
                (sh_sentence_index sentence_data)
                (sh_sentence_text sentence_data)
                (sh_word_count sentence_data).

(** One turn of the inner loop of [add_document_chunks] *)
Definition add_sentence (document_name : string) (chunk : Chunk) (self : Service)
    (sentence_data : SentenceHash) : Service :=
  let sentence_hash := sh_sentence_hash sentence_data in
  if nonempty sentence_hash
  then mkService (hash_to_documents self) (document_to_hashes self)
         (dd_append sentence_hash (sentence_ref document_name chunk sentence_data)
                    (sentence_hash_to_documents self))
         (dd_add document_name sentence_hash (document_to_sentence_hashes self))
         (persistence_file self)
  else self.

(** One turn of the outer loop of [add_document_chunks] *)
Definition add_chunk (document_name : string) (self : Service) (chunk : Chunk) : Service :=
  match ck_content_hash chunk with
  | None => self
  | Some content_hash =>
      if nonempty content_hash
      then
        let self :=
          mkService (dd_append content_hash (chunk_ref document_name chunk)
                               (hash_to_documents self))
                    (dd_add document_name content_hash (document_to_hashes self))
                    (sentence_hash_to_documents self)
                    (document_to_sentence_hashes self)
                    (persistence_file self) in
        let sentence_hashes := default [] (ck_sentence_hashes chunk) in
        fold_left (add_sentence document_name chunk) sentence_hashes self
      else self
  end.

Definition add_document_chunks (document_name : string) (chunks : list Chunk) (self : Service)
  : Service :=
  _save_data (fold_left (add_chunk document_name) chunks self).

Definition not_of (document_name : string) (doc : ChunkRef) : bool :=
  negb (String.eqb (cr_document_name doc) document_name).

Definition is_of (document_name : string) (doc : ChunkRef) : bool :=
  String.eqb (cr_document_name doc) document_name.

(** One turn of the loop of [remove_document] *)
Definition remove_hash (document_name : string)
    (acc : gmap string (list ChunkRef) * nat) (content_hash : string)
  : gmap string (list ChunkRef) * nat :=
  let '(h2d, removed_count) := acc in
  match h2d !! content_hash with
  | Some original_docs =>
      let kept := List.filter (not_of document_name) original_docs in
      let h2d := <[content_hash := kept]> h2d in
      let h2d := match kept with [] => delete content_hash h2d | _ => h2d end in
      (h2d, S removed_count)
  | None => acc
  end.

Definition remove_document (document_name : string) (self : Service) : nat * Service :=
  match document_to_hashes self !! document_name with
  | None => (0, self)
  | Some document_hashes =>
      let '(h2d, removed_count) :=
        fold_left (remove_hash document_name) (elements document_hashes)
                  (hash_to_documents self, 0) in
      (removed_count,
       mkService h2d (delete document_name (document_to_hashes self))
                 (sentence_hash_to_documents self) (document_to_sentence_hashes self)
                 (persistence_file self))
  end.

Record MatchInfo : Type := mkMatchInfo {
  mi_content_hash : string;
  mi_matching_documents : list ChunkRef;
  mi_total_matches : nat;
  mi_section_info : option ChunkRef
}.

Inductive FindResult : Type :=
| FindError (error : string) (matches : list MatchInfo)
| FindOk (document : string) (total_unique_sections exact_matches : nat)
         (matches : list MatchInfo).

(** One turn of the loop of [find_exact_matches] *)
Definition find_step (document_name : string)
    (acc : gmap string (list ChunkRef) * list MatchInfo) (content_hash : string)
  : gmap string (list ChunkRef) * list MatchInfo :=
  let '(h2d, matches) := acc in
  let '(hash_documents, h2d) := dd_get content_hash h2d in
  if 1 <? length hash_documents
  then
    let other_docs := List.filter (not_of document_name) hash_documents in
    match other_docs with
    | [] => (h2d, matches)
    | _ =>
        (h2d, matches ++ [mkMatchInfo content_hash other_docs (length hash_documents)
                                      (List.find (is_of document_name) hash_documents)])
    end
  else (h2d, matches).

Definition find_exact_matches (document_name : string) (self : Service)
  : FindResult * Service :=
  match document_to_hashes self !! document_name with
  | None => (FindError "Document not found" [], self)
  | Some document_hashes =>
      let '(h2d, matches) :=
        fold_left (find_step document_name) (elements document_hashes)
                  (hash_to_documents self, []) in
      (FindOk document_name (size document_hashes) (length matches) matches,
       mkService h2d (document_to_hashes self) (sentence_hash_to_documents self)
                 (document_to_sentence_hashes self) (persistence_file self))
  end.

Record ExactMatch : Type := mkExactMatch {
  em_content_hash : string;
  em_doc1_section : ChunkRef;
  em_doc2_section : ChunkRef;
  em_matched_content : string;
  em_section_title : string;
  em_section_number : string;
  em_char_count : nat;
  em_word_count : nat
}.

Inductive CompareResult : Type :=
| CompareError (error : string)
| CompareOk (doc1 doc2 : string)
            (doc1_total_sections doc2_total_sections common_sections : nat)
            (exact_match_score : Q) (matches : list ExactMatch).

(** [(common * 2) / (total1 + total2) if (total1 + total2) > 0 else 0],
    the quotient of two integers as a rational *)
Definition similarity (common total1 total2 : nat) : Q :=
  if 0 <? total1 + total2
  then Qmake (Z.of_nat (common * 2)) (Pos.of_nat (total1 + total2))
  else 0%Q.

(** One turn of the loop of [compare_documents_exact] *)
Definition compare_step (doc1_name doc2_name : string)
    (acc : gmap string (list ChunkRef) * list ExactMatch) (content_hash : string)
  : gmap string (list ChunkRef) * list ExactMatch :=
  let '(h2d, matches) := acc in
  let '(hash_documents, h2d) := dd_get content_hash h2d in
  match List.find (is_of doc1_name) hash_documents,
        List.find (is_of doc2_name) hash_documents with
  | Some doc1_match, Some doc2_match =>
      (h2d, matches ++ [mkExactMatch content_hash doc1_match doc2_match
                                     (cr_content doc1_match)
                                     (cr_section_title doc1_match)
                                     (cr_section_number doc1_match)
                                     (cr_char_count doc1_match)
                                     (cr_word_count doc1_match)])
  | _, _ => (h2d, matches)
  end.

Definition compare_documents_exact (doc1_name doc2_name : string) (self : Service)
  : CompareResult * Service :=
  match document_to_hashes self !! doc1_name, document_to_hashes self !! doc2_name with
  | Some doc1_hashes, Some doc2_hashes =>
      let common_hashes := doc1_hashes ∩ doc2_hashes in
      let '(h2d, matches) :=
        fold_left (compare_step doc1_name doc2_name) (elements common_hashes)
                  (hash_to_documents self, []) in
      let doc1_total := size doc1_hashes in
      let doc2_total := size doc2_hashes in
      let common_total := size common_hashes in
      (CompareOk doc1_name doc2_name doc1_total doc2_total common_total
                 (similarity common_total doc1_total doc2_total) matches,
       mkService h2d (document_to_hashes self) (sentence_hash_to_documents self)
                 (document_to_sentence_hashes self) (persistence_file self))
  | _, _ => (CompareError "One or both documents not found", self)
  end.

Record SentenceMatch : Type := mkSentenceMatch {
  sm_sentence_hash : string;
  sm_doc1_sentence : SentenceRef;
  sm_doc2_sentence : SentenceRef;
  sm_matched_sentence : string;
  sm_section_title : string;
  sm_section_number : string;
  sm_sentence_index : nat
}.

Inductive SentenceCompareResult : Type :=
| SentenceCompareError (error : string)
| SentenceCompareOk (doc1 doc2 : string)
                    (doc1_total_sentences doc2_total_sentences common_sentences : nat)
                    (sentence_match_score : Q) (sentence_matches : list SentenceMatch).

Definition sentence_of (document_name : string) (doc : SentenceRef) : bool :=
  String.eqb (sr_document_name doc) document_name.

(** One turn of the loop of [compare_documents_sentence_level] *)
Definition sentence_step (doc1_name doc2_name : string)
    (acc : gmap string (list SentenceRef) * list SentenceMatch) (sentence_hash : string)
  : gmap string (list SentenceRef) * list SentenceMatch :=
  let '(s2d, sentence_matches) := acc in
  let '(sentence_documents, s2d) := dd_get sentence_hash s2d in
  match List.find (sentence_of doc1_name) sentence_documents,
        List.find (sentence_of doc2_name) sentence_documents with
  | Some doc1_match, Some doc2_match =>
      (s2d, sentence_matches ++ [mkSentenceMatch sentence_hash doc1_match doc2_match
                                                 (sr_sentence_text doc1_match)
                                                 (sr_section_title doc1_match)
                                                 (sr_section_number doc1_match)
                                                 (sr_sentence_index doc1_match)])
  | _, _ => (s2d, sentence_matches)
  end.

Definition compare_documents_sentence_level (doc1_name doc2_name : string) (self : Service)
  : SentenceCompareResult * Service :=
  match document_to_sentence_hashes self !! doc1_name,
        document_to_sentence_hashes self !! doc2_name with
  | Some doc1_sentence_hashes, Some doc2_sentence_hashes =>
      let common_sentence_hashes := doc1_sentence_hashes ∩ doc2_sentence_hashes in
      let '(s2d, sentence_matches) :=
        fold_left (sentence_step doc1_name doc2_name) (elements common_sentence_hashes)
                  (sentence_hash_to_documents self, []) in
      let doc1_total_sentences := size doc1_sentence_hashes in
      let doc2_total_sentences := size doc2_sentence_hashes in
      let common_sentences := size common_sentence_hashes in
      (SentenceCompareOk doc1_name doc2_name doc1_total_sentences doc2_total_sentences
                         common_sentences
                         (similarity common_sentences doc1_total_sentences doc2_total_sentences)
                         sentence_matches,
       mkService (hash_to_documents self) (document_to_hashes self) s2d
                 (document_to_sentence_hashes self) (persistence_file self))
  | _, _ => (SentenceCompareError "One or both documents not found", self)
  end.

(** The calls a client can make, and a run of the service from a fresh
    process without a persistence file *)
Inductive call : Type :=
| AddDocumentChunks (document_name : string) (chunks : list Chunk)
| RemoveDocument (document_name : string)
| FindExactMatches (document_name : string)
| CompareDocumentsExact (doc1_name doc2_name : string)
| CompareDocumentsSentenceLevel (doc1_name doc2_name : string).

Definition step (self : Service) (c : call) : Service :=
  match c with
  | AddDocumentChunks d chunks => add_document_chunks d chunks self
  | RemoveDocument d => snd (remove_document d self)
  | FindExactMatches d => snd (find_exact_matches d self)
  | CompareDocumentsExact a b => snd (compare_documents_exact a b self)
  | CompareDocumentsSentenceLevel a b => snd (compare_documents_sentence_level a b self)
  end.

Definition run (calls : list call) : Service := fold_left step calls (init None).

(** What the persistence file would hold if it mirrored the memory *)
Definition snapshot (self : Service) : option SavedData :=
  persistence_file (_save_data self).

Record DuplicateInfo : Type := mkDuplicateInfo {
  di_content_hash : string;
  di_duplicate_count : nat;
  di_documents : list ChunkRef;
  di_section_preview : string
}.

Record DuplicatesResult : Type := mkDuplicatesResult {
  dr_total_duplicate_sections : nat;
  dr_total_documents : nat;
  dr_duplicates : list DuplicateInfo;
  dr_summary : string
}.

(** One turn of the loop of [find_duplicate_sections] over
    [self.hash_to_documents.items()]; [len(documents) > 1] is the pattern
    with two elements or more.  The items come in the order of
    [map_to_list], where Python has the order of insertion: the entries of
    [duplicates] are the same, their order is not modelled. *)
Definition duplicate_step (acc : list DuplicateInfo * gset string)
    (item : string * list ChunkRef) : list DuplicateInfo * gset string :=
  let '(duplicates, processed_hashes) := acc in
  let '(content_hash, documents) := item in
  match documents with
  | first :: _ :: _ =>
      if bool_decide (content_hash ∈ processed_hashes)
      then acc
      else (duplicates ++ [mkDuplicateInfo content_hash (length documents) documents
                                           (cr_text_preview first)],
            processed_hashes ∪ {[content_hash]})
  | _ => acc
  end.

Definition find_duplicate_sections (self : Service) : DuplicatesResult :=
  let '(duplicates, _) :=
    fold_left duplicate_step (map_to_list (hash_to_documents self)) ([], ∅) in
  let total_duplicates := length duplicates in
  let total_documents := size (document_to_hashes self) in
  mkDuplicatesResult total_duplicates total_documents duplicates
    ("Found " +:+ of_nat total_duplicates +:+ " duplicate sections across "
       +:+ of_nat total_documents +:+ " documents").

Record Difference : Type := mkDifference {
  df_content_hash : string;
  df_content : string;
  df_section_title : string;
  df_section_number : string;
  df_char_count : nat;
  df_word_count : nat
}.

Inductive DifferencesResult : Type :=
| DifferencesError (error : string)
| DifferencesOk (doc1 doc2 : string)
                (doc1_unique_sections doc2_unique_sections : list Difference)
                (doc1_unique_count doc2_unique_count : nat).

(** One turn of either loop of [get_document_differences] *)
Definition difference_step (doc_name : string)
    (acc : gmap string (list ChunkRef) * list Difference) (content_hash : string)
  : gmap string (list ChunkRef) * list Difference :=
  let '(h2d, differences) := acc in
  let '(hash_documents, h2d) := dd_get content_hash h2d in
  match List.find (is_of doc_name) hash_documents with
  | Some doc_match =>
      (h2d, differences ++ [mkDifference content_hash (cr_content doc_match)
                                         (cr_section_title doc_match)
                                         (cr_section_number doc_match)
                                         (cr_char_count doc_match)
                                         (cr_word_count doc_match)])
  | None => (h2d, differences)
  end.

Definition get_document_differences (doc1_name doc2_name : string) (self : Service)
  : DifferencesResult * Service :=
  match document_to_hashes self !! doc1_name, document_to_hashes self !! doc2_name with
  | Some doc1_hashes, Some doc2_hashes =>
      let doc1_unique := doc1_hashes ∖ doc2_hashes in
      let doc2_unique := doc2_hashes ∖ doc1_hashes in
      let '(h2d, doc1_differences) :=
        fold_left (difference_step doc1_name) (elements doc1_unique)
                  (hash_to_documents self, []) in
      let '(h2d, doc2_differences) :=
        fold_left (difference_step doc2_name) (elements doc2_unique) (h2d, []) in
      (DifferencesOk doc1_name doc2_name doc1_differences doc2_differences
                     (length doc1_differences) (length doc2_differences),
       mkService h2d (document_to_hashes self) (sentence_hash_to_documents self)
                 (document_to_sentence_hashes self) (persistence_file self))
  | _, _ => (DifferencesError "One or both documents not found", self)
  end.

Record Stats : Type := mkStats {
  st_total_documents : nat;
  st_total_unique_sections : nat;
  st_unique_content_hashes : nat;
  st_duplicate_content_hashes : nat;
  st_documents : list string
}.

(** The two sums run over [values()], the list of [documents] over [keys()],
    both in the order of [map_to_list] *)
Definition get_document_stats (self : Service) : Stats :=
  let total_documents := size (document_to_hashes self) in
  let total_hashes := size (hash_to_documents self) in
  let values := map snd (map_to_list (hash_to_documents self)) in
  let unique_hashes := length (List.filter (fun docs => length docs =? 1) values) in
  let duplicate_hashes := length (List.filter (fun docs => 1 <? length docs) values) in
  mkStats total_documents total_hashes unique_hashes duplicate_hashes
          (map fst (map_to_list (document_to_hashes self))).

(** Every call of the class, and a session of them on a fresh service *)
Inductive request : Type :=
| Call (c : call)
| GetDocumentDifferences (doc1_name doc2_name : string)
| FindDuplicateSections
| GetDocumentStats.

Definition serve (self : Service) (r : request) : Service :=
  match r with
  | Call c => step self c
  | GetDocumentDifferences a b => snd (get_document_differences a b self)
  | FindDuplicateSections => self
  | GetDocumentStats => self
  end.

Definition session (requests : list request) : Service :=
  fold_left serve requests (init None).

End ExactMatchService.

(** ** The exact-match lines of [document_processor.py] *)

Module DocumentProcessor.
Import SectionChunker ExactMatchService.

(** [process_and_store_document], for its effect on the exact-match service:
    the section chunks of the text are added under the file name. *)
Definition store_section_chunks (text_content filename : string) (self : Service) : Service :=
  let section_chunks := create_section_chunks text_content filename in
  add_document_chunks filename section_chunks self.

(** [delete_document_from_vector_db], for its effect on the same service *)
Definition delete_document (document_name : string) (self : Service) : Service :=
  snd (remove_document document_name self).

End DocumentProcessor.

(** * Properties

    First the vocabulary of the statements, then the proofs. *)

Import Data SectionChunker ExactMatchService.
#[local] Set Warnings "-clear-no-such-hyp".

Module Spec.

(** The list filed under [k], empty when [k] is not a key *)
Definition refs_at {V : Type} (d : gmap string (list V)) (k : string) : list V :=
  default [] (d !! k).

(** The set recorded for [k], empty when [k] is not a key *)
Definition hashes_of (d : gmap string (gset string)) (k : string) : gset string :=
  default ∅ (d !! k).

(** Bidirectional consistency, in the words of the specification *)
Definition bidirectional (self : Service) : Prop :=
  forall d hashes h,
    document_to_hashes self !! d = Some hashes -> h ∈ hashes ->
    exists refs r, hash_to_documents self !! h = Some refs
                   /\ r ∈ refs /\ cr_document_name r = d.

(** Every recorded hash of a document leads to one of its references *)
Definition forward (self : Service) : Prop :=
  forall d h, h ∈ hashes_of (document_to_hashes self) d ->
    exists r, r ∈ refs_at (hash_to_documents self) h /\ cr_document_name r = d.

(** Every reference is filed under a hash that its document records *)
Definition backward (self : Service) : Prop :=
  forall h r, r ∈ refs_at (hash_to_documents self) h ->
    h ∈ hashes_of (document_to_hashes self) (cr_document_name r).

(** What a query may change: nothing that can be read back *)
Definition same_sections (self self' : Service) : Prop :=
  (forall k, refs_at (hash_to_documents self') k = refs_at (hash_to_documents self) k)
  /\ document_to_hashes self' = document_to_hashes self.

(** What [find_exact_matches d] puts in a match *)
Definition match_ok (d : string) (h2d : gmap string (list ChunkRef)) (m : MatchInfo) : Prop :=
  mi_matching_documents m = List.filter (not_of d) (refs_at h2d (mi_content_hash m))
  /\ mi_matching_documents m <> []
  /\ mi_total_matches m = length (refs_at h2d (mi_content_hash m)).

(** Projections of results, to state facts about a call by its outcome *)
Definition is_some {A : Type} (o : option A) : bool :=
  match o with Some _ => true | None => false end.

Definition score_of (r : CompareResult) : option Q :=
  match r with
  | CompareOk _ _ _ _ _ score _ => Some score
  | CompareError _ => None
  end.

Definition find_error (r : FindResult) : option (string * nat) :=
  match r with
  | FindError e ms => Some (e, length ms)
  | FindOk _ _ _ _ => None
  end.

Definition sentence_compare_counts (r : SentenceCompareResult) : option (nat * nat * nat) :=
  match r with
  | SentenceCompareOk _ _ n1 n2 c _ _ => Some (n1, n2, c)
  | SentenceCompareError _ => None
  end.

(** The documents listed in memory and in the persistence file *)
Definition memory_documents (self : Service) : list string :=
  elements (dom (document_to_hashes self)).

Definition file_documents (self : Service) : list string :=
  match persistence_file self with
  | Some data => elements (dom (sd_document_to_hashes data))
  | None => []
  end.

(** A restart of the process: a fresh object over the same file *)
Definition restart (self : Service) : Service := init (persistence_file self).

(** The number of occurrences of [c] in [s] *)
Fixpoint count_char (c : ascii) (s : string) : nat :=
  match s with
  | EmptyString => 0
  | String d s' => (if Ascii.eqb c d then 1 else 0) + count_char c s'
  end.

(** A number that is one lowercase letter *)
Definition is_lower_letter (s : string) : bool :=
  match s with
  | String c EmptyString => PyStr.islower c
  | _ => false
  end.

(** The level by the shape of the number in the words of the specification:
    one dot gives 2, two dots give 3, a plain integer, a letter and a Roman
    numeral give 1 *)
Definition level_in_spec (number : string) : nat :=
  match count_char "." number with
  | 1 => 2
  | 2 => 3
  | _ => 1
  end.

(** The same, but a number that is one lowercase letter is of level 2 *)
Definition level_of_shape (number : string) : nat :=
  if is_lower_letter number then 2 else level_in_spec number.


(** A non-empty string of digits *)
Definition is_digits (s : string) : bool :=
  PyStr.nonempty s && PyStr.all_chars PyStr.isdigit s.

(** [[IVX]] under [re.IGNORECASE] *)
Definition is_roman (c : ascii) : bool := Re.atom_ok true roman c.

(** [[A-Z]] and [[a-z]] under [re.IGNORECASE] *)
Definition is_letter (c : ascii) : bool := PyStr.isupper c || PyStr.islower c.

(** The numbers that the header patterns can capture *)
Inductive number_shape : string -> Prop :=
| shape_integer d : is_digits d = true -> number_shape d
| shape_decimal d1 d2 :
    is_digits d1 = true -> is_digits d2 = true ->
    number_shape (d1 +:+ String "."%char d2)
| shape_three d1 d2 d3 :
    is_digits d1 = true -> is_digits d2 = true -> is_digits d3 = true ->
    number_shape (d1 +:+ String "."%char (d2 +:+ String "."%char d3))
| shape_letter c : is_letter c = true -> number_shape (String c EmptyString)
| shape_roman r :
    PyStr.nonempty r = true -> PyStr.all_chars is_roman r = true -> number_shape r.

(** What a continuation returns after [d] has been consumed in front of it *)
Definition prepend (d : string) (r : option Re.out) : option Re.out :=
  match r with
  | Some (w, gs) => Some (d +:+ w, gs)
  | None => None
  end.

(** [s] is empty or begins with a character outside the class *)
Definition stops (ok : ascii -> bool) (s : string) : bool :=
  match s with
  | EmptyString => true
  | String c _ => negb (ok c)
  end.

(** The tests of [_determine_section_level], in their order *)
Definition level_tests (number : string) : nat :=
  if matches [Re.Bol; Re.Plus Re.Digit; Re.Eol] number then 1
  else if matches [Re.Bol; Re.Plus Re.Digit; dot; Re.Plus Re.Digit; Re.Eol] number then 2
  else if matches [Re.Bol; Re.Plus Re.Digit; dot; Re.Plus Re.Digit; dot; Re.Plus Re.Digit; Re.Eol]
                  number then 3
  else if matches [Re.Bol; Re.One (letters "A" "Z"); Re.Eol] number then 1
  else if matches [Re.Bol; Re.Plus roman; Re.Eol] number then 1
  else if matches [Re.Bol; Re.One (letters "a" "z"); Re.Eol] number then 2
  else 1.


Definition re_integer : Re.regex := [Re.Bol; Re.Plus Re.Digit; Re.Eol].
Definition re_decimal : Re.regex := [Re.Bol; Re.Plus Re.Digit; dot; Re.Plus Re.Digit; Re.Eol].
Definition re_three : Re.regex :=
  [Re.Bol; Re.Plus Re.Digit; dot; Re.Plus Re.Digit; dot; Re.Plus Re.Digit; Re.Eol].


(** No line of [text] is taken for a header *)
Definition no_header (text : string) : bool :=
  forallb (fun line => negb (is_some (_match_section_header (PyStr.strip line))))
          (PyStr.split (String PyStr.newline EmptyString) text).

(** The synthetic section of a document without headers *)
Definition document_content (text : string) : Section :=
  mkSection 1 "1" "Document Content" (PyStr.strip text) 0 (String.length text) None.

(** The scenario of the specification for a document without headers, as it
    is worded: one section, and one chunk from 50 characters on *)
Definition one_chunk_as_specified (text filename : string) : Prop :=
  no_header text = true ->
  detect_sections text = [document_content text]
  /\ (50 <= String.length (PyStr.strip text) ->
      length (create_section_chunks text filename) = 1).



Definition blank_line : string := String PyStr.newline (String PyStr.newline EmptyString).

(** A paragraph without headers, for the one-chunk scenario *)
Definition text_plain : string :=
  "This paragraph has no heading at all, only plain sentences that run on for a while.".

(** Two paragraphs of 1100 characters each *)
Definition text_two_paragraphs : string :=
  PyStr.replicate_char 1100 "a" +:+ blank_line +:+ PyStr.replicate_char 1100 "b".

(** One section of 2500 characters without any boundary to split at *)
Definition chunk_2500 : Chunk :=
  section_chunk "big.txt" 0 (document_content (PyStr.replicate_char 2500 "a")).

(** A hundred paragraphs of 25 characters: 2698 characters in one section *)
Definition text_short_paragraphs : string :=
  PyStr.join blank_line (List.repeat "This is a short sentence." 100).

Definition svc_short : Service :=
  add_document_chunks "short.txt" (create_section_chunks text_short_paragraphs "short.txt")
                      (init None).

(** Two small procedures that share their first section *)
Definition text_a : string :=
  PyStr.join (String PyStr.newline EmptyString)
    [ "1. Purpose";
      "This procedure describes the cleaning of the mixing vessel after each batch.";
      "2. Safety";
      "Operators must wear gloves and goggles. Never open the lid while the motor runs." ].

Definition text_b : string :=
  PyStr.join (String PyStr.newline EmptyString)
    [ "1. Purpose";
      "This  procedure describes the CLEANING of the mixing vessel after each batch.";
      "2. Scope";
      "This document applies to every mixing vessel of the plant and to all shifts." ].

Definition chunks_a : list Chunk := create_section_chunks text_a "a.txt".
Definition chunks_b : list Chunk := create_section_chunks text_b "b.txt".

Definition svc_a : Service := add_document_chunks "a.txt" chunks_a (init None).
Definition svc_ab : Service := add_document_chunks "b.txt" chunks_b svc_a.
Definition svc_a_removed : Service := snd (remove_document "a.txt" svc_a).

(** ** The vocabulary of the further properties *)

(** No key of [hash_to_documents] holds an empty list *)
Definition no_empty (self : Service) : Prop :=
  forall h refs, hash_to_documents self !! h = Some refs -> refs <> [].

(** Every recorded sentence hash of a document leads to one of its references *)
Definition sentence_forward (self : Service) : Prop :=
  forall d h, h ∈ hashes_of (document_to_sentence_hashes self) d ->
    exists r, r ∈ refs_at (sentence_hash_to_documents self) h /\ sr_document_name r = d.

(** What every state of a session satisfies *)
Definition consistent (self : Service) : Prop :=
  forward self /\ backward self /\ no_empty self /\ sentence_forward self.

(** The hashes under which [chunks] are filed: the non-empty content hashes *)
Definition filed_hash (chunk : Chunk) : option string :=
  match ck_content_hash chunk with
  | Some h => if PyStr.nonempty h then Some h else None
  | None => None
  end.

(** The references that [add_document_chunks d chunks] files under [h] *)
Definition new_refs (d : string) (chunks : list Chunk) (h : string) : list ChunkRef :=
  map (chunk_ref d)
      (List.filter (fun c => bool_decide (filed_hash c = Some h)) chunks).

(** The hashes that [add_document_chunks d chunks] records for [d] *)
Definition new_hashes (chunks : list Chunk) : gset string :=
  list_to_set (omap filed_hash chunks).

(** The hashes reported by [find_duplicate_sections] *)
Definition duplicate_hashes (r : DuplicatesResult) : list string :=
  map di_content_hash (dr_duplicates r).

(** The hashes reported by [find_exact_matches] *)
Definition matched_hashes (r : FindResult) : list string :=
  match r with
  | FindError _ ms => map mi_content_hash ms
  | FindOk _ _ _ ms => map mi_content_hash ms
  end.

(** The counts of the two comparisons of a pair of documents *)
Definition compare_counts (r : CompareResult) : option (nat * nat * nat * nat) :=
  match r with
  | CompareOk _ _ n1 n2 c _ ms => Some (n1, n2, c, length ms)
  | CompareError _ => None
  end.

Definition difference_counts (r : DifferencesResult) : option (nat * nat) :=
  match r with
  | DifferencesOk _ _ _ _ n1 n2 => Some (n1, n2)
  | DifferencesError _ => None
  end.

(** A hash has a match for [d]: two references or more, one of another document *)
Definition has_match (d : string) (h2d : gmap string (list ChunkRef)) (h : string) : bool :=
  (1 <? length (refs_at h2d h))
  && match List.filter (not_of d) (refs_at h2d h) with [] => false | _ => true end.

(** The matches of a comparison *)
Definition compare_matches (r : CompareResult) : list ExactMatch :=
  match r with
  | CompareOk _ _ _ _ _ _ ms => ms
  | CompareError _ => []
  end.

(** The entry of [find_duplicate_sections] for one item of the dictionary *)
Definition duplicate_of (item : string * list ChunkRef) : option DuplicateInfo :=
  match snd item with
  | first :: _ :: _ =>
      Some (mkDuplicateInfo (fst item) (length (snd item)) (snd item) (cr_text_preview first))
  | _ => None
  end.

(** The sections listed as unique to either document, by their hashes *)
Definition difference_hashes (r : DifferencesResult) : list string * list string :=
  match r with
  | DifferencesOk _ _ u1 u2 _ _ => (map df_content_hash u1, map df_content_hash u2)
  | DifferencesError _ => ([], [])
  end.

(** The matches and the score of a comparison of sentences *)
Definition sentence_matches_of (r : SentenceCompareResult) : list SentenceMatch :=
  match r with
  | SentenceCompareOk _ _ _ _ _ _ ms => ms
  | SentenceCompareError _ => []
  end.

Definition sentence_score_of (r : SentenceCompareResult) : option Q :=
  match r with
  | SentenceCompareOk _ _ _ _ _ score _ => Some score
  | SentenceCompareError _ => None
  end.

(** A lowercase hexadecimal digit: [0-9a-f] *)
Definition is_hex (c : ascii) : bool :=
  PyStr.isdigit c || PyStr.between 97 102 c.

(** What [detect_sections] promises of a section: the number has one of the
    shapes of the header patterns, the level is the one of that shape, the
    title passed [_is_valid_section], and the content is trimmed *)
Definition section_ok (s : Section) : Prop :=
  number_shape (number s)
  /\ level s = level_of_shape (number s)
  /\ (level s = 1 \/ level s = 2 \/ level s = 3)
  /\ _is_valid_section (title s) = true
  /\ PyStr.strip (title s) = title s
  /\ 2 <= String.length (title s) <= 100
  /\ PyStr.strip (content s) = content s.

(** The parent of every section is the number of a section before it, one
    level up: the number of the section without its last dotted part *)
Definition parents_before (ss : list Section) : Prop :=
  forall i s p, ss !! i = Some s -> parent_section s = Some p ->
    exists j s' last,
      j < i /\ ss !! j = Some s' /\ number s' = p
      /\ number s = p +:+ "." +:+ last /\ count_char "." last = 0
      /\ level s = S (level s').

(** Each section ends where the next one starts, the last one at [final] *)
Fixpoint chained (ss : list Section) (final : nat) : Prop :=
  match ss with
  | [] => True
  | s :: rest =>
      match rest with
      | [] => end_pos s = final
      | s' :: _ => end_pos s = start_pos s' /\ chained rest final
      end
  end.

(** What [create_section_chunks] promises of a chunk for [filename] *)
Definition chunk_ok (filename : string) (c : Chunk) : Prop :=
  ck_content_hash c = Some (_generate_content_hash (ck_text c))
  /\ md_content_hash (ck_metadata c) = _generate_content_hash (ck_text c)
  /\ md_filename (ck_metadata c) = filename
  /\ md_char_count (ck_metadata c) = String.length (ck_text c)
  /\ md_word_count (ck_metadata c) = length (PyStr.words (ck_text c))
  /\ (md_section_level (ck_metadata c) = 1 \/ md_section_level (ck_metadata c) = 2
      \/ md_section_level (ck_metadata c) = 3)
  /\ 30 <= String.length (PyStr.strip (ck_text c))
  /\ (md_chunk_type (ck_metadata c) = "section_based"
      \/ md_chunk_type (ck_metadata c) = "section_subdivision" /\ ck_sentence_hashes c = None).

(** The numbers of the chunks of level 1, and the number of chunks of a level *)
Definition level_chunks (n : nat) (chunks : list Chunk) : list Chunk :=
  List.filter (fun c => md_section_level (ck_metadata c) =? n) chunks.

(** A header that has been matched, before its content is known *)
Definition header_ok (s : Section) : Prop :=
  number_shape (number s) /\ level s = level_of_shape (number s)
  /\ _is_valid_section (title s) = true
  /\ PyStr.strip (title s) = title s.

Definition detect_inv (st : detect_state) : Prop :=
  Forall section_ok (sections st)
  /\ match current_section st with Some cur => header_ok cur | None => True end.

(** The loop of [detect_sections] before line [i] *)
Definition position_inv (text : string) (i : nat) (st : detect_state) : Prop :=
  Forall (fun s => start_pos s <= end_pos s /\ end_pos s <= String.length text) (sections st)
  /\ match current_section st with
     | Some cur =>
         (exists j, j < i /\ start_pos cur = _get_text_position text j)
         /\ match sections st with [] => True | _ => chained (sections st) (start_pos cur) end
     | None => sections st = []
     end.

(** The parent of a header that has been matched *)
Definition parent_ok (before : list Section) (s : Section) : Prop :=
  forall p, parent_section s = Some p ->
    exists j s' last,
      before !! j = Some s' /\ number s' = p
      /\ number s = p +:+ "." +:+ last /\ count_char "." last = 0
      /\ level s = S (level s').

Definition parent_inv (st : detect_state) : Prop :=
  Forall section_ok (sections st)
  /\ parents_before (sections st)
  /\ match current_section st with
     | Some cur => header_ok cur /\ parent_ok (sections st) cur
     | None => True
     end.

(** A paragraph packed from sentences stays under 1002 characters unless it
    is one sentence of [sentences] alone *)
Definition packed (sentences : list string) (trim : bool) (p : string) : Prop :=
  String.length p < 1002
  \/ exists s, s ∈ sentences
               /\ p = (if trim then PyStr.strip (s +:+ ". ") else s +:+ ". ").


End Spec.

Import Spec.

(** ** Strings *)

Ltac by_cases_on_char c := destruct c as [[] [] [] [] [] [] [] []]; vm_compute; reflexivity.

Lemma isspace_lower_char c : PyStr.isspace (PyStr.lower_char c) = PyStr.isspace c.
Proof. by_cases_on_char c. Qed.

Lemma lower_char_twice c : PyStr.lower_char (PyStr.lower_char c) = PyStr.lower_char c.
Proof. by_cases_on_char c. Qed.

Lemma lower_twice s : PyStr.lower (PyStr.lower s) = PyStr.lower s.
Proof. induction s as [|c s IH]; simpl; [reflexivity|]. rewrite lower_char_twice, IH. reflexivity. Qed.

Lemma lower_collapse b s :
  PyStr.lower (PyStr.collapse_from b s) = PyStr.collapse_from b (PyStr.lower s).
Proof.
  revert b. induction s as [|c s IH]; intros b; simpl; [reflexivity|].
  rewrite isspace_lower_char. destruct (PyStr.isspace c) eqn:E.
  - destruct b; simpl; rewrite IH; reflexivity.
  - simpl. rewrite IH. reflexivity.
Qed.

Lemma lower_lstrip s : PyStr.lower (PyStr.lstrip s) = PyStr.lstrip (PyStr.lower s).
Proof.
  induction s as [|c s IH]; simpl; [reflexivity|].
  rewrite isspace_lower_char. destruct (PyStr.isspace c); [exact IH | reflexivity].
Qed.

Lemma lower_rstrip s : PyStr.lower (PyStr.rstrip s) = PyStr.rstrip (PyStr.lower s).
Proof.
  induction s as [|c s IH]; simpl; [reflexivity|].
  rewrite <- IH, isspace_lower_char.
  destruct (PyStr.rstrip s); simpl; [destruct (PyStr.isspace c)|]; reflexivity.
Qed.

Lemma lower_strip s : PyStr.lower (PyStr.strip s) = PyStr.strip (PyStr.lower s).
Proof. unfold PyStr.strip. rewrite lower_lstrip, lower_rstrip. reflexivity. Qed.

Lemma collapse_twice s : forall b,
  PyStr.collapse_from b (PyStr.collapse_from b s) = PyStr.collapse_from b s.
Proof.
  induction s as [|c s IH]; intros b; simpl; [reflexivity|].
  destruct (PyStr.isspace c) eqn:E.
  - destruct b; [apply IH|]. simpl. rewrite IH. reflexivity.
  - simpl. rewrite E, IH. reflexivity.
Qed.

Lemma rstrip_twice s : PyStr.rstrip (PyStr.rstrip s) = PyStr.rstrip s.
Proof.
  induction s as [|c s IH]; simpl; [reflexivity|].
  destruct (PyStr.rstrip s) as [|d r] eqn:E.
  - destruct (PyStr.isspace c) eqn:Ec; simpl; [|rewrite Ec]; reflexivity.
  - change (PyStr.rstrip (String c (String d r))) with
      (match PyStr.rstrip (String d r) with
       | EmptyString => if PyStr.isspace c then EmptyString else String c EmptyString
       | x => String c x
       end).
    rewrite IH. reflexivity.
Qed.

Lemma lstrip_twice s : PyStr.lstrip (PyStr.lstrip s) = PyStr.lstrip s.
Proof.
  induction s as [|c s IH]; simpl; [reflexivity|].
  destruct (PyStr.isspace c) eqn:E; [exact IH|]. simpl. rewrite E. reflexivity.
Qed.

Lemma rstrip_head c s :
  PyStr.isspace c = false ->
  exists r, PyStr.rstrip (String c s) = String c r.
Proof.
  intros E. simpl. destruct (PyStr.rstrip s); rewrite ?E; eauto.
Qed.

Lemma rstrip_lstrip s : PyStr.rstrip (PyStr.lstrip s) = PyStr.lstrip (PyStr.rstrip s).
Proof.
  induction s as [|c s IH]; [reflexivity|].
  destruct (PyStr.isspace c) eqn:E.
  - change (PyStr.lstrip (String c s)) with (if PyStr.isspace c then PyStr.lstrip s else String c s).
    rewrite E, IH. cbn [PyStr.rstrip].
    destruct (PyStr.rstrip s); rewrite ?E; cbn [PyStr.lstrip]; rewrite ?E; reflexivity.
  - change (PyStr.lstrip (String c s)) with (if PyStr.isspace c then PyStr.lstrip s else String c s).
    rewrite E. destruct (rstrip_head c s E) as [r ->]. simpl. rewrite E. reflexivity.
Qed.

Lemma strip_twice s : PyStr.strip (PyStr.strip s) = PyStr.strip s.
Proof.
  unfold PyStr.strip. rewrite (rstrip_lstrip (PyStr.rstrip s)), rstrip_twice, lstrip_twice.
  reflexivity.
Qed.

Lemma lstrip_strip s : PyStr.lstrip (PyStr.strip s) = PyStr.strip s.
Proof. unfold PyStr.strip. apply lstrip_twice. Qed.

Lemma rstrip_strip s : PyStr.rstrip (PyStr.strip s) = PyStr.strip s.
Proof. unfold PyStr.strip. rewrite rstrip_lstrip, rstrip_twice. reflexivity. Qed.

Lemma collapse_empty s : forall b,
  PyStr.collapse_from b s = EmptyString -> PyStr.rstrip s = EmptyString.
Proof.
  induction s as [|c s IH]; intros b H; simpl in *; [reflexivity|].
  destruct (PyStr.isspace c) eqn:E; [|discriminate].
  destruct b; [|discriminate]. rewrite (IH true H). reflexivity.
Qed.

Lemma rstrip_cons_fixed c s :
  PyStr.rstrip (String c s) = String c s ->
  PyStr.rstrip s = s /\ (s = EmptyString -> PyStr.isspace c = false).
Proof.
  simpl. destruct (PyStr.rstrip s) as [|d r] eqn:E.
  - destruct (PyStr.isspace c) eqn:Ec; [discriminate|]. intros H. injection H as <-. auto.
  - intros H. injection H as <-. split; [reflexivity | discriminate].
Qed.

Lemma rstrip_cons_keep c s :
  PyStr.rstrip s = s -> (s = EmptyString -> PyStr.isspace c = false) ->
  PyStr.rstrip (String c s) = String c s.
Proof.
  intros H Hc. simpl. rewrite H. destruct s; [rewrite Hc|]; reflexivity.
Qed.

Lemma rstrip_collapse s : forall b,
  PyStr.rstrip s = s ->
  PyStr.rstrip (PyStr.collapse_from b s) = PyStr.collapse_from b s.
Proof.
  induction s as [|c s IH]; intros b H; [reflexivity|].
  apply rstrip_cons_fixed in H as [Hs Hc]. simpl.
  destruct (PyStr.isspace c) eqn:E.
  - destruct b; [apply IH; assumption|].
    apply rstrip_cons_keep; [apply IH; assumption|].
    intros He. apply collapse_empty in He. rewrite Hs in He. specialize (Hc He). discriminate.
  - apply rstrip_cons_keep; [apply IH; assumption | auto].
Qed.

Lemma lstrip_collapse s :
  PyStr.lstrip s = s ->
  PyStr.lstrip (PyStr.collapse_ws s) = PyStr.collapse_ws s.
Proof.
  unfold PyStr.collapse_ws. destruct s as [|c s]; [reflexivity|]. simpl.
  destruct (PyStr.isspace c) eqn:E.
  - intros H. exfalso.
    assert (L : forall x, String.length (PyStr.lstrip x) <= String.length x).
    { induction x as [|d x IHx]; simpl; [lia|]. destruct (PyStr.isspace d); simpl; lia. }
    specialize (L s). rewrite H in L. simpl in L. lia.
  - intros _. simpl. rewrite E. reflexivity.
Qed.

Lemma strip_collapse s :
  PyStr.strip s = s -> PyStr.strip (PyStr.collapse_ws s) = PyStr.collapse_ws s.
Proof.
  intros H.
  assert (Hr : PyStr.rstrip s = s) by (rewrite <- H; apply rstrip_strip).
  assert (Hl : PyStr.lstrip s = s) by (rewrite <- H; apply lstrip_strip).
  unfold PyStr.strip. unfold PyStr.collapse_ws at 1. rewrite rstrip_collapse by assumption.
  apply lstrip_collapse. assumption.
Qed.

(** [normalize] is a projection *)
Lemma normalize_twice t : normalize (normalize t) = normalize t.
Proof.
  unfold normalize.
  assert (S : PyStr.strip (PyStr.collapse_ws (PyStr.lower (PyStr.strip t)))
              = PyStr.collapse_ws (PyStr.lower (PyStr.strip t))).
  { apply strip_collapse. rewrite <- lower_strip, strip_twice. reflexivity. }
  rewrite S. unfold PyStr.collapse_ws. rewrite lower_collapse, lower_twice, collapse_twice.
  reflexivity.
Qed.

Lemma sub_chunks_hash md ps : forall i,
  Forall (fun c => ck_content_hash c = Some (_generate_content_hash (ck_text c)))
         (sub_chunks_from md i ps).
Proof.
  induction ps as [|p ps IH]; intros i; simpl; [constructor|].
  destruct (String.length (PyStr.strip p) <? 30); [apply IH|].
  constructor; [reflexivity | apply IH].
Qed.

Lemma refine_chunk_hash c :
  ck_content_hash c = Some (_generate_content_hash (ck_text c)) ->
  Forall (fun c => ck_content_hash c = Some (_generate_content_hash (ck_text c)))
         (refine_chunk c).
Proof.
  intros H. unfold refine_chunk, _subdivide_large_section.
  destruct (2000 <? md_char_count (ck_metadata c)); [|repeat constructor; assumption].
  pose proof (sub_chunks_hash (ck_metadata c) (sub_paragraphs (ck_text c)) 0) as F.
  destruct (sub_chunks_from _ _ _); [repeat constructor; assumption | exact F].
Qed.

Lemma section_chunks_hash fn ss : forall i,
  Forall (fun c => ck_content_hash c = Some (_generate_content_hash (ck_text c)))
         (section_chunks_from fn i ss).
Proof.
  induction ss as [|s ss IH]; intros i; simpl; [constructor|].
  destruct (String.length (PyStr.strip (content s)) <? 50); [apply IH|].
  constructor; [reflexivity | apply IH].
Qed.

Lemma Forall_flat_map_refine (P : Chunk -> Prop) (l : list Chunk) :
  Forall (fun c => Forall P (refine_chunk c)) l -> Forall P (flat_map refine_chunk l).
Proof.
  induction 1 as [|c l H _ IH]; simpl; [constructor|]. apply Forall_app. auto.
Qed.

(** C4.  The content hash is the SHA-256 digest of the normalized text, and
    normalizing (trim, lower-case, collapse whitespace) a second time changes
    nothing, so [hash(t) = hash(normalize(t))]; ["Foo  Bar"] and ["foo bar"]
    have one hash; and the hash of every chunk that [create_section_chunks]
    returns is that function of the chunk's text alone, whatever the file
    name and the position. *)
Theorem content_hash_normalization (t : string) :
  _generate_content_hash t = Sha256.hexdigest (normalize t)
  /\ _generate_content_hash t = _generate_content_hash (normalize t)
  /\ _generate_content_hash "Foo  Bar" = _generate_content_hash "foo bar"
  /\ forall text filename,
       Forall (fun c => ck_content_hash c = Some (_generate_content_hash (ck_text c)))
              (create_section_chunks text filename).
Proof.
  split; [reflexivity|]. split.
  - unfold _generate_content_hash. fold (normalize t). fold (normalize (normalize t)).
    rewrite normalize_twice. reflexivity.
  - split; [vm_compute; reflexivity|].
    intros text filename. unfold create_section_chunks. apply Forall_flat_map_refine.
    eapply Forall_impl; [apply section_chunks_hash|].
    intros c H. apply refine_chunk_hash. exact H.
Qed.

(** ** The section detector and the chunk builder *)

Lemma is_some_false {A : Type} (o : option A) : negb (is_some o) = true -> o = None.
Proof. destruct o; [discriminate | reflexivity]. Qed.

Lemma detect_line_no_header text i line :
  negb (is_some (_match_section_header (PyStr.strip line))) = true ->
  detect_line text (mkDetect [] None []) i line = mkDetect [] None [].
Proof.
  intros H. apply is_some_false in H. unfold detect_line. rewrite H.
  destruct (PyStr.nonempty (PyStr.strip line)); reflexivity.
Qed.

Lemma detect_loop_no_header text lines : forall i,
  forallb (fun line => negb (is_some (_match_section_header (PyStr.strip line)))) lines = true ->
  detect_loop text (mkDetect [] None []) i lines = mkDetect [] None [].
Proof.
  induction lines as [|line lines IH]; intros i H; [reflexivity|].
  simpl in H. apply andb_true_iff in H as [H1 H2].
  cbn [detect_loop]. rewrite detect_line_no_header by assumption. apply IH. assumption.
Qed.

Lemma detect_sections_no_header text :
  no_header text = true -> detect_sections text = [document_content text].
Proof.
  intros H. unfold detect_sections. rewrite (detect_loop_no_header text _ 0 H). reflexivity.
Qed.

Lemma subdivide_nonempty chunk : 1 <= length (_subdivide_large_section chunk).
Proof.
  unfold _subdivide_large_section. destruct (sub_chunks_from _ _ _); simpl; lia.
Qed.

(** C7, amended.  When no line of the text is a header, [detect_sections]
    returns the one section (level 1, number "1", title "Document Content")
    whose content is the trimmed text; [create_section_chunks] then returns
    no chunk below 50 characters of trimmed text, exactly one chunk from 50
    to 2000 characters, and above 2000 characters the result of the
    subdivision of that chunk, which has one chunk or more. *)
Theorem unstructured_document (text filename : string) :
  no_header text = true ->
  let chunk := section_chunk filename 0 (document_content text) in
  let chunks := create_section_chunks text filename in
  detect_sections text = [document_content text]
  /\ if String.length (PyStr.strip text) <? 50 then chunks = []
     else if 2000 <? String.length (PyStr.strip text)
          then chunks = _subdivide_large_section chunk /\ 1 <= length chunks
          else chunks = [chunk] /\ length chunks = 1.
Proof.
  intros H chunk chunks. split; [apply detect_sections_no_header; assumption|].
  subst chunks chunk. unfold create_section_chunks.
  rewrite (detect_sections_no_header text H). cbn [section_chunks_from].
  cbn [content document_content]. rewrite strip_twice.
  destruct (String.length (PyStr.strip text) <? 50) eqn:E1; [reflexivity|].
  cbn [flat_map]. rewrite app_nil_r. unfold refine_chunk.
  cbn [section_chunk ck_metadata md_char_count content document_content].
  destruct (2000 <? String.length (PyStr.strip text)) eqn:E2.
  - split; [reflexivity | apply subdivide_nonempty].
  - split; reflexivity.
Qed.

Lemma unstructured_document_witness :
  no_header text_plain = true
  /\ detect_sections text_plain = [document_content text_plain]
  /\ if String.length (PyStr.strip text_plain) <? 50
     then create_section_chunks text_plain "plain.txt" = []
     else if 2000 <? String.length (PyStr.strip text_plain)
          then create_section_chunks text_plain "plain.txt"
               = _subdivide_large_section
                   (section_chunk "plain.txt" 0 (document_content text_plain))
               /\ 1 <= length (create_section_chunks text_plain "plain.txt")
          else create_section_chunks text_plain "plain.txt"
               = [section_chunk "plain.txt" 0 (document_content text_plain)]
               /\ length (create_section_chunks text_plain "plain.txt") = 1.
Proof.
  split; [vm_compute; reflexivity|].
  apply (unstructured_document text_plain "plain.txt"). vm_compute. reflexivity.
Defined.

(** C7 as worded fails: a text of two paragraphs of 1100 characters has no
    header and well over 50 characters, and yields two chunks. *)
Lemma two_paragraphs_two_chunks :
  ~ one_chunk_as_specified text_two_paragraphs "two.txt".
Proof.
  intros H. destruct H as [_ H]; [vm_compute; reflexivity|].
  assert (L : length (create_section_chunks text_two_paragraphs "two.txt") = 2)
    by (vm_compute; reflexivity).
  rewrite L in H.
  assert (2 = 1); [|discriminate]. apply H. apply Nat.leb_le. vm_compute. reflexivity.
Qed.


Lemma length_lstrip_le s : String.length (PyStr.lstrip s) <= String.length s.
Proof. induction s as [|c s IH]; simpl; [lia|]. destruct (PyStr.isspace c); simpl; lia. Qed.

Lemma length_rstrip_le s : String.length (PyStr.rstrip s) <= String.length s.
Proof.
  induction s as [|c s IH]; simpl; [lia|].
  destruct (PyStr.rstrip s); [destruct (PyStr.isspace c)|]; simpl in *; lia.
Qed.

Lemma length_strip_le s : String.length (PyStr.strip s) <= String.length s.
Proof.
  unfold PyStr.strip. etransitivity; [apply length_lstrip_le | apply length_rstrip_le].
Qed.






Example chunk_2500_sub_chunk :
  map (fun s => (md_chunk_index (ck_metadata s), String.length (ck_text s)))
      (_subdivide_large_section chunk_2500)
  = [(IdxStr "0.0", 2501)].
Proof. vm_compute. reflexivity. Qed.


(** ** The header patterns *)


Lemma append_cons c s t : String c s +:+ t = String c (s +:+ t).
Proof. reflexivity. Qed.

Lemma append_empty_r s : s +:+ EmptyString = s.
Proof. induction s as [|c s IH]; [reflexivity|]. rewrite append_cons, IH. reflexivity. Qed.

Lemma plus_then_sound ok k s : forall r,
  Re.plus_then ok k s = Some r ->
  exists pre rest r',
    s = pre +:+ rest /\ PyStr.nonempty pre = true /\ PyStr.all_chars ok pre = true
    /\ k rest = Some r' /\ r = (pre +:+ fst r', snd r').
Proof.
  induction s as [|c s IH]; intros r H; cbn [Re.plus_then] in H; [discriminate|].
  destruct (ok c) eqn:Ec; [|discriminate].
  destruct (Re.plus_then ok k s) as [r0|] eqn:E.
  - destruct (IH r0 eq_refl) as (pre & rest & r' & -> & Hn & Ha & Hk & ->).
    cbn [Re.consume fst snd] in H. injection H as <-.
    exists (String c pre), rest, r'. repeat split; try assumption.
    cbn [PyStr.all_chars]. rewrite Ec, Ha. reflexivity.
  - destruct (k s) as [[w gs]|] eqn:Ek; [|discriminate].
    cbn [Re.consume] in H. injection H as <-.
    exists (String c EmptyString), s, (w, gs). repeat split; try assumption.
    cbn [PyStr.all_chars]. rewrite Ec. reflexivity.
Qed.

Lemma plus_then_stops ok k s : stops ok s = true -> Re.plus_then ok k s = None.
Proof.
  destruct s as [|c s]; [reflexivity|]. cbn [stops Re.plus_then].
  intros H. apply negb_true_iff in H. rewrite H. reflexivity.
Qed.

Lemma plus_greedy ok k d : forall rest,
  (forall c x, ok c = true -> k (String c x) = None) ->
  PyStr.nonempty d = true -> PyStr.all_chars ok d = true -> stops ok rest = true ->
  Re.plus_then ok k (d +:+ rest) = prepend d (k rest).
Proof.
  intros rest Hk. induction d as [|c d IH]; intros Hn Ha Hs; [discriminate|].
  cbn [PyStr.all_chars] in Ha. apply andb_true_iff in Ha as [Hc Ha].
  rewrite append_cons. cbn [Re.plus_then]. rewrite Hc.
  destruct d as [|c' d'].
  - change (EmptyString +:+ rest) with rest.
    rewrite (plus_then_stops ok k rest Hs).
    destruct (k rest) as [[w gs]|]; reflexivity.
  - rewrite (IH eq_refl Ha Hs).
    destruct (k rest) as [[w gs]|]; cbn [prepend Re.consume]; [reflexivity|].
    rewrite append_cons, Hk; [reflexivity|].
    cbn [PyStr.all_chars] in Ha. apply andb_true_iff in Ha as [Ha _]. exact Ha.
Qed.

(** Facts about single characters, each checked on the 256 of them *)
Lemma digit_char c :
  PyStr.isdigit c = true ->
  Ascii.eqb c "."%char = false /\ Ascii.eqb c PyStr.newline = false.
Proof.
  destruct c as [[] [] [] [] [] [] [] []]; vm_compute; intros H; try discriminate; auto.
Qed.

Lemma roman_char c :
  is_roman c = true ->
  PyStr.isdigit c = false /\ Ascii.eqb c PyStr.newline = false
  /\ Ascii.eqb "."%char c = false /\ is_letter c = true.
Proof.
  destruct c as [[] [] [] [] [] [] [] []]; vm_compute; intros H; try discriminate; auto.
Qed.

Lemma letter_range_upper c : Re.atom_ok true (letters "A" "Z") c = is_letter c.
Proof. by_cases_on_char c. Qed.

Lemma letter_range_lower c : Re.atom_ok true (letters "a" "z") c = is_letter c.
Proof. by_cases_on_char c. Qed.

Lemma level_single c :
  _determine_section_level (String c EmptyString) = if PyStr.islower c then 2 else 1.
Proof. by_cases_on_char c. Qed.

Lemma level_of_shape_single c :
  is_letter c = true ->
  level_of_shape (String c EmptyString) = if PyStr.islower c then 2 else 1.
Proof.
  destruct c as [[] [] [] [] [] [] [] []]; vm_compute; intros H; try discriminate; reflexivity.
Qed.

Lemma lit_dot_char c : Re.atom_ok true (Re.Lit "."%char) c = true -> c = "."%char.
Proof.
  destruct c as [[] [] [] [] [] [] [] []]; vm_compute; intros H; try discriminate; reflexivity.
Qed.

(** ** The level of each shape *)

Lemma determine_section_level_tests number :
  _determine_section_level number = level_tests number.
Proof. reflexivity. Qed.

Lemma run_bol ic r s : Re.run ic (Re.Bol :: r) true s = Re.run ic r true s.
Proof. reflexivity. Qed.

Lemma run_plus ic a r b s :
  Re.run ic (Re.Plus a :: r) b s = Re.plus_then (Re.atom_ok ic a) (Re.run ic r false) s.
Proof. reflexivity. Qed.

Lemma run_one ic a r b c s :
  Re.run ic (Re.One a :: r) b (String c s)
  = if Re.atom_ok ic a c then Re.consume c (Re.run ic r false s) else None.
Proof. reflexivity. Qed.

Lemma run_eol_end ic b : Re.run ic [Re.Eol] b EmptyString = Some (EmptyString, []).
Proof. reflexivity. Qed.

Lemma is_digits_parts ic d :
  is_digits d = true ->
  PyStr.nonempty d = true /\ PyStr.all_chars (Re.atom_ok ic Re.Digit) d = true.
Proof. unfold is_digits. intros H. apply andb_true_iff in H. exact H. Qed.

Lemma eol_rejects_digit ic b c x :
  Re.atom_ok ic Re.Digit c = true -> Re.run ic [Re.Eol] b (String c x) = None.
Proof.
  intros H. destruct (digit_char c H) as [_ Hn]. cbn [Re.run].
  destruct x; [rewrite Hn|]; reflexivity.
Qed.

Lemma dot_rejects_digit r b c x :
  Re.atom_ok false Re.Digit c = true -> Re.run false (dot :: r) b (String c x) = None.
Proof.
  intros H. destruct (digit_char c H) as [Hd _]. unfold dot. rewrite run_one.
  unfold Re.atom_ok, Re.same_char. rewrite Hd. reflexivity.
Qed.

Lemma eol_rejects_dot ic b x : Re.run ic [Re.Eol] b (String "."%char x) = None.
Proof. cbn [Re.run]. destruct x; reflexivity. Qed.

Lemma digits_eol ic d :
  is_digits d = true ->
  Re.plus_then (Re.atom_ok ic Re.Digit) (Re.run ic [Re.Eol] false) d = Some (d, []).
Proof.
  intros H. apply (is_digits_parts ic) in H as [Hn Ha].
  rewrite <- (append_empty_r d) at 1.
  rewrite plus_greedy; try assumption; try reflexivity.
  - rewrite run_eol_end. cbn [prepend]. rewrite append_empty_r. reflexivity.
  - intros c x Hc. apply eol_rejects_digit. assumption.
Qed.

Lemma digits_then_dot ic (k : string -> option Re.out) d rest :
  is_digits d = true ->
  (forall c x, Re.atom_ok ic Re.Digit c = true -> k (String c x) = None) ->
  Re.plus_then (Re.atom_ok ic Re.Digit) k (d +:+ String "."%char rest)
  = prepend d (k (String "."%char rest)).
Proof.
  intros H Hk. apply (is_digits_parts ic) in H as [Hn Ha].
  apply plus_greedy; try assumption. reflexivity.
Qed.

Lemma run_dot r b rest :
  Re.run false (dot :: r) b (String "."%char rest)
  = Re.consume "."%char (Re.run false r false rest).
Proof. reflexivity. Qed.

Lemma run_integer_digits d :
  is_digits d = true -> Re.run false re_integer true d = Some (d, []).
Proof. intros H. unfold re_integer. rewrite run_bol, run_plus. apply digits_eol, H. Qed.

Lemma run_integer_dotted d rest :
  is_digits d = true -> Re.run false re_integer true (d +:+ String "."%char rest) = None.
Proof.
  intros H. unfold re_integer. rewrite run_bol, run_plus.
  rewrite (digits_then_dot false _ d rest H) by (intros; apply eol_rejects_digit; assumption).
  rewrite eol_rejects_dot. reflexivity.
Qed.

Lemma run_decimal_decimal d1 d2 :
  is_digits d1 = true -> is_digits d2 = true ->
  Re.run false re_decimal true (d1 +:+ String "."%char d2)
  = Some (d1 +:+ String "."%char d2, []).
Proof.
  intros H1 H2. unfold re_decimal. rewrite run_bol, run_plus.
  rewrite (digits_then_dot false _ d1 d2 H1) by (intros; apply dot_rejects_digit; assumption).
  rewrite run_dot, run_plus, (digits_eol false d2 H2). reflexivity.
Qed.

Lemma run_decimal_three d1 d2 rest :
  is_digits d1 = true -> is_digits d2 = true ->
  Re.run false re_decimal true (d1 +:+ String "."%char (d2 +:+ String "."%char rest)) = None.
Proof.
  intros H1 H2. unfold re_decimal. rewrite run_bol, run_plus.
  rewrite (digits_then_dot false _ d1 _ H1) by (intros; apply dot_rejects_digit; assumption).
  rewrite run_dot, run_plus.
  rewrite (digits_then_dot false _ d2 rest H2) by (intros; apply eol_rejects_digit; assumption).
  rewrite eol_rejects_dot. reflexivity.
Qed.

Lemma run_three_three d1 d2 d3 :
  is_digits d1 = true -> is_digits d2 = true -> is_digits d3 = true ->
  Re.run false re_three true (d1 +:+ String "."%char (d2 +:+ String "."%char d3))
  <> None.
Proof.
  intros H1 H2 H3. unfold re_three. rewrite run_bol, run_plus.
  rewrite (digits_then_dot false _ d1 _ H1) by (intros; apply dot_rejects_digit; assumption).
  rewrite run_dot, run_plus.
  rewrite (digits_then_dot false _ d2 d3 H2) by (intros; apply dot_rejects_digit; assumption).
  rewrite run_dot, run_plus, (digits_eol false d3 H3). discriminate.
Qed.

Lemma level_integer d : is_digits d = true -> _determine_section_level d = 1.
Proof.
  intros H. rewrite determine_section_level_tests. unfold level_tests, matches, Re.rmatch.
  fold re_integer. rewrite (run_integer_digits d H). reflexivity.
Qed.

Lemma level_decimal d1 d2 :
  is_digits d1 = true -> is_digits d2 = true ->
  _determine_section_level (d1 +:+ String "."%char d2) = 2.
Proof.
  intros H1 H2. rewrite determine_section_level_tests. unfold level_tests, matches, Re.rmatch.
  fold re_integer re_decimal.
  rewrite (run_integer_dotted d1 d2 H1), (run_decimal_decimal d1 d2 H1 H2). reflexivity.
Qed.

Lemma level_three d1 d2 d3 :
  is_digits d1 = true -> is_digits d2 = true -> is_digits d3 = true ->
  _determine_section_level (d1 +:+ String "."%char (d2 +:+ String "."%char d3)) = 3.
Proof.
  intros H1 H2 H3. rewrite determine_section_level_tests.
  unfold level_tests, matches, Re.rmatch. fold re_integer re_decimal re_three.
  rewrite (run_integer_dotted d1 _ H1), (run_decimal_three d1 d2 d3 H1 H2).
  pose proof (run_three_three d1 d2 d3 H1 H2 H3) as N.
  destruct (Re.run false re_three true _) as [[w gs]|]; [reflexivity | contradiction].
Qed.

Lemma run_digit_first r c x :
  PyStr.isdigit c = false ->
  Re.run false (Re.Bol :: Re.Plus Re.Digit :: r) true (String c x) = None.
Proof.
  intros H. rewrite run_bol, run_plus. cbn [Re.plus_then].
  change (Re.atom_ok false Re.Digit c) with (PyStr.isdigit c). rewrite H. reflexivity.
Qed.

Lemma run_single_long a c1 c2 x :
  Ascii.eqb c2 PyStr.newline = false ->
  Re.run false [Re.Bol; Re.One a; Re.Eol] true (String c1 (String c2 x)) = None.
Proof.
  intros H. rewrite run_bol, run_one.
  assert (E : Re.run false [Re.Eol] false (String c2 x) = None).
  { cbn [Re.run]. destruct x; [rewrite H|]; reflexivity. }
  rewrite E. destruct (Re.atom_ok false a c1); reflexivity.
Qed.

Lemma count_dot_roman r : PyStr.all_chars is_roman r = true -> count_char "." r = 0.
Proof.
  induction r as [|c r IH]; intros H; [reflexivity|].
  cbn [PyStr.all_chars] in H. apply andb_true_iff in H as [Hc H].
  destruct (roman_char c Hc) as (_ & _ & Pc & _).
  cbn [count_char]. rewrite Pc, (IH H). reflexivity.
Qed.

Lemma level_roman r :
  PyStr.nonempty r = true -> PyStr.all_chars is_roman r = true ->
  _determine_section_level r = level_of_shape r.
Proof.
  intros Hn Ha. pose proof (count_dot_roman r Ha) as C.
  destruct r as [|c1 r]; [discriminate|].
  cbn [PyStr.all_chars] in Ha. apply andb_true_iff in Ha as [H1 Ha].
  destruct (roman_char c1 H1) as (D1 & N1 & P1 & L1).
  destruct r as [|c2 r].
  - rewrite level_single, (level_of_shape_single c1 L1). reflexivity.
  - cbn [PyStr.all_chars] in Ha. apply andb_true_iff in Ha as [H2 Ha].
    destruct (roman_char c2 H2) as (D2 & N2 & P2 & L2).
    unfold level_of_shape, level_in_spec. rewrite C. cbn [is_lower_letter].
    rewrite determine_section_level_tests. unfold level_tests, matches, Re.rmatch.
    rewrite !(run_digit_first _ c1 _ D1), !(run_single_long _ c1 c2 r N2).
    destruct (Re.run false [Re.Bol; Re.Plus roman; Re.Eol] true _) as [[? ?]|]; reflexivity.
Qed.

Lemma count_dot_digits d : PyStr.all_chars PyStr.isdigit d = true -> count_char "." d = 0.
Proof.
  induction d as [|c d IH]; intros H; [reflexivity|].
  cbn [PyStr.all_chars] in H. apply andb_true_iff in H as [Hc H].
  destruct (digit_char c Hc) as [Hd _]. cbn [count_char].
  rewrite Ascii.eqb_sym, Hd, (IH H). reflexivity.
Qed.

Lemma count_char_app c s t : count_char c (s +:+ t) = count_char c s + count_char c t.
Proof.
  induction s as [|d s IH]; [reflexivity|]. rewrite append_cons. cbn [count_char].
  rewrite IH. lia.
Qed.

Lemma digits_not_lower_letter d rest :
  is_digits d = true -> is_lower_letter (d +:+ rest) = false.
Proof.
  intros H. apply (is_digits_parts false) in H as [Hn Ha].
  destruct d as [|c d]; [discriminate|]. cbn [PyStr.all_chars] in Ha.
  apply andb_true_iff in Ha as [Hc _]. rewrite append_cons. cbn [is_lower_letter].
  assert (L : PyStr.islower c = false).
  { revert Hc. clear. destruct c as [[] [] [] [] [] [] [] []]; vm_compute; intros H;
      try discriminate; reflexivity. }
  rewrite L. destruct (d +:+ rest); reflexivity.
Qed.

Lemma count_dot_is_digits d : is_digits d = true -> count_char "." d = 0.
Proof. intros H. apply (is_digits_parts false) in H as [_ Ha]. apply count_dot_digits, Ha. Qed.

(** On every shape the tests of the code give the level of the shape *)
Lemma level_of_number_shape number :
  number_shape number -> _determine_section_level number = level_of_shape number.
Proof.
  intros [d H | d1 d2 H1 H2 | d1 d2 d3 H1 H2 H3 | c H | r Hn Ha].
  - rewrite (level_integer d H). unfold level_of_shape, level_in_spec.
    rewrite <- (append_empty_r d) at 1. rewrite (digits_not_lower_letter d _ H).
    rewrite (count_dot_is_digits d H). reflexivity.
  - rewrite (level_decimal d1 d2 H1 H2). unfold level_of_shape, level_in_spec.
    rewrite (digits_not_lower_letter d1 _ H1), count_char_app. cbn [count_char].
    rewrite (count_dot_is_digits d1 H1), (count_dot_is_digits d2 H2). reflexivity.
  - rewrite (level_three d1 d2 d3 H1 H2 H3). unfold level_of_shape, level_in_spec.
    rewrite (digits_not_lower_letter d1 _ H1), count_char_app. cbn [count_char].
    rewrite count_char_app. cbn [count_char].
    rewrite (count_dot_is_digits d1 H1), (count_dot_is_digits d2 H2),
            (count_dot_is_digits d3 H3). reflexivity.
  - rewrite level_single, (level_of_shape_single c H). reflexivity.
  - apply level_roman; assumption.
Qed.

(** ** What the header patterns capture *)

Lemma run_one_inv ic a r b s w gs :
  Re.run ic (Re.One a :: r) b s = Some (w, gs) ->
  exists c s' w', s = String c s' /\ Re.atom_ok ic a c = true
                  /\ Re.run ic r false s' = Some (w', gs) /\ w = String c w'.
Proof.
  destruct s as [|c s']; [discriminate|]. rewrite run_one.
  destruct (Re.atom_ok ic a c) eqn:E; [|discriminate].
  destruct (Re.run ic r false s') as [[w' gs']|] eqn:R; [|discriminate].
  cbn [Re.consume]. intros H. injection H as <- <-. eauto 10.
Qed.

Lemma run_plus_inv ic a r b s w gs :
  Re.run ic (Re.Plus a :: r) b s = Some (w, gs) ->
  exists pre rest w',
    s = pre +:+ rest /\ PyStr.nonempty pre = true
    /\ PyStr.all_chars (Re.atom_ok ic a) pre = true
    /\ Re.run ic r false rest = Some (w', gs) /\ w = pre +:+ w'.
Proof.
  rewrite run_plus. intros H.
  apply plus_then_sound in H as (pre & rest & [w' gs'] & -> & Hn & Ha & Hk & E).
  cbn [fst snd] in E. injection E as -> ->. eauto 10.
Qed.

Lemma run_open_inv ic r b s w gs :
  Re.run ic (Re.Open :: r) b s = Some (w, gs) ->
  exists g gs', Re.run ic r b s = Some (g, gs') /\ gs = g :: gs'.
Proof.
  cbn [Re.run]. destruct (Re.run ic r b s) as [[g gs']|]; [|discriminate].
  intros H. injection H as <- <-. eauto.
Qed.

Lemma run_close_inv ic r b s w gs :
  Re.run ic (Re.Close :: r) b s = Some (w, gs) -> w = EmptyString.
Proof.
  cbn [Re.run]. destruct (Re.run ic r b s) as [[g gs']|]; [|discriminate].
  intros H. injection H as <- <-. reflexivity.
Qed.

(** A group that is one [a+] *)
Lemma group_plus ic a r b s w gs :
  Re.run ic (Re.Open :: Re.Plus a :: Re.Close :: r) b s = Some (w, gs) ->
  exists g gs', gs = g :: gs' /\ PyStr.nonempty g = true
                /\ PyStr.all_chars (Re.atom_ok ic a) g = true.
Proof.
  intros H. apply run_open_inv in H as (g & gs' & H & ->).
  apply run_plus_inv in H as (pre & rest & w' & _ & Hn & Ha & Hc & ->).
  apply run_close_inv in Hc as ->. rewrite append_empty_r. eauto.
Qed.

(** A group that is one character of [a] *)
Lemma group_one ic a r b s w gs :
  Re.run ic (Re.Open :: Re.One a :: Re.Close :: r) b s = Some (w, gs) ->
  exists c gs', gs = String c EmptyString :: gs' /\ Re.atom_ok ic a c = true.
Proof.
  intros H. apply run_open_inv in H as (g & gs' & H & ->).
  apply run_one_inv in H as (c & s' & w' & _ & Ha & Hc & ->).
  apply run_close_inv in Hc as ->. eauto.
Qed.

Lemma is_digits_of g :
  PyStr.nonempty g = true -> PyStr.all_chars (Re.atom_ok true Re.Digit) g = true ->
  is_digits g = true.
Proof. intros Hn Ha. unfold is_digits. rewrite Hn. exact Ha. Qed.

Lemma group_decimal r b s w gs :
  Re.run true (Re.Open :: Re.Plus Re.Digit :: dot :: Re.Plus Re.Digit :: Re.Close :: r) b s
  = Some (w, gs) ->
  exists d1 d2 gs', gs = (d1 +:+ String "."%char d2) :: gs'
                    /\ is_digits d1 = true /\ is_digits d2 = true.
Proof.
  intros H. apply run_open_inv in H as (g & gs' & H & ->).
  apply run_plus_inv in H as (d1 & rest & w1 & _ & Hn1 & Ha1 & H & ->).
  apply run_one_inv in H as (c & s' & w2 & _ & Hc & H & ->).
  apply lit_dot_char in Hc as ->.
  apply run_plus_inv in H as (d2 & rest2 & w3 & _ & Hn2 & Ha2 & H & ->).
  apply run_close_inv in H as ->. rewrite append_empty_r.
  exists d1, d2, gs'. auto using is_digits_of.
Qed.

Lemma group_three r b s w gs :
  Re.run true (Re.Open :: Re.Plus Re.Digit :: dot :: Re.Plus Re.Digit :: dot
                 :: Re.Plus Re.Digit :: Re.Close :: r) b s
  = Some (w, gs) ->
  exists d1 d2 d3 gs',
    gs = (d1 +:+ String "."%char (d2 +:+ String "."%char d3)) :: gs'
    /\ is_digits d1 = true /\ is_digits d2 = true /\ is_digits d3 = true.
Proof.
  intros H. apply run_open_inv in H as (g & gs' & H & ->).
  apply run_plus_inv in H as (d1 & rest & w1 & _ & Hn1 & Ha1 & H & ->).
  apply run_one_inv in H as (c & s' & w2 & _ & Hc & H & ->).
  apply lit_dot_char in Hc as ->.
  apply run_plus_inv in H as (d2 & rest2 & w3 & _ & Hn2 & Ha2 & H & ->).
  apply run_one_inv in H as (c & s'' & w4 & _ & Hc & H & ->).
  apply lit_dot_char in Hc as ->.
  apply run_plus_inv in H as (d3 & rest3 & w5 & _ & Hn3 & Ha3 & H & ->).
  apply run_close_inv in H as ->. rewrite append_empty_r.
  exists d1, d2, d3, gs'. auto 6 using is_digits_of.
Qed.

(** The first group of a match of each header pattern has one of the shapes *)
Lemma pattern_number_shape pattern line groups :
  In pattern section_patterns ->
  Re.rmatch true pattern line = Some groups ->
  number_shape (nth 0 groups EmptyString).
Proof.
  unfold Re.rmatch. intros Hin H.
  destruct (Re.run true pattern true line) as [[w gs]|] eqn:R; [|discriminate].
  injection H as <-.
  cbv [section_patterns Re.lits app] in Hin.
  repeat (destruct Hin as [<- | Hin]); try contradiction; rewrite run_bol in R.
  - apply group_plus in R as (g & gs' & -> & Hn & Ha).
    apply shape_integer, is_digits_of; assumption.
  - apply group_decimal in R as (d1 & d2 & gs' & -> & H1 & H2).
    apply shape_decimal; assumption.
  - apply group_three in R as (d1 & d2 & d3 & gs' & -> & H1 & H2 & H3).
    apply shape_three; assumption.
  - apply group_one in R as (c & gs' & -> & Ha). rewrite letter_range_upper in Ha.
    apply shape_letter; assumption.
  - apply group_plus in R as (g & gs' & -> & Hn & Ha).
    apply shape_roman; assumption.
  - do 7 (apply run_one_inv in R as (? & ? & ? & _ & _ & R & _)).
    apply run_plus_inv in R as (? & ? & ? & _ & _ & _ & R & _).
    apply group_plus in R as (g & gs' & -> & Hn & Ha).
    apply shape_integer, is_digits_of; assumption.
  - do 7 (apply run_one_inv in R as (? & ? & ? & _ & _ & R & _)).
    apply run_plus_inv in R as (? & ? & ? & _ & _ & _ & R & _).
    apply group_plus in R as (g & gs' & -> & Hn & Ha).
    apply shape_integer, is_digits_of; assumption.
  - apply group_plus in R as (g & gs' & -> & Hn & Ha).
    apply shape_integer, is_digits_of; assumption.
  - apply group_one in R as (c & gs' & -> & Ha). rewrite letter_range_lower in Ha.
    apply shape_letter; assumption.
Qed.

Lemma match_header_from_inv patterns line lvl num title :
  match_header_from patterns line = Some (lvl, num, title) ->
  exists pattern groups,
    In pattern patterns /\ Re.rmatch true pattern line = Some groups
    /\ num = nth 0 groups EmptyString /\ lvl = _determine_section_level num.
Proof.
  induction patterns as [|p ps IH]; cbn [match_header_from]; [discriminate|].
  destruct (Re.rmatch true p line) as [groups|] eqn:R.
  - destruct (_is_valid_section _).
    + intros H. injection H as <- <- <-. exists p, groups. repeat split; [left|]; auto.
    + intros H. destruct (IH H) as (q & g & Hq & ?). exists q, g. split; [right|]; auto.
  - intros H. destruct (IH H) as (q & g & Hq & ?). exists q, g. split; [right|]; auto.
Qed.




Example header_levels :
  map _match_section_header
      ["3. Scope"; "3.1 Scope"; "3.1.4 Scope"; "B. Scope"; "IV. Scope"; "b) Scope";
       "b. Scope"; "iv. Scope"; "This is plain text."]
  = [Some (1, "3", "Scope"); Some (2, "3.1", "Scope"); Some (3, "3.1.4", "Scope");
     Some (1, "B", "Scope"); Some (1, "IV", "Scope"); Some (2, "b", "Scope");
     Some (2, "b", "Scope"); Some (1, "iv", "Scope"); None].
Proof. vm_compute. reflexivity. Qed.

(** ** The exact-match index *)

Lemma dd_get_value {V : Type} (k : string) (d : gmap string (list V)) :
  fst (dd_get k d) = refs_at d k.
Proof. unfold dd_get, refs_at. destruct (d !! k); reflexivity. Qed.

Lemma dd_get_refs {V : Type} (k k' : string) (d : gmap string (list V)) :
  refs_at (snd (dd_get k d)) k' = refs_at d k'.
Proof.
  unfold dd_get, refs_at. destruct (d !! k) eqn:E; simpl; [reflexivity|].
  destruct (decide (k = k')) as [->|Hne].
  - rewrite lookup_insert_eq, E. reflexivity.
  - rewrite lookup_insert_ne by assumption. reflexivity.
Qed.


Lemma refs_at_elem {V : Type} (d : gmap string (list V)) k r :
  r ∈ refs_at d k <-> exists refs, d !! k = Some refs /\ r ∈ refs.
Proof.
  unfold refs_at. destruct (d !! k) as [refs|]; simpl; split.
  - intros H. exists refs. auto.
  - intros (refs' & E & H). congruence.
  - intros H. inversion H.
  - intros (refs' & E & H). discriminate.
Qed.

Lemma hashes_of_elem (d : gmap string (gset string)) k h :
  h ∈ hashes_of d k <-> exists hs, d !! k = Some hs /\ h ∈ hs.
Proof.
  unfold hashes_of. destruct (d !! k) as [hs|]; simpl; split.
  - intros H. exists hs. auto.
  - intros (hs' & E & H). congruence.
  - intros H. set_solver.
  - intros (hs' & E & H). discriminate.
Qed.

Lemma forward_bidirectional self : forward self <-> bidirectional self.
Proof.
  unfold forward, bidirectional. split.
  - intros F d hashes h Hd Hh.
    destruct (F d h) as (r & Hr & Hn).
    { apply hashes_of_elem. eauto. }
    apply refs_at_elem in Hr as (refs & E & Hr). eauto.
  - intros B d h Hh. apply hashes_of_elem in Hh as (hs & E & Hh).
    destruct (B d hs h E Hh) as (refs & r & E' & Hr & Hn).
    exists r. split; [apply refs_at_elem; eauto | assumption].
Qed.

Lemma refs_at_dd_append {V : Type} (k k' : string) (v : V) d :
  refs_at (dd_append k v d) k' = if decide (k = k') then refs_at d k ++ [v] else refs_at d k'.
Proof.
  unfold dd_append, refs_at. destruct (decide (k = k')) as [->|Hne].
  - rewrite lookup_insert_eq. reflexivity.
  - rewrite lookup_insert_ne by assumption. reflexivity.
Qed.

Lemma hashes_of_dd_add (k k' x : string) d :
  hashes_of (dd_add k x d) k' = if decide (k = k') then hashes_of d k ∪ {[x]} else hashes_of d k'.
Proof.
  unfold dd_add, hashes_of. destruct (decide (k = k')) as [->|Hne].
  - rewrite lookup_insert_eq. reflexivity.
  - rewrite lookup_insert_ne by assumption. reflexivity.
Qed.

Lemma add_sentences_sections d chunk l : forall self,
  hash_to_documents (fold_left (add_sentence d chunk) l self) = hash_to_documents self
  /\ document_to_hashes (fold_left (add_sentence d chunk) l self) = document_to_hashes self
  /\ persistence_file (fold_left (add_sentence d chunk) l self) = persistence_file self.
Proof.
  induction l as [|s l IH]; intros self; simpl; [auto|].
  destruct (IH (add_sentence d chunk self s)) as (A & B & C). rewrite A, B, C.
  unfold add_sentence. destruct (PyStr.nonempty (sh_sentence_hash s)); auto.
Qed.

Lemma add_chunk_invariant d self chunk :
  forward self /\ backward self ->
  forward (add_chunk d self chunk) /\ backward (add_chunk d self chunk).
Proof.
  intros [F B]. unfold add_chunk.
  destruct (ck_content_hash chunk) as [h|]; [|auto].
  destruct (PyStr.nonempty h); [|auto].
  match goal with |- context [fold_left ?f ?l ?s] =>
    destruct (add_sentences_sections d chunk l s) as (A & A' & _) end.
  unfold forward, backward. rewrite A, A'. simpl. split.
  - intros d' h' Hh. rewrite hashes_of_dd_add in Hh. rewrite refs_at_dd_append.
    destruct (decide (d = d')) as [<-|Hne].
    + apply elem_of_union in Hh as [Hh|Hh].
      * destruct (F d h' Hh) as (r & Hr & Hn). exists r. split; [|assumption].
        destruct (decide (h = h')) as [<-|]; [apply elem_of_app; auto | assumption].
      * apply elem_of_singleton in Hh. subst h'. exists (chunk_ref d chunk).
        rewrite decide_True by reflexivity. split; [|reflexivity].
        apply elem_of_app. right. apply list_elem_of_singleton. reflexivity.
    + destruct (F d' h' Hh) as (r & Hr & Hn). exists r. split; [|assumption].
      destruct (decide (h = h')) as [<-|]; [apply elem_of_app; auto | assumption].
  - intros h' r Hr. rewrite refs_at_dd_append in Hr. rewrite hashes_of_dd_add.
    destruct (decide (h = h')) as [<-|Hne].
    + apply elem_of_app in Hr as [Hr|Hr].
      * specialize (B h r Hr).
        destruct (decide (d = cr_document_name r)) as [E|]; [rewrite <- E in B; set_solver | assumption].
      * apply list_elem_of_singleton in Hr. subst r. simpl.
        rewrite decide_True by reflexivity. set_solver.
    + specialize (B h' r Hr).
      destruct (decide (d = cr_document_name r)) as [E|]; [rewrite <- E in B; set_solver | assumption].
Qed.

Lemma add_chunks_invariant d chunks : forall self,
  forward self /\ backward self ->
  forward (fold_left (add_chunk d) chunks self) /\ backward (fold_left (add_chunk d) chunks self).
Proof.
  induction chunks as [|c chunks IH]; intros self H; simpl; [assumption|].
  apply IH. apply add_chunk_invariant. assumption.
Qed.

Lemma add_document_chunks_invariant d chunks self :
  forward self /\ backward self ->
  forward (add_document_chunks d chunks self) /\ backward (add_document_chunks d chunks self).
Proof.
  intros H. apply (add_chunks_invariant d chunks) in H. exact H.
Qed.

Lemma not_of_true d doc : not_of d doc = true <-> cr_document_name doc <> d.
Proof.
  unfold not_of. rewrite negb_true_iff. split.
  - intros H E. apply String.eqb_neq in H. contradiction.
  - intros H. apply String.eqb_neq. assumption.
Qed.

Lemma filter_not_of_twice d l :
  List.filter (not_of d) (List.filter (not_of d) l) = List.filter (not_of d) l.
Proof.
  induction l as [|x l IH]; simpl; [reflexivity|].
  destruct (not_of d x) eqn:E; simpl; [rewrite E, IH|]; auto.
Qed.

Lemma refs_at_remove_hash d h2d n h k :
  refs_at (fst (remove_hash d (h2d, n) h)) k
  = if decide (h = k) then List.filter (not_of d) (refs_at h2d h) else refs_at h2d k.
Proof.
  unfold remove_hash, refs_at. destruct (h2d !! h) as [docs|] eqn:E; simpl.
  - destruct (decide (h = k)) as [<-|Hne].
    + destruct (List.filter (not_of d) docs) eqn:Ef; simpl.
      * rewrite lookup_delete_eq. reflexivity.
      * rewrite <- Ef. rewrite lookup_insert_eq. reflexivity.
    + destruct (List.filter (not_of d) docs) eqn:Ef; simpl.
      * rewrite lookup_delete_ne, lookup_insert_ne by assumption. reflexivity.
      * rewrite <- Ef. rewrite lookup_insert_ne by assumption. reflexivity.
  - destruct (decide (h = k)) as [<-|Hne]; [rewrite E|]; reflexivity.
Qed.

Lemma refs_at_remove_fold d l : forall h2d n k,
  refs_at (fst (fold_left (remove_hash d) l (h2d, n))) k
  = if decide (k ∈ l) then List.filter (not_of d) (refs_at h2d k) else refs_at h2d k.
Proof.
  induction l as [|h l IH]; intros h2d n k; cbn [fold_left].
  - destruct (decide (k ∈ [])) as [H|]; [inversion H | reflexivity].
  - pose proof (refs_at_remove_hash d h2d n h k) as R.
    destruct (remove_hash d (h2d, n) h) as [h2d1 n1]. simpl in R.
    rewrite IH, R.
    destruct (decide (k ∈ l)) as [Hin|Hnin], (decide (h = k)) as [E|Hne],
             (decide (k ∈ h :: l)) as [Hc|Hc];
      try subst h;
      try reflexivity;
      try (exfalso; apply Hc; apply elem_of_cons; auto; fail).
    + apply filter_not_of_twice.
    + exfalso. apply elem_of_cons in Hc as [E2|Hin2]; [congruence | contradiction].
Qed.

Lemma remove_document_maps d self hs :
  document_to_hashes self !! d = Some hs ->
  let self' := snd (remove_document d self) in
  (forall k, refs_at (hash_to_documents self') k
             = if decide (k ∈ hs) then List.filter (not_of d) (refs_at (hash_to_documents self) k)
               else refs_at (hash_to_documents self) k)
  /\ document_to_hashes self' = delete d (document_to_hashes self).
Proof.
  intros E. unfold remove_document. rewrite E.
  pose proof (fun k => refs_at_remove_fold d (elements hs) (hash_to_documents self) 0 k) as R.
  destruct (fold_left _ _ _) as [h2d n]. simpl in *. split; [|reflexivity].
  intros k. rewrite R.
  destruct (decide (k ∈ elements hs)) as [H|H], (decide (k ∈ hs)) as [H'|H']; try reflexivity.
  - exfalso. apply H'. apply elem_of_elements. assumption.
  - exfalso. apply H. apply elem_of_elements. assumption.
Qed.

Lemma remove_document_invariant d self :
  forward self /\ backward self ->
  forward (snd (remove_document d self)) /\ backward (snd (remove_document d self)).
Proof.
  intros [F B]. destruct (document_to_hashes self !! d) as [hs|] eqn:E.
  2:{ unfold remove_document. rewrite E. simpl. auto. }
  destruct (remove_document_maps d self hs E) as [R D]. simpl in R, D.
  unfold forward, backward. rewrite D. split.
  - intros d' h Hh. rewrite R.
    assert (d' <> d /\ h ∈ hashes_of (document_to_hashes self) d') as [Hne Hh'].
    { unfold hashes_of in *. destruct (decide (d' = d)) as [->|Hne].
      - rewrite lookup_delete_eq in Hh. set_solver.
      - rewrite lookup_delete_ne in Hh by congruence. auto. }
    destruct (F d' h Hh') as (r & Hr & Hn). exists r. split; [|assumption].
    destruct (decide (h ∈ hs)); [|assumption].
    apply list_elem_of_In, filter_In. split; [apply list_elem_of_In; assumption|].
    apply not_of_true. congruence.
  - intros h r Hr. rewrite R in Hr.
    assert (r ∈ refs_at (hash_to_documents self) h /\ (h ∈ hs -> cr_document_name r <> d)) as [Hr' Hn].
    { destruct (decide (h ∈ hs)) as [Hin|Hnin].
      - apply list_elem_of_In, filter_In in Hr as [Hr Hn]. split.
        + apply list_elem_of_In; assumption.
        + intros _. apply not_of_true. assumption.
      - split; [assumption | contradiction]. }
    specialize (B h r Hr'). unfold hashes_of in *.
    destruct (decide (cr_document_name r = d)) as [Heq|Hne].
    + rewrite Heq, E in B. simpl in B. exfalso. apply (Hn B). assumption.
    + rewrite lookup_delete_ne by congruence. assumption.
Qed.

Lemma same_sections_invariant self self' :
  same_sections self self' ->
  forward self /\ backward self -> forward self' /\ backward self'.
Proof.
  intros [R D] [F B]. unfold forward, backward. rewrite D. split.
  - intros d h Hh. setoid_rewrite R. auto.
  - intros h r Hr. rewrite R in Hr. auto.
Qed.


Lemma compare_fold a b l : forall h2d ms k,
  refs_at (fst (fold_left (compare_step a b) l (h2d, ms))) k = refs_at h2d k.
Proof.
  induction l as [|h l IH]; intros h2d ms k; cbn [fold_left]; [reflexivity|].
  unfold compare_step at 2.
  pose proof (dd_get_refs h k h2d) as Hr.
  destruct (dd_get h h2d) as [docs h2d1]. simpl in Hr.
  destruct (find (is_of a) docs), (find (is_of b) docs); rewrite IH; exact Hr.
Qed.

Lemma find_fold_refs d l : forall h2d ms k,
  refs_at (fst (fold_left (find_step d) l (h2d, ms))) k = refs_at h2d k.
Proof.
  induction l as [|h l IH]; intros h2d ms k; cbn [fold_left]; [reflexivity|].
  unfold find_step at 2.
  pose proof (dd_get_refs h k h2d) as Hr.
  destruct (dd_get h h2d) as [docs h2d1]. simpl in Hr.
  destruct (1 <? length docs); [destruct (List.filter (not_of d) docs)|]; rewrite IH; exact Hr.
Qed.

Lemma find_exact_matches_same d self : same_sections self (snd (find_exact_matches d self)).
Proof.
  unfold find_exact_matches, same_sections.
  destruct (document_to_hashes self !! d) as [hs|]; simpl; [|auto].
  pose proof (find_fold_refs d (elements hs) (hash_to_documents self) []) as R.
  destruct (fold_left _ _ _) as [h2d ms]. simpl in *. auto.
Qed.

Lemma compare_documents_exact_same a b self :
  same_sections self (snd (compare_documents_exact a b self)).
Proof.
  unfold compare_documents_exact, same_sections.
  destruct (document_to_hashes self !! a) as [ha|]; simpl; [|auto].
  destruct (document_to_hashes self !! b) as [hb|]; simpl; [|auto].
  pose proof (compare_fold a b (elements (ha ∩ hb)) (hash_to_documents self) []) as R.
  destruct (fold_left _ _ _) as [h2d ms]. simpl in *. auto.
Qed.

Lemma compare_documents_sentence_level_same a b self :
  same_sections self (snd (compare_documents_sentence_level a b self)).
Proof.
  unfold compare_documents_sentence_level, same_sections.
  destruct (document_to_sentence_hashes self !! a) as [ha|]; simpl; [|auto].
  destruct (document_to_sentence_hashes self !! b) as [hb|]; simpl; [|auto].
  destruct (fold_left _ _ _) as [s2d ms]. simpl. auto.
Qed.

Lemma step_invariant self c :
  forward self /\ backward self -> forward (step self c) /\ backward (step self c).
Proof.
  intros H. destruct c as [d chunks|d|d|a b|a b]; simpl.
  - apply add_document_chunks_invariant; assumption.
  - apply remove_document_invariant; assumption.
  - eapply same_sections_invariant; [apply find_exact_matches_same | assumption].
  - eapply same_sections_invariant; [apply compare_documents_exact_same | assumption].
  - eapply same_sections_invariant; [apply compare_documents_sentence_level_same | assumption].
Qed.

Lemma steps_invariant calls : forall self,
  forward self /\ backward self ->
  forward (fold_left step calls self) /\ backward (fold_left step calls self).
Proof.
  induction calls as [|c calls IH]; intros self H; simpl; [assumption|].
  apply IH, step_invariant, H.
Qed.

Lemma init_invariant : forward (init None) /\ backward (init None).
Proof.
  split.
  - intros d h H. unfold hashes_of in H. simpl in H. rewrite lookup_empty in H. set_solver.
  - intros h r H. unfold refs_at in H. simpl in H. rewrite lookup_empty in H. inversion H.
Qed.

(** C2.  Starting from the empty index, after any sequence of calls of
    [add_document_chunks] and [remove_document] (and of the queries, which
    read through [defaultdict]s), every hash recorded for a document in
    [document_to_hashes] is a key of [hash_to_documents] whose list holds a
    reference of that document. *)
Theorem bidirectional_consistency (calls : list call) : bidirectional (run calls).
Proof.
  apply forward_bidirectional. apply (steps_invariant calls (init None) init_invariant).
Qed.

Lemma find_fold d l : forall h2d ms,
  let r := fold_left (find_step d) l (h2d, ms) in
  (forall k, refs_at (fst r) k = refs_at h2d k)
  /\ (forall m, m ∈ snd r -> m ∈ ms \/ (mi_content_hash m ∈ l /\ match_ok d h2d m)).
Proof.
  induction l as [|h l IH]; intros h2d ms; simpl.
  - split; [reflexivity | auto].
  - unfold find_step at 2.
    pose proof (dd_get_value h h2d) as Hv. pose proof (fun k => dd_get_refs h k h2d) as Hr.
    destruct (dd_get h h2d) as [docs h2d1]. simpl in Hv, Hr. subst docs.
    assert (Hok : forall m, match_ok d h2d1 m -> match_ok d h2d m).
    { intros m (A & B & C). unfold match_ok. rewrite <- !Hr. auto. }
    destruct (1 <? length (refs_at h2d h)).
    + destruct (List.filter (not_of d) (refs_at h2d h)) eqn:Ef.
      * destruct (IH h2d1 ms) as [I1 I2]. split.
        { intros k. rewrite I1. apply Hr. }
        { intros m Hm. destruct (I2 m Hm) as [?|[? ?]]; [auto|].
          right. split; [apply elem_of_cons; auto | auto]. }
      * rewrite <- Ef.
        destruct (IH h2d1 (ms ++ [mkMatchInfo h (List.filter (not_of d) (refs_at h2d h))
                     (length (refs_at h2d h)) (find (is_of d) (refs_at h2d h))])) as [I1 I2].
        split.
        { intros k. rewrite I1. apply Hr. }
        { intros m Hm. destruct (I2 m Hm) as [Hin|[? ?]].
          - apply elem_of_app in Hin as [?|Hin]; [auto|].
            apply list_elem_of_singleton in Hin. subst m. right. split.
            + apply elem_of_cons; auto.
            + unfold match_ok; simpl. rewrite Ef. repeat split; congruence.
          - right. split; [apply elem_of_cons; auto | auto]. }
    + destruct (IH h2d1 ms) as [I1 I2]. split.
      { intros k. rewrite I1. apply Hr. }
      { intros m Hm. destruct (I2 m Hm) as [?|[? ?]]; [auto|].
        right. split; [apply elem_of_cons; auto | auto]. }
Qed.

(** C5.  For an unknown document [find_exact_matches] answers
    [{"error": "Document not found", "matches": []}] and leaves the service
    as it is; for a known one every reported match is a hash of the document
    under which another document has a reference, and the document itself
    is never among the [matching_documents]. *)
Theorem find_exact_matches_soft_no_self (d : string) (self : Service) :
  match document_to_hashes self !! d with
  | None => find_exact_matches d self = (FindError "Document not found" [], self)
  | Some hashes =>
      exists matches self',
        find_exact_matches d self
        = (FindOk d (size hashes) (length matches) matches, self')
        /\ Forall (fun m =>
             mi_content_hash m ∈ hashes
             /\ (exists other, other ∈ refs_at (hash_to_documents self) (mi_content_hash m)
                               /\ cr_document_name other <> d)
             /\ Forall (fun doc => cr_document_name doc <> d) (mi_matching_documents m))
           matches
  end.
Proof.
  unfold find_exact_matches. destruct (document_to_hashes self !! d) as [hashes|]; [|reflexivity].
  pose proof (find_fold d (elements hashes) (hash_to_documents self) []) as [_ H].
  destruct (fold_left (find_step d) (elements hashes) (hash_to_documents self, [])) as [h2d ms].
  simpl in H. eexists _, _. split; [reflexivity|].
  apply Forall_forall. intros m Hm. destruct (H m Hm) as [Hin|[Hh (A & B & C)]].
  - inversion Hin.
  - split; [apply elem_of_elements; assumption|]. split.
    + destruct (mi_matching_documents m) as [|o rest] eqn:E; [congruence|].
      assert (Ho : In o (List.filter (not_of d) (refs_at (hash_to_documents self) (mi_content_hash m)))).
      { rewrite <- A. left; reflexivity. }
      apply filter_In in Ho as [Ho1 Ho2]. exists o. split.
      * apply list_elem_of_In; assumption.
      * apply not_of_true; assumption.
    + rewrite A. apply Forall_forall. intros doc Hd.
      apply list_elem_of_In, filter_In in Hd as [_ Hd]. apply not_of_true; assumption.
Qed.

Lemma pos_of_nat_Z (k : nat) : 0 < k -> Z.pos (Pos.of_nat k) = Z.of_nat k.
Proof.
  intros H. rewrite <- positive_nat_Z. rewrite Nat2Pos.id by lia. reflexivity.
Qed.

Lemma similarity_formula (c n m : nat) :
  (similarity c n m == inject_Z (2 * Z.of_nat c) / inject_Z (Z.of_nat n + Z.of_nat m))%Q.
Proof.
  unfold similarity. destruct (0 <? n + m) eqn:E.
  - apply Nat.ltb_lt in E.
    rewrite Qmake_Qdiv. rewrite pos_of_nat_Z by assumption.
    replace (Z.of_nat (c * 2)) with (2 * Z.of_nat c)%Z by lia.
    replace (Z.of_nat (n + m)) with (Z.of_nat n + Z.of_nat m)%Z by lia. reflexivity.
  - apply Nat.ltb_ge in E. assert (n = 0 /\ m = 0) as [-> ->] by lia. simpl.
    unfold Qdiv, Qinv. simpl. rewrite Qmult_0_r. reflexivity.
Qed.

Lemma similarity_bounds (c n m : nat) :
  c <= n -> c <= m -> (0 <= similarity c n m /\ similarity c n m <= 1)%Q.
Proof.
  intros Hn Hm. unfold similarity. destruct (0 <? n + m) eqn:E.
  - apply Nat.ltb_lt in E. unfold Qle; simpl. rewrite pos_of_nat_Z by assumption. lia.
  - unfold Qle; simpl. lia.
Qed.

Lemma similarity_one (c n m : nat) :
  c <= n -> c <= m -> (similarity c n m == 1)%Q <-> (c = n /\ c = m /\ 0 < c).
Proof.
  intros Hn Hm. unfold similarity. destruct (0 <? n + m) eqn:E.
  - apply Nat.ltb_lt in E. unfold Qeq; simpl. rewrite pos_of_nat_Z by assumption. lia.
  - apply Nat.ltb_ge in E. unfold Qeq; simpl. lia.
Qed.

Lemma similarity_zero (c n m : nat) :
  c <= n -> c <= m -> (similarity c n m == 0)%Q <-> c = 0.
Proof.
  intros Hn Hm. unfold similarity. destruct (0 <? n + m) eqn:E.
  - unfold Qeq; simpl. lia.
  - apply Nat.ltb_ge in E. unfold Qeq; simpl. lia.
Qed.

Lemma compare_documents_exact_found (a b : string) (self : Service) (ha hb : gset string) :
  document_to_hashes self !! a = Some ha ->
  document_to_hashes self !! b = Some hb ->
  exists ms self',
    compare_documents_exact a b self
    = (CompareOk a b (size ha) (size hb) (size (ha ∩ hb))
                 (similarity (size (ha ∩ hb)) (size ha) (size hb)) ms, self').
Proof.
  intros Ha Hb. unfold compare_documents_exact. rewrite Ha, Hb.
  destruct (fold_left _ _ _) as [h2d ms]. eexists _, _. reflexivity.
Qed.

(** C3.  For two indexed documents [compare_documents_exact] returns the
    Dice coefficient of their hash sets; score and [common_sections] do not
    depend on the order of the arguments; the score is between 0 and 1, is
    1 exactly when the sets are equal and not empty, and 0 exactly when they
    are disjoint. *)
Theorem compare_documents_exact_dice (a b : string) (self : Service) (ha hb : gset string) :
  document_to_hashes self !! a = Some ha ->
  document_to_hashes self !! b = Some hb ->
  exists (score : Q) (common : nat) ms self1 ms' self2,
    compare_documents_exact a b self
      = (CompareOk a b (size ha) (size hb) common score ms, self1)
    /\ compare_documents_exact b a self
      = (CompareOk b a (size hb) (size ha) common score ms', self2)
    /\ common = size (ha ∩ hb)
    /\ (score == inject_Z (2 * Z.of_nat (size (ha ∩ hb)))
                 / inject_Z (Z.of_nat (size ha) + Z.of_nat (size hb)))%Q
    /\ (0 <= score /\ score <= 1)%Q
    /\ ((score == 1)%Q <-> ha = hb /\ ha <> ∅)
    /\ ((score == 0)%Q <-> ha ## hb).
Proof.
  intros Ha Hb.
  destruct (compare_documents_exact_found a b self ha hb Ha Hb) as (ms & self1 & E1).
  destruct (compare_documents_exact_found b a self hb ha Hb Ha) as (ms' & self2 & E2).
  assert (Hc : hb ∩ ha = ha ∩ hb) by set_solver.
  assert (Hs : similarity (size (ha ∩ hb)) (size hb) (size ha)
               = similarity (size (ha ∩ hb)) (size ha) (size hb)).
  { unfold similarity. rewrite (Nat.add_comm (size hb)). reflexivity. }
  rewrite Hc, Hs in E2.
  assert (Hn : size (ha ∩ hb) <= size ha) by (apply subseteq_size; set_solver).
  assert (Hm : size (ha ∩ hb) <= size hb) by (apply subseteq_size; set_solver).
  exists (similarity (size (ha ∩ hb)) (size ha) (size hb)), (size (ha ∩ hb)), ms, self1, ms', self2.
  split; [exact E1|]. split; [exact E2|]. split; [reflexivity|].
  split; [apply similarity_formula|]. split; [apply similarity_bounds; assumption|]. split.
  - rewrite similarity_one by assumption. split.
    + intros (E & E' & Hpos).
      assert (A : ha ∩ hb = ha).
      { apply set_subseteq_size_eq; [set_solver | lia]. }
      assert (B : ha ∩ hb = hb).
      { apply set_subseteq_size_eq; [set_solver | lia]. }
      split; [congruence|]. intros ->. rewrite intersection_empty_l_L, size_empty in Hpos. lia.
    + intros [-> Hne]. assert (E : hb ∩ hb = hb) by set_solver. rewrite E.
      split; [reflexivity|]. split; [reflexivity|].
      assert (size hb <> 0); [|lia]. intros Hz. apply size_empty_inv in Hz.
      apply Hne. apply leibniz_equiv. assumption.
  - rewrite similarity_zero by assumption. rewrite disjoint_intersection_L. split.
    + intros Hz. apply leibniz_equiv. apply size_empty_inv. assumption.
    + intros ->. apply size_empty.
Qed.

Lemma lookup_hashes_of (d : gmap string (gset string)) (k : string) :
  is_some (d !! k) = true -> d !! k = Some (hashes_of d k).
Proof. unfold hashes_of. destruct (d !! k); [reflexivity | discriminate]. Qed.

Lemma compare_documents_exact_dice_witness :
  exists (score : Q) (common : nat) ms self1 ms' self2,
    let ha := hashes_of (document_to_hashes svc_ab) "a.txt" in
    let hb := hashes_of (document_to_hashes svc_ab) "b.txt" in
    compare_documents_exact "a.txt" "b.txt" svc_ab
      = (CompareOk "a.txt" "b.txt" (size ha) (size hb) common score ms, self1)
    /\ compare_documents_exact "b.txt" "a.txt" svc_ab
      = (CompareOk "b.txt" "a.txt" (size hb) (size ha) common score ms', self2)
    /\ common = size (ha ∩ hb)
    /\ (score == inject_Z (2 * Z.of_nat (size (ha ∩ hb)))
                 / inject_Z (Z.of_nat (size ha) + Z.of_nat (size hb)))%Q
    /\ (0 <= score /\ score <= 1)%Q
    /\ ((score == 1)%Q <-> ha = hb /\ ha <> ∅)
    /\ ((score == 0)%Q <-> ha ## hb).
Proof.
  apply (compare_documents_exact_dice "a.txt" "b.txt" svc_ab);
    apply lookup_hashes_of; vm_compute; reflexivity.
Defined.

Example svc_ab_score :
  score_of (fst (compare_documents_exact "a.txt" "b.txt" svc_ab)) = Some (2 # 4).
Proof. vm_compute. reflexivity. Qed.

(** [remove_document] never touches the two sentence-level maps nor the file *)
Lemma remove_document_sentence_maps d self :
  let self' := snd (remove_document d self) in
  sentence_hash_to_documents self' = sentence_hash_to_documents self
  /\ document_to_sentence_hashes self' = document_to_sentence_hashes self
  /\ persistence_file self' = persistence_file self.
Proof.
  unfold remove_document. destruct (document_to_hashes self !! d); [|auto].
  destruct (fold_left _ _ _). simpl. auto.
Qed.

Lemma remove_document_forgets d self :
  document_to_hashes (snd (remove_document d self)) !! d = None.
Proof.
  destruct (document_to_hashes self !! d) as [hs|] eqn:E.
  - destruct (remove_document_maps d self hs E) as [_ D]. simpl in D. rewrite D.
    apply lookup_delete_eq.
  - unfold remove_document. rewrite E. exact E.
Qed.

(** The section-level half of removal, in every state the service can reach *)
Lemma remove_document_sections (calls : list call) (d : string) :
  let self' := snd (remove_document d (run calls)) in
  document_to_hashes self' !! d = None
  /\ find_exact_matches d self' = (FindError "Document not found" [], self')
  /\ forall h refs r, hash_to_documents self' !! h = Some refs -> r ∈ refs ->
                      cr_document_name r <> d.
Proof.
  intros self'. pose proof (remove_document_forgets d (run calls)) as N. fold self' in N.
  split; [exact N|]. split.
  - unfold find_exact_matches. rewrite N. reflexivity.
  - intros h refs r Hh Hr Hn.
    destruct (remove_document_invariant d (run calls)
                (steps_invariant calls (init None) init_invariant)) as [_ B].
    fold self' in B.
    assert (Hin : r ∈ refs_at (hash_to_documents self') h).
    { apply refs_at_elem. eauto. }
    specialize (B h r Hin). rewrite Hn in B. unfold hashes_of in B. rewrite N in B.
    simpl in B. set_solver.
Qed.

(** C1, on the code.  After [add_document_chunks("a.txt", ...)] and
    [remove_document("a.txt")] on a fresh index the document is gone from
    [document_to_hashes] and [find_exact_matches] answers that it is not
    found, but its three sentence hashes are still recorded in
    [document_to_sentence_hashes], their references are still in
    [sentence_hash_to_documents], and [compare_documents_sentence_level]
    still compares the removed document. *)
Theorem remove_document_leaves_sentences :
  memory_documents svc_a = ["a.txt"]
  /\ memory_documents svc_a_removed = []
  /\ find_error (fst (find_exact_matches "a.txt" svc_a_removed))
     = Some ("Document not found", 0)
  /\ size (hashes_of (document_to_sentence_hashes svc_a_removed) "a.txt") = 3
  /\ size (dom (sentence_hash_to_documents svc_a_removed)) = 3
  /\ sentence_compare_counts
       (fst (compare_documents_sentence_level "a.txt" "a.txt" svc_a_removed))
     = Some (3, 3, 3).
Proof. repeat split; vm_compute; reflexivity. Qed.

Lemma add_document_chunks_saves d chunks self :
  persistence_file (add_document_chunks d chunks self)
  = snapshot (add_document_chunks d chunks self).
Proof. reflexivity. Qed.

Lemma load_saved self :
  let self' := restart (_save_data self) in
  hash_to_documents self' = hash_to_documents self
  /\ document_to_hashes self' = document_to_hashes self
  /\ sentence_hash_to_documents self' = sentence_hash_to_documents self
  /\ document_to_sentence_hashes self' = document_to_sentence_hashes self.
Proof.
  simpl. repeat split;
    rewrite <- map_fmap_compose; rewrite <- (map_fmap_id (_ self)) at 2;
    apply map_fmap_ext; intros k x _; simpl; apply list_to_set_elements_L.
Qed.

(** C9, on the code.  [add_document_chunks] writes the file, but
    [remove_document] does not: after the removal the file still lists
    ["a.txt"] while the memory does not, and a restart brings the removed
    document back. *)
Theorem remove_document_not_persisted :
  file_documents svc_a = ["a.txt"]
  /\ memory_documents svc_a_removed = []
  /\ file_documents svc_a_removed = ["a.txt"]
  /\ memory_documents (restart svc_a_removed) = ["a.txt"].
Proof. repeat split; vm_compute; reflexivity. Qed.

(** ** Sub-chunks and the sentence-level index *)










Example short_paragraphs_chunk :
  map (fun c => (md_chunk_type (ck_metadata c), md_char_count (ck_metadata c),
                 length (default [] (ck_sentence_hashes c))))
      (create_section_chunks text_short_paragraphs "short.txt")
  = [("section_based", 2698, 100)].
Proof. vm_compute. reflexivity. Qed.

Example short_paragraphs_compared :
  sentence_compare_counts
    (fst (compare_documents_sentence_level "short.txt" "short.txt" svc_short))
  = Some (1, 1, 1).
Proof. vm_compute. reflexivity. Qed.

(** * Further properties of the code *)

(** ** Sessions of the service *)

Lemma dd_get_present {V : Type} (k : string) (d : gmap string (list V)) refs :
  d !! k = Some refs -> dd_get k d = (refs, d).
Proof. intros H. unfold dd_get. rewrite H. reflexivity. Qed.

Lemma refs_at_present {V : Type} (d : gmap string (list V)) k r :
  r ∈ refs_at d k -> is_Some (d !! k).
Proof. intros H. apply refs_at_elem in H as (refs & E & _). eauto. Qed.

Lemma add_sentence_sentence_forward d chunk self s :
  sentence_forward self -> sentence_forward (add_sentence d chunk self s).
Proof.
  intros F. unfold add_sentence. destruct (PyStr.nonempty (sh_sentence_hash s)); [|exact F].
  unfold sentence_forward. cbn [sentence_hash_to_documents document_to_sentence_hashes].
  intros d' h' Hh. rewrite hashes_of_dd_add in Hh. rewrite refs_at_dd_append.
  destruct (decide (d = d')) as [<-|Hne].
  - apply elem_of_union in Hh as [Hh|Hh].
    + destruct (F d h' Hh) as (r & Hr & Hn). exists r. split; [|assumption].
      destruct (decide (sh_sentence_hash s = h')) as [<-|]; [apply elem_of_app; auto | assumption].
    + apply elem_of_singleton in Hh. subst h'. exists (sentence_ref d chunk s).
      rewrite decide_True by reflexivity. split; [|reflexivity].
      apply elem_of_app. right. apply list_elem_of_singleton. reflexivity.
  - destruct (F d' h' Hh) as (r & Hr & Hn). exists r. split; [|assumption].
    destruct (decide (sh_sentence_hash s = h')) as [<-|]; [apply elem_of_app; auto | assumption].
Qed.

Lemma add_sentences_sentence_forward d chunk l : forall self,
  sentence_forward self -> sentence_forward (fold_left (add_sentence d chunk) l self).
Proof.
  induction l as [|s l IH]; intros self F; cbn [fold_left]; [exact F|].
  apply IH, add_sentence_sentence_forward, F.
Qed.

Lemma add_chunk_more d self chunk :
  no_empty self /\ sentence_forward self ->
  no_empty (add_chunk d self chunk) /\ sentence_forward (add_chunk d self chunk).
Proof.
  intros [N F]. unfold add_chunk.
  destruct (ck_content_hash chunk) as [h|]; [|auto].
  destruct (PyStr.nonempty h); [|auto].
  match goal with |- context [fold_left ?f ?l ?s] =>
    destruct (add_sentences_sections d chunk l s) as (A & _ & _) end.
  split.
  - unfold no_empty. rewrite A. cbn [hash_to_documents]. intros k refs Hk.
    unfold dd_append in Hk. destruct (decide (h = k)) as [<-|Hne].
    + rewrite lookup_insert_eq in Hk. injection Hk as <-.
      destruct (default [] (hash_to_documents self !! h)); discriminate.
    + rewrite lookup_insert_ne in Hk by assumption. eapply N, Hk.
  - apply add_sentences_sentence_forward. exact F.
Qed.

Lemma add_document_chunks_consistent d chunks self :
  consistent self -> consistent (add_document_chunks d chunks self).
Proof.
  intros (F & B & N & S).
  destruct (add_document_chunks_invariant d chunks self (conj F B)) as [F' B'].
  assert (M : no_empty (fold_left (add_chunk d) chunks self)
              /\ sentence_forward (fold_left (add_chunk d) chunks self)).
  { clear F B F' B'. revert self N S.
    induction chunks as [|c chunks IH]; intros self N S; cbn [fold_left]; [auto|].
    destruct (add_chunk_more d self c (conj N S)) as [N' S']. apply IH; assumption. }
  destruct M as [N' S']. repeat split; assumption.
Qed.

Lemma remove_hash_no_empty d h2d n h :
  (forall k refs, h2d !! k = Some refs -> refs <> []) ->
  forall k refs, fst (remove_hash d (h2d, n) h) !! k = Some refs -> refs <> [].
Proof.
  intros N k refs. unfold remove_hash. destruct (h2d !! h) as [docs|] eqn:E; cbn [fst].
  - destruct (List.filter (not_of d) docs) as [|x kept] eqn:Ef.
    + destruct (decide (h = k)) as [<-|Hne].
      * rewrite lookup_delete_eq. discriminate.
      * rewrite lookup_delete_ne, lookup_insert_ne by assumption. apply N.
    + destruct (decide (h = k)) as [<-|Hne].
      * rewrite lookup_insert_eq. intros H. injection H as <-. discriminate.
      * rewrite lookup_insert_ne by assumption. apply N.
  - apply N.
Qed.

Lemma remove_fold_no_empty d l : forall h2d n,
  (forall k refs, h2d !! k = Some refs -> refs <> []) ->
  forall k refs, fst (fold_left (remove_hash d) l (h2d, n)) !! k = Some refs -> refs <> [].
Proof.
  induction l as [|h l IH]; intros h2d n N; cbn [fold_left]; [exact N|].
  pose proof (remove_hash_no_empty d h2d n h N) as N'.
  destruct (remove_hash d (h2d, n) h) as [h2d1 n1]. apply IH. exact N'.
Qed.

Lemma remove_document_consistent d self :
  consistent self -> consistent (snd (remove_document d self)).
Proof.
  intros (F & B & N & S).
  destruct (remove_document_invariant d self (conj F B)) as [F' B'].
  destruct (remove_document_sentence_maps d self) as (E1 & E2 & _).
  repeat split; try assumption.
  - unfold remove_document. destruct (document_to_hashes self !! d) as [hs|]; [|exact N].
    pose proof (remove_fold_no_empty d (elements hs) (hash_to_documents self) 0 N) as N'.
    destruct (fold_left _ _ _) as [h2d n]. exact N'.
  - unfold sentence_forward. rewrite E1, E2. exact S.
Qed.

Lemma service_eta self :
  mkService (hash_to_documents self) (document_to_hashes self)
            (sentence_hash_to_documents self) (document_to_sentence_hashes self)
            (persistence_file self) = self.
Proof. destruct self. reflexivity. Qed.

Lemma find_fold_same d l : forall h2d ms,
  (forall h, h ∈ l -> is_Some (h2d !! h)) ->
  fst (fold_left (find_step d) l (h2d, ms)) = h2d.
Proof.
  induction l as [|h l IH]; intros h2d ms P; cbn [fold_left]; [reflexivity|].
  destruct (P h) as [refs E]; [apply elem_of_cons; auto|].
  unfold find_step at 2. rewrite (dd_get_present h h2d refs E).
  assert (P' : forall k, k ∈ l -> is_Some (h2d !! k)) by (intros k Hk; apply P, elem_of_cons; auto).
  destruct (1 <? length refs); [destruct (List.filter (not_of d) refs)|]; apply IH; exact P'.
Qed.

Lemma compare_fold_same a b l : forall h2d ms,
  (forall h, h ∈ l -> is_Some (h2d !! h)) ->
  fst (fold_left (compare_step a b) l (h2d, ms)) = h2d.
Proof.
  induction l as [|h l IH]; intros h2d ms P; cbn [fold_left]; [reflexivity|].
  destruct (P h) as [refs E]; [apply elem_of_cons; auto|].
  unfold compare_step at 2. rewrite (dd_get_present h h2d refs E).
  assert (P' : forall k, k ∈ l -> is_Some (h2d !! k)) by (intros k Hk; apply P, elem_of_cons; auto).
  destruct (find (is_of a) refs), (find (is_of b) refs); apply IH; exact P'.
Qed.

Lemma difference_fold_same a l : forall h2d ms,
  (forall h, h ∈ l -> is_Some (h2d !! h)) ->
  fst (fold_left (difference_step a) l (h2d, ms)) = h2d.
Proof.
  induction l as [|h l IH]; intros h2d ms P; cbn [fold_left]; [reflexivity|].
  destruct (P h) as [refs E]; [apply elem_of_cons; auto|].
  unfold difference_step at 2. rewrite (dd_get_present h h2d refs E).
  assert (P' : forall k, k ∈ l -> is_Some (h2d !! k)) by (intros k Hk; apply P, elem_of_cons; auto).
  destruct (find (is_of a) refs); apply IH; exact P'.
Qed.

Lemma sentence_fold_same a b l : forall s2d ms,
  (forall h, h ∈ l -> is_Some (s2d !! h)) ->
  fst (fold_left (sentence_step a b) l (s2d, ms)) = s2d.
Proof.
  induction l as [|h l IH]; intros s2d ms P; cbn [fold_left]; [reflexivity|].
  destruct (P h) as [refs E]; [apply elem_of_cons; auto|].
  unfold sentence_step at 2. rewrite (dd_get_present h s2d refs E).
  assert (P' : forall k, k ∈ l -> is_Some (s2d !! k)) by (intros k Hk; apply P, elem_of_cons; auto).
  destruct (find (sentence_of a) refs), (find (sentence_of b) refs); apply IH; exact P'.
Qed.

Lemma forward_keys self d hs h :
  forward self -> document_to_hashes self !! d = Some hs -> h ∈ hs ->
  is_Some (hash_to_documents self !! h).
Proof.
  intros F E Hh. destruct (F d h) as (r & Hr & _).
  - apply hashes_of_elem. eauto.
  - eapply refs_at_present, Hr.
Qed.

Lemma find_exact_matches_same_state d self :
  forward self -> snd (find_exact_matches d self) = self.
Proof.
  intros F. unfold find_exact_matches.
  destruct (document_to_hashes self !! d) as [hs|] eqn:E; [|reflexivity].
  pose proof (find_fold_same d (elements hs) (hash_to_documents self) []) as R.
  destruct (fold_left _ _ _) as [h2d ms]. cbn [fst snd] in *. rewrite R; [apply service_eta|].
  intros h Hh. apply elem_of_elements in Hh. exact (forward_keys self d hs h F E Hh).
Qed.

Lemma compare_documents_exact_same_state a b self :
  forward self -> snd (compare_documents_exact a b self) = self.
Proof.
  intros F. unfold compare_documents_exact.
  destruct (document_to_hashes self !! a) as [ha|] eqn:Ea; [|reflexivity].
  destruct (document_to_hashes self !! b) as [hb|] eqn:Eb; [|reflexivity].
  pose proof (compare_fold_same a b (elements (ha ∩ hb)) (hash_to_documents self) []) as R.
  destruct (fold_left _ _ _) as [h2d ms]. cbn [fst snd] in *. rewrite R; [apply service_eta|].
  intros h Hh. apply elem_of_elements, elem_of_intersection in Hh as [Hh _].
  exact (forward_keys self a ha h F Ea Hh).
Qed.

Lemma get_document_differences_same_state a b self :
  forward self -> snd (get_document_differences a b self) = self.
Proof.
  intros F. unfold get_document_differences.
  destruct (document_to_hashes self !! a) as [ha|] eqn:Ea; [|reflexivity].
  destruct (document_to_hashes self !! b) as [hb|] eqn:Eb; [|reflexivity].
  pose proof (difference_fold_same a (elements (ha ∖ hb)) (hash_to_documents self) []) as R1.
  destruct (fold_left (difference_step a) _ _) as [h2d1 ms1]. cbn [fst] in R1.
  rewrite R1.
  2:{ intros h Hh. apply elem_of_elements, elem_of_difference in Hh as [Hh _].
      exact (forward_keys self a ha h F Ea Hh). }
  pose proof (difference_fold_same b (elements (hb ∖ ha)) (hash_to_documents self) []) as R2.
  destruct (fold_left (difference_step b) _ _) as [h2d2 ms2]. cbn [fst snd] in *.
  rewrite R2; [apply service_eta|].
  intros h Hh. apply elem_of_elements, elem_of_difference in Hh as [Hh _].
  exact (forward_keys self b hb h F Eb Hh).
Qed.

Lemma compare_documents_sentence_level_same_state a b self :
  sentence_forward self -> snd (compare_documents_sentence_level a b self) = self.
Proof.
  intros F. unfold compare_documents_sentence_level.
  destruct (document_to_sentence_hashes self !! a) as [ha|] eqn:Ea; [|reflexivity].
  destruct (document_to_sentence_hashes self !! b) as [hb|] eqn:Eb; [|reflexivity].
  pose proof (sentence_fold_same a b (elements (ha ∩ hb)) (sentence_hash_to_documents self) [])
    as R.
  destruct (fold_left _ _ _) as [s2d ms]. cbn [fst snd] in *. rewrite R; [apply service_eta|].
  intros h Hh. apply elem_of_elements, elem_of_intersection in Hh as [Hh _].
  destruct (F a h) as (r & Hr & _).
  - apply hashes_of_elem. eauto.
  - eapply refs_at_present, Hr.
Qed.

Lemma serve_consistent self r : consistent self -> consistent (serve self r).
Proof.
  intros C. pose proof C as (F & B & N & S).
  destruct r as [[d chunks|d|d|a b|a b]|a b| |]; cbn [serve step].
  - apply add_document_chunks_consistent, C.
  - apply remove_document_consistent, C.
  - rewrite find_exact_matches_same_state; assumption.
  - rewrite compare_documents_exact_same_state; assumption.
  - rewrite compare_documents_sentence_level_same_state; assumption.
  - rewrite get_document_differences_same_state; assumption.
  - exact C.
  - exact C.
Qed.

Lemma init_consistent : consistent (init None).
Proof.
  destruct init_invariant as [F B]. repeat split; try assumption.
  - intros h refs H. cbn in H. rewrite lookup_empty in H. discriminate.
  - intros d h H. unfold hashes_of in H. cbn in H. rewrite lookup_empty in H. set_solver.
Qed.

Lemma session_consistent requests : consistent (session requests).
Proof.
  unfold session. generalize init_consistent. generalize (init None).
  induction requests as [|r rs IH]; intros self C; cbn [fold_left]; [exact C|].
  apply IH, serve_consistent, C.
Qed.

(** ** What [remove_document] returns and what it keeps *)

Lemma remove_hash_lookup_ne d h2d n h k :
  h <> k -> fst (remove_hash d (h2d, n) h) !! k = h2d !! k.
Proof.
  intros Hne. unfold remove_hash. destruct (h2d !! h) as [docs|]; [|reflexivity].
  cbn [fst]. destruct (List.filter (not_of d) docs).
  - rewrite lookup_delete_ne, lookup_insert_ne by assumption. reflexivity.
  - rewrite lookup_insert_ne by assumption. reflexivity.
Qed.

Lemma remove_fold_count d l : forall h2d n,
  NoDup l -> (forall h, h ∈ l -> is_Some (h2d !! h)) ->
  snd (fold_left (remove_hash d) l (h2d, n)) = n + length l.
Proof.
  induction l as [|h l IH]; intros h2d n ND P; cbn [fold_left length]; [cbn; lia|].
  apply NoDup_cons in ND as [Hnin ND].
  pose proof (fun k => remove_hash_lookup_ne d h2d n h k) as L.
  assert (C : snd (remove_hash d (h2d, n) h) = S n).
  { unfold remove_hash. destruct (P h) as [docs E]; [apply elem_of_cons; auto|].
    rewrite E. reflexivity. }
  destruct (remove_hash d (h2d, n) h) as [h2d1 n1]. cbn [fst snd] in *. subst n1.
  rewrite IH; [lia | assumption |].
  intros k Hk. rewrite L.
  - apply P, elem_of_cons. auto.
  - intros ->. contradiction.
Qed.

(** X11.  In every state of a session [remove_document] returns the number of
    hashes that [document_to_hashes] records for the document: 0 for a
    document that is not indexed. *)
Theorem remove_document_count (requests : list request) (d : string) :
  fst (remove_document d (session requests))
  = size (hashes_of (document_to_hashes (session requests)) d).
Proof.
  destruct (session_consistent requests) as (F & _). generalize dependent (session requests).
  intros self F. unfold remove_document, hashes_of.
  destruct (document_to_hashes self !! d) as [hs|] eqn:E; cbn [default fst].
  - pose proof (remove_fold_count d (elements hs) (hash_to_documents self) 0) as C.
    destruct (fold_left _ _ _) as [h2d n]. cbn [fst snd] in *. rewrite C; [reflexivity | |].
    + apply NoDup_elements.
    + intros h Hh. apply elem_of_elements in Hh. exact (forward_keys self d hs h F E Hh).
  - symmetry. apply size_empty.
Qed.

Lemma filter_is_of_not_of d d' l :
  d' <> d -> List.filter (is_of d') (List.filter (not_of d) l) = List.filter (is_of d') l.
Proof.
  intros Hne. induction l as [|x l IH]; cbn [List.filter]; [reflexivity|].
  destruct (not_of d x) eqn:N; cbn [List.filter]; [rewrite IH; reflexivity|].
  rewrite IH. unfold not_of in N. apply negb_false_iff, String.eqb_eq in N.
  unfold is_of. rewrite N. destruct (String.eqb_spec d d'); [congruence | reflexivity].
Qed.

Lemma remove_document_hashes d self :
  document_to_hashes (snd (remove_document d self)) = delete d (document_to_hashes self).
Proof.
  destruct (document_to_hashes self !! d) as [hs|] eqn:E.
  - apply (remove_document_maps d self hs E).
  - unfold remove_document. rewrite E. cbn [snd]. symmetry. apply delete_id, E.
Qed.

Lemma remove_document_refs d self k :
  refs_at (hash_to_documents (snd (remove_document d self))) k
  = if decide (k ∈ hashes_of (document_to_hashes self) d)
    then List.filter (not_of d) (refs_at (hash_to_documents self) k)
    else refs_at (hash_to_documents self) k.
Proof.
  unfold hashes_of. destruct (document_to_hashes self !! d) as [hs|] eqn:E.
  - apply (remove_document_maps d self hs E).
  - unfold remove_document. rewrite E. cbn [snd default].
    destruct (decide (k ∈ (∅ : gset string))) as [H|]; [set_solver | reflexivity].
Qed.

(** X12.  [remove_document d] leaves every other document as it was: its set
    of hashes, and its references under every hash, in their order. *)
Theorem remove_document_keeps_others (d d' : string) (self : Service) :
  d' <> d ->
  document_to_hashes (snd (remove_document d self)) !! d' = document_to_hashes self !! d'
  /\ forall h, List.filter (is_of d') (refs_at (hash_to_documents (snd (remove_document d self))) h)
               = List.filter (is_of d') (refs_at (hash_to_documents self) h).
Proof.
  intros Hne. split.
  - rewrite remove_document_hashes. apply lookup_delete_ne. congruence.
  - intros h. rewrite remove_document_refs.
    destruct (decide _); [apply filter_is_of_not_of; assumption | reflexivity].
Qed.

Lemma remove_document_keeps_others_witness :
  document_to_hashes (snd (remove_document "a.txt" svc_ab)) !! "b.txt"
  = document_to_hashes svc_ab !! "b.txt"
  /\ forall h, List.filter (is_of "b.txt")
                 (refs_at (hash_to_documents (snd (remove_document "a.txt" svc_ab))) h)
               = List.filter (is_of "b.txt") (refs_at (hash_to_documents svc_ab) h).
Proof. apply (remove_document_keeps_others "a.txt" "b.txt" svc_ab). discriminate. Defined.

(** ** What [add_document_chunks] files *)

Lemma new_refs_cons d c chunks h :
  new_refs d (c :: chunks) h = new_refs d [c] h ++ new_refs d chunks h.
Proof.
  unfold new_refs. cbn [List.filter]. destruct (bool_decide (filed_hash c = Some h)); reflexivity.
Qed.

Lemma new_hashes_cons c chunks :
  new_hashes (c :: chunks) = new_hashes [c] ∪ new_hashes chunks.
Proof.
  unfold new_hashes. simpl. destruct (filed_hash c); simpl; set_solver.
Qed.

Lemma new_hashes_one c :
  new_hashes [c] = match filed_hash c with Some h => {[h]} | None => ∅ end.
Proof. unfold new_hashes. simpl. destruct (filed_hash c); simpl; set_solver. Qed.

Lemma add_chunk_sections d self chunk :
  hash_to_documents (add_chunk d self chunk)
  = match filed_hash chunk with
    | Some h => dd_append h (chunk_ref d chunk) (hash_to_documents self)
    | None => hash_to_documents self
    end
  /\ document_to_hashes (add_chunk d self chunk)
     = match filed_hash chunk with
       | Some h => dd_add d h (document_to_hashes self)
       | None => document_to_hashes self
       end.
Proof.
  unfold add_chunk, filed_hash. destruct (ck_content_hash chunk) as [h|]; [|auto].
  destruct (PyStr.nonempty h); [|auto].
  match goal with |- context [fold_left ?f ?l ?s] =>
    destruct (add_sentences_sections d chunk l s) as (A & B & _) end.
  rewrite A, B. auto.
Qed.

Lemma add_chunk_lookup d self chunk k :
  hash_to_documents (add_chunk d self chunk) !! k
  = match new_refs d [chunk] k with
    | [] => hash_to_documents self !! k
    | new => Some (refs_at (hash_to_documents self) k ++ new)
    end.
Proof.
  destruct (add_chunk_sections d self chunk) as [A _]. rewrite A.
  unfold new_refs. cbn [List.filter map]. destruct (filed_hash chunk) as [h|].
  - destruct (bool_decide_reflect (Some h = Some k)) as [E|Hne].
    + injection E as ->. cbn [map]. unfold dd_append. rewrite lookup_insert_eq. reflexivity.
    + cbn [map]. unfold dd_append. rewrite lookup_insert_ne by congruence. reflexivity.
  - rewrite bool_decide_eq_false_2 by discriminate. reflexivity.
Qed.

Lemma lookup_refs_at {V : Type} (d : gmap string (list V)) k refs :
  d !! k = Some refs -> refs_at d k = refs.
Proof. intros E. unfold refs_at. rewrite E. reflexivity. Qed.

Lemma add_chunks_lookup d chunks : forall self k,
  hash_to_documents (fold_left (add_chunk d) chunks self) !! k
  = match new_refs d chunks k with
    | [] => hash_to_documents self !! k
    | new => Some (refs_at (hash_to_documents self) k ++ new)
    end.
Proof.
  induction chunks as [|c chunks IH]; intros self k; cbn [fold_left]; [reflexivity|].
  rewrite IH, new_refs_cons. pose proof (add_chunk_lookup d self c k) as L.
  unfold refs_at at 1. rewrite L.
  destruct (new_refs d [c] k) as [|x xs]; cbn [app].
  - destruct (new_refs d chunks k); reflexivity.
  - cbn [default]. destruct (new_refs d chunks k) as [|y ys].
    + rewrite app_nil_r. reflexivity.
    + unfold id. rewrite <- app_assoc. reflexivity.
Qed.

Lemma add_chunks_refs d chunks self k :
  refs_at (hash_to_documents (fold_left (add_chunk d) chunks self)) k
  = refs_at (hash_to_documents self) k ++ new_refs d chunks k.
Proof.
  unfold refs_at at 1. rewrite add_chunks_lookup.
  destruct (new_refs d chunks k); [rewrite app_nil_r|]; reflexivity.
Qed.

Lemma add_chunks_hashes d chunks : forall self d',
  hashes_of (document_to_hashes (fold_left (add_chunk d) chunks self)) d'
  = if decide (d = d') then hashes_of (document_to_hashes self) d' ∪ new_hashes chunks
    else hashes_of (document_to_hashes self) d'.
Proof.
  induction chunks as [|c chunks IH]; intros self d'; cbn [fold_left].
  - destruct (decide (d = d')); [|reflexivity]. unfold new_hashes. cbn. set_solver.
  - rewrite IH, new_hashes_cons, new_hashes_one.
    destruct (add_chunk_sections d self c) as [_ B]. rewrite B.
    destruct (filed_hash c) as [h|].
    + rewrite hashes_of_dd_add. destruct (decide (d = d')) as [<-|]; [set_solver | reflexivity].
    + destruct (decide (d = d')); [set_solver | reflexivity].
Qed.

Lemma add_chunks_other d chunks : forall self d',
  d' <> d ->
  document_to_hashes (fold_left (add_chunk d) chunks self) !! d' = document_to_hashes self !! d'.
Proof.
  induction chunks as [|c chunks IH]; intros self d' Hne; cbn [fold_left]; [reflexivity|].
  rewrite IH by assumption. destruct (add_chunk_sections d self c) as [_ B]. rewrite B.
  destruct (filed_hash c); [|reflexivity].
  unfold dd_add. apply lookup_insert_ne. congruence.
Qed.

(** X9.  [add_document_chunks d chunks] appends, under every hash, the
    references of the chunks of that hash in the order of the chunks, after
    the references that were there; the hashes of the chunks join the set of
    [d]; no other document's set changes.  A chunk without a hash, or with
    an empty one, is not filed. *)
Theorem add_document_chunks_index (d : string) (chunks : list Chunk) (self : Service) :
  (forall h, refs_at (hash_to_documents (add_document_chunks d chunks self)) h
             = refs_at (hash_to_documents self) h ++ new_refs d chunks h)
  /\ hashes_of (document_to_hashes (add_document_chunks d chunks self)) d
     = hashes_of (document_to_hashes self) d ∪ new_hashes chunks
  /\ (forall d', d' <> d ->
        document_to_hashes (add_document_chunks d chunks self) !! d'
        = document_to_hashes self !! d').
Proof.
  unfold add_document_chunks, _save_data. cbn [hash_to_documents document_to_hashes].
  split; [|split].
  - intros h. apply add_chunks_refs.
  - rewrite add_chunks_hashes. rewrite decide_True by reflexivity. reflexivity.
  - intros d' Hne. apply add_chunks_other. assumption.
Qed.

(** ** Adding a document and removing it again *)

Lemma elem_new_hashes d chunks h : h ∈ new_hashes chunks <-> new_refs d chunks h <> [].
Proof.
  unfold new_hashes, new_refs. rewrite elem_of_list_to_set, list_elem_of_omap. split.
  - intros (c & Hc & E) N. apply map_eq_nil in N.
    assert (Hin : In c (List.filter (fun c => bool_decide (filed_hash c = Some h)) chunks)).
    { apply filter_In. split; [apply list_elem_of_In; assumption|].
      apply bool_decide_eq_true_2. assumption. }
    rewrite N in Hin. destruct Hin.
  - intros N. destruct (List.filter _ chunks) as [|c l] eqn:Ef; [contradiction|].
    assert (Hin : In c (List.filter (fun c => bool_decide (filed_hash c = Some h)) chunks)).
    { rewrite Ef. left. reflexivity. }
    apply filter_In in Hin as [Hin Hb]. apply bool_decide_eq_true_1 in Hb.
    exists c. split; [apply list_elem_of_In; assumption | assumption].
Qed.

Lemma filter_not_of_new d chunks h : List.filter (not_of d) (new_refs d chunks h) = [].
Proof.
  unfold new_refs. induction (List.filter _ chunks) as [|c l IH]; cbn [map List.filter]; [reflexivity|].
  unfold not_of at 1. cbn [chunk_ref cr_document_name]. rewrite String.eqb_refl. exact IH.
Qed.

Lemma filter_not_of_all d l :
  Forall (fun r => cr_document_name r <> d) l -> List.filter (not_of d) l = l.
Proof.
  induction 1 as [|x l Hx _ IH]; cbn [List.filter]; [reflexivity|].
  apply not_of_true in Hx. rewrite Hx, IH. reflexivity.
Qed.

Lemma remove_hash_lookup d h2d n h :
  fst (remove_hash d (h2d, n) h) !! h
  = match h2d !! h with
    | Some docs => match List.filter (not_of d) docs with [] => None | kept => Some kept end
    | None => None
    end.
Proof.
  unfold remove_hash. destruct (h2d !! h) as [docs|] eqn:E; cbn [fst]; [|exact E].
  destruct (List.filter (not_of d) docs) eqn:Ef.
  - apply lookup_delete_eq.
  - apply lookup_insert_eq.
Qed.

Lemma remove_fold_lookup d l : forall h2d n k,
  NoDup l ->
  fst (fold_left (remove_hash d) l (h2d, n)) !! k
  = if decide (k ∈ l)
    then match h2d !! k with
         | Some docs => match List.filter (not_of d) docs with [] => None | kept => Some kept end
         | None => None
         end
    else h2d !! k.
Proof.
  induction l as [|h l IH]; intros h2d n k ND; cbn [fold_left].
  - destruct (decide (k ∈ [])) as [H|]; [inversion H | reflexivity].
  - apply NoDup_cons in ND as [Hnin ND].
    pose proof (remove_hash_lookup d h2d n h) as L1.
    pose proof (fun k => remove_hash_lookup_ne d h2d n h k) as L2.
    destruct (remove_hash d (h2d, n) h) as [h2d1 n1]. cbn [fst] in *.
    rewrite IH by assumption.
    destruct (decide (h = k)) as [E|Hne].
    + subst k. rewrite decide_False by assumption.
      rewrite decide_True by (apply elem_of_cons; auto). exact L1.
    + rewrite L2 by assumption.
      destruct (decide (k ∈ l)) as [Hin|Hn].
      * rewrite decide_True by (apply elem_of_cons; auto). reflexivity.
      * rewrite decide_False; [reflexivity|].
        intros Hc. apply elem_of_cons in Hc as [?|?]; [congruence | contradiction].
Qed.

Lemma remove_document_lookup d self k :
  hash_to_documents (snd (remove_document d self)) !! k
  = if decide (k ∈ hashes_of (document_to_hashes self) d)
    then match hash_to_documents self !! k with
         | Some docs => match List.filter (not_of d) docs with [] => None | kept => Some kept end
         | None => None
         end
    else hash_to_documents self !! k.
Proof.
  unfold remove_document, hashes_of. destruct (document_to_hashes self !! d) as [hs|]; cbn [default].
  - unfold id. pose proof (remove_fold_lookup d (elements hs) (hash_to_documents self) 0 k
                  (NoDup_elements hs)) as L.
    destruct (fold_left _ _ _) as [h2d n]. cbn [fst snd hash_to_documents] in *. rewrite L.
    destruct (decide (k ∈ elements hs)) as [H|H], (decide (k ∈ hs)) as [H'|H']; try reflexivity.
    + exfalso. apply H'. apply elem_of_elements. assumption.
    + exfalso. apply H. apply elem_of_elements. assumption.
  - cbn [snd]. destruct (decide (k ∈ (∅ : gset string))) as [H|]; [set_solver | reflexivity].
Qed.

Lemma add_then_remove d chunks self :
  backward self -> no_empty self -> document_to_hashes self !! d = None ->
  let self' := snd (remove_document d (add_document_chunks d chunks self)) in
  hash_to_documents self' = hash_to_documents self
  /\ document_to_hashes self' = document_to_hashes self.
Proof.
  intros B N E self'. subst self'.
  assert (Hold : forall k, Forall (fun r => cr_document_name r <> d)
                                  (refs_at (hash_to_documents self) k)).
  { intros k. apply Forall_forall. intros r Hr Hn. specialize (B k r Hr).
    rewrite Hn in B. unfold hashes_of in B. rewrite E in B. set_solver. }
  assert (Hhs : hashes_of (document_to_hashes (add_document_chunks d chunks self)) d
                = new_hashes chunks).
  { unfold add_document_chunks, _save_data. cbn [document_to_hashes].
    rewrite add_chunks_hashes, decide_True by reflexivity.
    unfold hashes_of at 1. rewrite E. cbn [default]. set_solver. }
  split.
  - apply map_eq. intros k. rewrite remove_document_lookup, Hhs.
    unfold add_document_chunks, _save_data. cbn [hash_to_documents].
    rewrite add_chunks_lookup.
    destruct (decide (k ∈ new_hashes chunks)) as [Hin|Hn].
    + apply (elem_new_hashes d) in Hin.
      destruct (new_refs d chunks k) as [|x xs] eqn:En; [contradiction|]. rewrite <- En.
      rewrite List.filter_app, filter_not_of_new, app_nil_r, filter_not_of_all by apply Hold.
      unfold refs_at. destruct (hash_to_documents self !! k) as [[|r refs]|] eqn:Ek;
        cbn [default]; try reflexivity.
      exfalso. exact (N k [] Ek eq_refl).
    + destruct (new_refs d chunks k) as [|x xs] eqn:En; [reflexivity|].
      exfalso. apply Hn. apply (elem_new_hashes d). rewrite En. discriminate.
  - rewrite remove_document_hashes. apply map_eq. intros d'.
    destruct (decide (d' = d)) as [->|Hne].
    + rewrite lookup_delete_eq. symmetry. exact E.
    + rewrite lookup_delete_ne by congruence.
      unfold add_document_chunks, _save_data. cbn [document_to_hashes].
      apply add_chunks_other. assumption.
Qed.

(** X14.  In every state of a session, adding a document that is not indexed
    and removing it again restores the two section-level maps: the same
    keys, the same lists of references, the same sets of hashes. *)
Theorem add_then_remove_restores (requests : list request) (d : string) (chunks : list Chunk) :
  document_to_hashes (session requests) !! d = None ->
  hash_to_documents (snd (remove_document d (add_document_chunks d chunks (session requests))))
  = hash_to_documents (session requests)
  /\ document_to_hashes (snd (remove_document d (add_document_chunks d chunks (session requests))))
     = document_to_hashes (session requests).
Proof.
  intros E. destruct (session_consistent requests) as (_ & B & N & _).
  apply add_then_remove; assumption.
Qed.

Lemma add_then_remove_restores_witness :
  hash_to_documents
    (snd (remove_document "b.txt"
            (add_document_chunks "b.txt" chunks_b
               (session [Call (AddDocumentChunks "a.txt" chunks_a)]))))
  = hash_to_documents (session [Call (AddDocumentChunks "a.txt" chunks_a)])
  /\ document_to_hashes
       (snd (remove_document "b.txt"
               (add_document_chunks "b.txt" chunks_b
                  (session [Call (AddDocumentChunks "a.txt" chunks_a)]))))
     = document_to_hashes (session [Call (AddDocumentChunks "a.txt" chunks_a)]).
Proof.
  apply (add_then_remove_restores [Call (AddDocumentChunks "a.txt" chunks_a)] "b.txt" chunks_b).
  apply is_some_false. vm_compute. reflexivity.
Defined.

(** ** The queries *)

(** X1.  In every state of a session the four queries that read through the
    [defaultdict]s return the service as they found it: no read meets a
    missing key, so none inserts one. *)
Theorem queries_read_only (requests : list request) (a b : string) :
  snd (find_exact_matches a (session requests)) = session requests
  /\ snd (compare_documents_exact a b (session requests)) = session requests
  /\ snd (get_document_differences a b (session requests)) = session requests
  /\ snd (compare_documents_sentence_level a b (session requests)) = session requests.
Proof.
  destruct (session_consistent requests) as (F & _ & _ & S).
  split; [|split; [|split]].
  - apply find_exact_matches_same_state, F.
  - apply compare_documents_exact_same_state, F.
  - apply get_document_differences_same_state, F.
  - apply compare_documents_sentence_level_same_state, S.
Qed.

Lemma find_fold_hashes d l : forall h2d ms,
  map mi_content_hash (snd (fold_left (find_step d) l (h2d, ms)))
  = map mi_content_hash ms ++ List.filter (has_match d h2d) l.
Proof.
  induction l as [|h l IH]; intros h2d ms; cbn [fold_left List.filter].
  - rewrite app_nil_r. reflexivity.
  - unfold find_step at 2.
    pose proof (dd_get_value h h2d) as Hv. pose proof (fun k => dd_get_refs h k h2d) as Hr.
    destruct (dd_get h h2d) as [docs h2d1]. cbn [fst snd] in Hv, Hr. subst docs.
    assert (Hm : forall k, has_match d h2d1 k = has_match d h2d k).
    { intros k. unfold has_match. rewrite Hr. reflexivity. }
    assert (Hf : List.filter (has_match d h2d1) l = List.filter (has_match d h2d) l).
    { apply List.filter_ext. exact Hm. }
    destruct (has_match d h2d h) eqn:Em; unfold has_match in Em;
      destruct (1 <? length (refs_at h2d h)); cbn [andb] in Em; try discriminate;
      cbv beta iota;
      try (destruct (List.filter (not_of d) (refs_at h2d h)) eqn:Ef; try discriminate);
      rewrite IH, Hf; try reflexivity.
    rewrite map_app, <- app_assoc. reflexivity.
Qed.

Lemma two_references (l : list ChunkRef) (r o : ChunkRef) :
  r ∈ l -> o ∈ l -> r <> o -> 1 < length l.
Proof.
  intros Hr Ho Hne. destruct l as [|x [|y l]]; cbn [length]; [inversion Hr | | lia].
  apply list_elem_of_singleton in Hr, Ho. congruence.
Qed.

Lemma has_match_other d self h :
  forward self -> h ∈ hashes_of (document_to_hashes self) d ->
  has_match d (hash_to_documents self) h = true
  <-> exists other, other ∈ refs_at (hash_to_documents self) h /\ cr_document_name other <> d.
Proof.
  intros F Hh. destruct (F d h Hh) as (r & Hr & Hn). unfold has_match. split.
  - intros H. apply andb_true_iff in H as [_ H].
    destruct (List.filter (not_of d) (refs_at (hash_to_documents self) h)) as [|o rest] eqn:Ef;
      [discriminate|].
    assert (Ho : In o (List.filter (not_of d) (refs_at (hash_to_documents self) h))).
    { rewrite Ef. left. reflexivity. }
    apply filter_In in Ho as [Ho1 Ho2]. exists o. split.
    + apply list_elem_of_In. assumption.
    + apply not_of_true. assumption.
  - intros (o & Ho & Hne). apply andb_true_iff. split.
    + apply Nat.ltb_lt. apply (two_references _ r o); [assumption | assumption | congruence].
    + assert (Hin : In o (List.filter (not_of d) (refs_at (hash_to_documents self) h))).
      { apply filter_In. split; [apply list_elem_of_In; assumption | apply not_of_true; assumption]. }
      destruct (List.filter (not_of d) (refs_at (hash_to_documents self) h)); [destruct Hin | reflexivity].
Qed.

(** X2.  In every state of a session [find_exact_matches d] reports a hash
    exactly when it is a hash of [d] under which another document has a
    reference; an unknown document has no match. *)
Theorem find_exact_matches_complete (requests : list request) (d h : string) :
  h ∈ matched_hashes (fst (find_exact_matches d (session requests)))
  <-> h ∈ hashes_of (document_to_hashes (session requests)) d
      /\ exists other, other ∈ refs_at (hash_to_documents (session requests)) h
                       /\ cr_document_name other <> d.
Proof.
  destruct (session_consistent requests) as (F & _). generalize dependent (session requests).
  intros self F. unfold find_exact_matches.
  destruct (document_to_hashes self !! d) as [hs|] eqn:E.
  - pose proof (find_fold_hashes d (elements hs) (hash_to_documents self) []) as H.
    destruct (fold_left _ _ _) as [h2d ms]. cbn [fst snd matched_hashes map app] in *.
    rewrite H. rewrite list_elem_of_In, filter_In, <- list_elem_of_In, elem_of_elements.
    assert (Ehs : hashes_of (document_to_hashes self) d = hs).
    { unfold hashes_of. rewrite E. reflexivity. }
    rewrite Ehs. split.
    + intros [Hh Hm]. split; [assumption|].
      apply (has_match_other d self h F); [rewrite Ehs|]; assumption.
    + intros [Hh Ho]. split; [assumption|].
      apply (has_match_other d self h F); [rewrite Ehs|]; assumption.
  - cbn [fst matched_hashes map]. unfold hashes_of. rewrite E. cbn [default]. split.
    + intros H. inversion H.
    + intros [H _]. set_solver.
Qed.

Lemma find_is_of d refs :
  (exists r, r ∈ refs /\ cr_document_name r = d) ->
  exists r, List.find (is_of d) refs = Some r /\ cr_document_name r = d.
Proof.
  intros (r & Hr & Hn). destruct (List.find (is_of d) refs) as [x|] eqn:Ef.
  - exists x. split; [reflexivity|]. apply find_some in Ef as [_ Ef].
    apply String.eqb_eq. exact Ef.
  - exfalso. apply list_elem_of_In in Hr. pose proof (find_none _ _ Ef r Hr) as Hf.
    unfold is_of in Hf. rewrite Hn, String.eqb_refl in Hf. discriminate.
Qed.

Lemma find_is_of_name d refs r :
  List.find (is_of d) refs = Some r -> cr_document_name r = d.
Proof. intros Ef. apply find_some in Ef as [_ Ef]. apply String.eqb_eq. exact Ef. Qed.

(** The matches of a comparison, by their hashes *)
Lemma compare_fold_hashes a b l : forall h2d ms,
  (forall h, h ∈ l -> (exists r, r ∈ refs_at h2d h /\ cr_document_name r = a)
                      /\ (exists r, r ∈ refs_at h2d h /\ cr_document_name r = b)) ->
  map em_content_hash (snd (fold_left (compare_step a b) l (h2d, ms)))
  = map em_content_hash ms ++ l.
Proof.
  induction l as [|h l IH]; intros h2d ms P; cbn [fold_left].
  - rewrite app_nil_r. reflexivity.
  - unfold compare_step at 2.
    pose proof (dd_get_value h h2d) as Hv. pose proof (fun k => dd_get_refs h k h2d) as Hr.
    destruct (dd_get h h2d) as [docs h2d1]. cbn [fst snd] in Hv, Hr. subst docs.
    destruct (P h) as [Pa Pb]; [apply elem_of_cons; auto|].
    apply find_is_of in Pa as (ra & -> & _). apply find_is_of in Pb as (rb & -> & _).
    rewrite IH.
    + rewrite map_app, <- app_assoc. reflexivity.
    + intros k Hk. rewrite !Hr. apply P, elem_of_cons. auto.
Qed.

Lemma compare_fold_sides a b l : forall h2d ms,
  Forall (fun m => cr_document_name (em_doc1_section m) = a
                   /\ cr_document_name (em_doc2_section m) = b) ms ->
  Forall (fun m => cr_document_name (em_doc1_section m) = a
                   /\ cr_document_name (em_doc2_section m) = b)
         (snd (fold_left (compare_step a b) l (h2d, ms))).
Proof.
  induction l as [|h l IH]; intros h2d ms P; cbn [fold_left]; [exact P|].
  unfold compare_step at 2. destruct (dd_get h h2d) as [docs h2d1].
  destruct (find (is_of a) docs) as [ra|] eqn:Ea; [|apply IH, P].
  destruct (find (is_of b) docs) as [rb|] eqn:Eb; [|apply IH, P].
  apply IH. apply Forall_app. split; [exact P|].
  constructor; [|constructor]. cbn [em_doc1_section em_doc2_section].
  split; eapply find_is_of_name; eassumption.
Qed.

(** X3.  In every state of a session [compare_documents_exact] lists, for
    two indexed documents, one match for every common hash, so
    [len(matches)] is [common_sections], beside the sizes of the two sets;
    [doc1_section] is a reference of the first document and [doc2_section]
    one of the second.  A pair with a document that is not indexed is
    refused with the error, and only such a pair. *)
Theorem compare_documents_exact_matches (requests : list request) (a b : string) :
  match document_to_hashes (session requests) !! a,
        document_to_hashes (session requests) !! b with
  | Some ha, Some hb =>
      map em_content_hash
          (compare_matches (fst (compare_documents_exact a b (session requests))))
      = elements (ha ∩ hb)
      /\ compare_counts (fst (compare_documents_exact a b (session requests)))
         = Some (size ha, size hb, size (ha ∩ hb), size (ha ∩ hb))
      /\ Forall (fun m => cr_document_name (em_doc1_section m) = a
                          /\ cr_document_name (em_doc2_section m) = b)
                (compare_matches (fst (compare_documents_exact a b (session requests))))
  | _, _ =>
      fst (compare_documents_exact a b (session requests))
      = CompareError "One or both documents not found"
  end.
Proof.
  destruct (session_consistent requests) as (F & _). generalize dependent (session requests).
  intros self F. unfold compare_documents_exact.
  destruct (document_to_hashes self !! a) as [ha|] eqn:Ea; [|reflexivity].
  destruct (document_to_hashes self !! b) as [hb|] eqn:Eb; [|reflexivity].
  pose proof (compare_fold_hashes a b (elements (ha ∩ hb)) (hash_to_documents self) []) as H.
  pose proof (compare_fold_sides a b (elements (ha ∩ hb)) (hash_to_documents self) []) as S.
  destruct (fold_left _ _ _) as [h2d ms].
  cbn [fst snd compare_matches compare_counts map app] in *.
  assert (E : map em_content_hash ms = elements (ha ∩ hb)).
  { apply H. intros h Hh. apply elem_of_elements, elem_of_intersection in Hh as [H1 H2]. split.
    - apply F. apply hashes_of_elem. eauto.
    - apply F. apply hashes_of_elem. eauto. }
  split; [exact E|]. split.
  - rewrite <- (length_map em_content_hash), E. reflexivity.
  - apply S. constructor.
Qed.

(** ** Duplicates and statistics *)

Lemma duplicate_fold l : forall dups seen,
  NoDup (map fst l) ->
  (forall k, k ∈ map fst l -> k ∉ seen) ->
  fst (fold_left duplicate_step l (dups, seen)) = dups ++ omap duplicate_of l.
Proof.
  induction l as [|[h docs] l IH]; intros dups seen ND Hs; cbn [fold_left].
  - simpl. rewrite app_nil_r. reflexivity.
  - cbn [map fst] in ND. apply NoDup_cons in ND as [Hnin ND].
    assert (Hh : h ∉ seen) by (apply Hs; cbn [map fst]; apply elem_of_cons; auto).
    assert (Hs' : forall k, k ∈ map fst l -> k ∉ seen).
    { intros k Hk. apply Hs. cbn [map fst]. apply elem_of_cons. auto. }
    change (omap duplicate_of ((h, docs) :: l))
      with (match duplicate_of (h, docs) with
            | Some y => y :: omap duplicate_of l
            | None => omap duplicate_of l
            end).
    unfold duplicate_step at 2, duplicate_of. cbn [fst snd].
    destruct docs as [|first [|second rest]].
    + apply IH; assumption.
    + apply IH; assumption.
    + rewrite bool_decide_eq_false_2 by assumption.
      rewrite IH; [rewrite <- app_assoc; reflexivity | assumption |].
      intros k Hk. apply not_elem_of_union. split; [apply Hs', Hk|].
      intros Hk'. apply elem_of_singleton in Hk'. subst k. contradiction.
Qed.

Lemma find_duplicate_sections_list self :
  dr_duplicates (find_duplicate_sections self)
  = omap duplicate_of (map_to_list (hash_to_documents self)).
Proof.
  unfold find_duplicate_sections.
  pose proof (duplicate_fold (map_to_list (hash_to_documents self)) [] ∅
                (NoDup_fst_map_to_list _)) as H.
  destruct (fold_left _ _ _) as [dups seen]. cbn [fst dr_duplicates] in *.
  apply H. intros k _. set_solver.
Qed.

Lemma find_duplicate_sections_total self :
  dr_total_duplicate_sections (find_duplicate_sections self)
  = length (dr_duplicates (find_duplicate_sections self)).
Proof. unfold find_duplicate_sections. destruct (fold_left _ _ _). reflexivity. Qed.

Lemma duplicate_of_hash item info :
  duplicate_of item = Some info ->
  di_content_hash info = fst item /\ di_documents info = snd item
  /\ di_duplicate_count info = length (snd item) /\ 1 < length (snd item).
Proof.
  unfold duplicate_of. destruct item as [k docs]. cbn [fst snd].
  destruct docs as [|x [|y rest]]; try discriminate.
  intros H. injection H as <-. cbn. repeat split. lia.
Qed.

Lemma duplicate_of_some item :
  1 < length (snd item) -> exists info, duplicate_of item = Some info.
Proof.
  unfold duplicate_of. destruct (snd item) as [|x [|y rest]]; cbn [length]; try lia.
  eauto.
Qed.

Lemma omap_fst_NoDup (l : list (string * list ChunkRef)) :
  NoDup (map fst l) -> NoDup (map di_content_hash (omap duplicate_of l)).
Proof.
  induction l as [|it l IH]; intros ND; [constructor|].
  cbn [map] in ND. apply NoDup_cons in ND as [Hnin ND].
  change (omap duplicate_of (it :: l))
    with (match duplicate_of it with
          | Some y => y :: omap duplicate_of l
          | None => omap duplicate_of l
          end).
  destruct (duplicate_of it) as [info|] eqn:E; [|apply IH, ND].
  cbn [map]. apply NoDup_cons. split; [|apply IH, ND].
  intros Hin. apply Hnin. apply duplicate_of_hash in E as (E & _). rewrite <- E.
  apply list_elem_of_fmap in Hin as (i & Ei & Hi).
  apply list_elem_of_omap in Hi as (it' & Hit & E').
  apply duplicate_of_hash in E' as (E' & _). rewrite Ei, E'.
  apply list_elem_of_fmap. exists it'. auto.
Qed.

Lemma duplicate_hashes_elem self h :
  h ∈ duplicate_hashes (find_duplicate_sections self)
  <-> 1 < length (refs_at (hash_to_documents self) h).
Proof.
  unfold duplicate_hashes. rewrite find_duplicate_sections_list. split.
  - intros Hin. apply list_elem_of_fmap in Hin as (i & Ei & Hi).
    apply list_elem_of_omap in Hi as ([k docs] & Hit & E).
    apply duplicate_of_hash in E as (E & _ & _ & L). cbn [fst snd] in *.
    apply elem_of_map_to_list in Hit. unfold refs_at. rewrite Ei, E, Hit. exact L.
  - intros L. unfold refs_at in L.
    destruct (hash_to_documents self !! h) as [docs|] eqn:E; [|cbn in L; lia].
    cbn [default] in L. destruct (duplicate_of_some (h, docs) L) as (info & Ei).
    apply list_elem_of_fmap. exists info. split.
    + apply duplicate_of_hash in Ei as (Ei & _). rewrite Ei. reflexivity.
    + apply list_elem_of_omap. exists (h, docs). split; [|exact Ei].
      apply elem_of_map_to_list. exact E.
Qed.

(** X7.  [find_duplicate_sections] reports exactly the hashes that have two
    references or more, each once, with all the references of the hash and
    their number: what it counts is references, not documents; the set of
    processed hashes never turns an entry away. *)
Theorem find_duplicate_sections_exact (self : Service) :
  NoDup (duplicate_hashes (find_duplicate_sections self))
  /\ (forall h, h ∈ duplicate_hashes (find_duplicate_sections self)
                <-> 1 < length (refs_at (hash_to_documents self) h))
  /\ Forall (fun info =>
               di_documents info = refs_at (hash_to_documents self) (di_content_hash info)
               /\ di_duplicate_count info = length (di_documents info))
            (dr_duplicates (find_duplicate_sections self))
  /\ dr_total_duplicate_sections (find_duplicate_sections self)
     = length (dr_duplicates (find_duplicate_sections self)).
Proof.
  split; [|split; [|split]].
  - unfold duplicate_hashes. rewrite find_duplicate_sections_list.
    apply omap_fst_NoDup, NoDup_fst_map_to_list.
  - apply duplicate_hashes_elem.
  - rewrite find_duplicate_sections_list. apply Forall_forall. intros info Hi.
    apply list_elem_of_omap in Hi as ([k docs] & Hit & E).
    apply duplicate_of_hash in E as (E1 & E2 & E3 & _). cbn [fst snd] in *.
    apply elem_of_map_to_list in Hit. unfold refs_at. rewrite E1, Hit, E2, E3. auto.
  - apply find_duplicate_sections_total.
Qed.

Lemma length_omap_duplicate (l : list (string * list ChunkRef)) :
  length (omap duplicate_of l)
  = length (List.filter (fun docs => 1 <? length docs) (map snd l)).
Proof.
  induction l as [|[k docs] l IH]; [reflexivity|].
  change (omap duplicate_of ((k, docs) :: l))
    with (match duplicate_of (k, docs) with
          | Some y => y :: omap duplicate_of l
          | None => omap duplicate_of l
          end).
  cbn [map snd List.filter]. unfold duplicate_of. cbn [snd].
  destruct docs as [|x [|y rest]]; cbn [length Nat.ltb Nat.leb];
    [exact IH | exact IH | f_equal; exact IH].
Qed.

Lemma filter_partition (l : list (list ChunkRef)) :
  Forall (fun docs => docs <> []) l ->
  length l = length (List.filter (fun docs => length docs =? 1) l)
             + length (List.filter (fun docs => 1 <? length docs) l).
Proof.
  induction 1 as [|docs l Hd _ IH]; [reflexivity|].
  destruct docs as [|x [|y rest]]; [contradiction | |]; simpl; simpl in IH; lia.
Qed.

(** X8.  In every state of a session the statistics add up: every key of
    [hash_to_documents] is counted once, as unique or as duplicate; the
    duplicates are as many as [find_duplicate_sections] reports, and both
    count the same documents. *)
Theorem get_document_stats_counts (requests : list request) :
  st_total_unique_sections (get_document_stats (session requests))
  = st_unique_content_hashes (get_document_stats (session requests))
    + st_duplicate_content_hashes (get_document_stats (session requests))
  /\ st_duplicate_content_hashes (get_document_stats (session requests))
     = dr_total_duplicate_sections (find_duplicate_sections (session requests))
  /\ st_total_documents (get_document_stats (session requests))
     = dr_total_documents (find_duplicate_sections (session requests)).
Proof.
  destruct (session_consistent requests) as (_ & _ & N & _).
  generalize dependent (session requests). intros self N. split; [|split].
  - unfold get_document_stats. cbn [st_total_unique_sections st_unique_content_hashes
                                    st_duplicate_content_hashes].
    rewrite <- length_map_to_list, <- (length_map snd). apply filter_partition.
    apply Forall_forall. intros docs Hd.
    apply list_elem_of_fmap in Hd as ([k ds] & -> & Hin). apply elem_of_map_to_list in Hin.
    exact (N k ds Hin).
  - pose proof (find_duplicate_sections_list self) as L.
    unfold get_document_stats. cbn [st_duplicate_content_hashes].
    rewrite <- length_omap_duplicate, <- L. symmetry. apply find_duplicate_sections_total.
  - unfold get_document_stats, find_duplicate_sections. destruct (fold_left _ _ _). reflexivity.
Qed.

(** ** Differences *)

Lemma difference_fold_hashes a l : forall h2d ms,
  (forall h, h ∈ l -> exists r, r ∈ refs_at h2d h /\ cr_document_name r = a) ->
  map df_content_hash (snd (fold_left (difference_step a) l (h2d, ms)))
  = map df_content_hash ms ++ l.
Proof.
  induction l as [|h l IH]; intros h2d ms P; cbn [fold_left].
  - rewrite app_nil_r. reflexivity.
  - unfold difference_step at 2.
    pose proof (dd_get_value h h2d) as Hv. pose proof (fun k => dd_get_refs h k h2d) as Hr.
    destruct (dd_get h h2d) as [docs h2d1]. cbn [fst snd] in Hv, Hr. subst docs.
    destruct (P h) as (r & Hr1 & Hr2); [apply elem_of_cons; auto|].
    destruct (find_is_of a (refs_at h2d h)) as (ra & -> & _); [eauto|].
    rewrite IH.
    + rewrite map_app, <- app_assoc. reflexivity.
    + intros k Hk. rewrite Hr. apply P, elem_of_cons. auto.
Qed.

Lemma get_document_differences_hashes a b self ha hb :
  forward self ->
  document_to_hashes self !! a = Some ha -> document_to_hashes self !! b = Some hb ->
  difference_hashes (fst (get_document_differences a b self))
  = (elements (ha ∖ hb), elements (hb ∖ ha))
  /\ difference_counts (fst (get_document_differences a b self))
     = Some (size (ha ∖ hb), size (hb ∖ ha)).
Proof.
  intros F Ea Eb. unfold get_document_differences. rewrite Ea, Eb.
  pose proof (difference_fold_hashes a (elements (ha ∖ hb)) (hash_to_documents self) []) as H1.
  pose proof (difference_fold_same a (elements (ha ∖ hb)) (hash_to_documents self) []) as R1.
  destruct (fold_left (difference_step a) _ _) as [h2d1 ms1]. cbn [fst snd map app] in H1, R1.
  assert (P1 : forall h, h ∈ elements (ha ∖ hb) ->
                         exists r, r ∈ refs_at (hash_to_documents self) h /\ cr_document_name r = a).
  { intros h Hh. apply elem_of_elements, elem_of_difference in Hh as [Hh _].
    apply F, hashes_of_elem. eauto. }
  rewrite R1.
  2:{ intros h Hh. destruct (P1 h Hh) as (r & Hr & _). eapply refs_at_present, Hr. }
  pose proof (difference_fold_hashes b (elements (hb ∖ ha)) (hash_to_documents self) []) as H2.
  destruct (fold_left (difference_step b) _ _) as [h2d2 ms2]. cbn [fst snd map app] in H2.
  cbn [fst difference_hashes difference_counts].
  rewrite <- (length_map df_content_hash ms1), <- (length_map df_content_hash ms2).
  rewrite H1, H2; [auto | | exact P1].
  intros h Hh. apply elem_of_elements, elem_of_difference in Hh as [Hh _].
  apply F, hashes_of_elem. eauto.
Qed.

Lemma size_split (X Y : gset string) : size (X ∖ Y) + size (X ∩ Y) = size X.
Proof.
  rewrite <- size_union by set_solver. f_equal. apply set_eq. intros x.
  rewrite elem_of_union, elem_of_difference, elem_of_intersection.
  destruct (decide (x ∈ Y)); tauto.
Qed.

(** X6.  In every state of a session [get_document_differences] and
    [compare_documents_exact] split the sections of each document: the
    unique ones and the common ones add up to the total.  Both refuse the
    same pairs of documents. *)
Theorem differences_and_common (requests : list request) (a b : string) :
  match compare_counts (fst (compare_documents_exact a b (session requests))),
        difference_counts (fst (get_document_differences a b (session requests))) with
  | Some (total1, total2, common, _), Some (unique1, unique2) =>
      unique1 + common = total1 /\ unique2 + common = total2
  | None, None => True
  | _, _ => False
  end.
Proof.
  destruct (session_consistent requests) as (F & _). generalize dependent (session requests).
  intros self F.
  destruct (document_to_hashes self !! a) as [ha|] eqn:Ea.
  2:{ unfold compare_documents_exact, get_document_differences. rewrite Ea. exact I. }
  destruct (document_to_hashes self !! b) as [hb|] eqn:Eb.
  2:{ unfold compare_documents_exact, get_document_differences. rewrite Ea, Eb. exact I. }
  destruct (get_document_differences_hashes a b self ha hb F Ea Eb) as [_ D]. rewrite D.
  destruct (compare_documents_exact_found a b self ha hb Ea Eb) as (ms & self' & C). rewrite C.
  cbn [fst compare_counts]. split; [apply size_split|].
  replace (ha ∩ hb) with (hb ∩ ha) by set_solver. apply size_split.
Qed.

(** X5.  In every state of a session [get_document_differences] lists, for
    two indexed documents, one section for every hash that the one records
    and the other does not, and counts them; it refuses a pair with a
    document that is not indexed. *)
Theorem get_document_differences_unique (requests : list request) (a b : string) :
  match document_to_hashes (session requests) !! a,
        document_to_hashes (session requests) !! b with
  | Some ha, Some hb =>
      difference_hashes (fst (get_document_differences a b (session requests)))
      = (elements (ha ∖ hb), elements (hb ∖ ha))
      /\ difference_counts (fst (get_document_differences a b (session requests)))
         = Some (size (ha ∖ hb), size (hb ∖ ha))
  | _, _ =>
      fst (get_document_differences a b (session requests))
      = DifferencesError "One or both documents not found"
  end.
Proof.
  destruct (session_consistent requests) as (F & _). generalize dependent (session requests).
  intros self F.
  destruct (document_to_hashes self !! a) as [ha|] eqn:Ea.
  2:{ unfold get_document_differences. rewrite Ea. reflexivity. }
  destruct (document_to_hashes self !! b) as [hb|] eqn:Eb.
  2:{ unfold get_document_differences. rewrite Ea, Eb. reflexivity. }
  apply get_document_differences_hashes; assumption.
Qed.

(** ** The persistence file *)

Lemma restart_add_document_chunks d chunks self :
  restart (add_document_chunks d chunks self) = add_document_chunks d chunks self.
Proof.
  unfold add_document_chunks. generalize (fold_left (add_chunk d) chunks self). intros s.
  destruct (load_saved s) as (A & B & C & D).
  unfold restart, init, _load_data in *. cbn [persistence_file _save_data] in *.
  cbn [hash_to_documents document_to_hashes sentence_hash_to_documents
       document_to_sentence_hashes] in *.
  unfold _save_data. f_equal; assumption.
Qed.

(** X15.  [add_document_chunks] writes all of the index to the file: a
    restart right after it comes back to the same service, with the four
    maps as they were in memory. *)
Theorem restart_after_add (d : string) (chunks : list Chunk) (self : Service) :
  restart (add_document_chunks d chunks self) = add_document_chunks d chunks self.
Proof. apply restart_add_document_chunks. Qed.

(** ** Removal, seen from the queries *)

Lemma no_reference_left d self :
  backward self -> document_to_hashes self !! d = None ->
  forall h r, r ∈ refs_at (hash_to_documents self) h -> cr_document_name r <> d.
Proof.
  intros B N h r Hr Hn. specialize (B h r Hr). rewrite Hn in B.
  unfold hashes_of in B. rewrite N in B. set_solver.
Qed.

(** X13.  In every state of a session, after [remove_document d] the
    section-level index holds nothing of [d]: it is no key of
    [document_to_hashes], no reference under any hash is one of [d], and
    the three section-level queries answer that the document is not found. *)
Theorem remove_document_complete (requests : list request) (d b : string) :
  document_to_hashes (snd (remove_document d (session requests))) !! d = None
  /\ (forall h r, r ∈ refs_at (hash_to_documents (snd (remove_document d (session requests)))) h ->
                  cr_document_name r <> d)
  /\ fst (find_exact_matches d (snd (remove_document d (session requests))))
     = FindError "Document not found" []
  /\ fst (compare_documents_exact d b (snd (remove_document d (session requests))))
     = CompareError "One or both documents not found"
  /\ fst (get_document_differences b d (snd (remove_document d (session requests))))
     = DifferencesError "One or both documents not found".
Proof.
  pose proof (remove_document_consistent d _ (session_consistent requests)) as (_ & B & _).
  pose proof (remove_document_forgets d (session requests)) as N.
  generalize dependent (snd (remove_document d (session requests))). intros self B N.
  split; [exact N|]. split; [apply no_reference_left; assumption|].
  unfold find_exact_matches, compare_documents_exact, get_document_differences. rewrite N.
  repeat split. destruct (document_to_hashes self !! b); reflexivity.
Qed.

(** ** Adding a document twice *)

Lemma add_chunks_lookup_hashes d chunks : forall self,
  document_to_hashes (fold_left (add_chunk d) chunks self) !! d
  = match omap filed_hash chunks with
    | [] => document_to_hashes self !! d
    | _ => Some (hashes_of (document_to_hashes self) d ∪ new_hashes chunks)
    end.
Proof.
  induction chunks as [|c chunks IH]; intros self; cbn [fold_left]; [reflexivity|].
  rewrite IH, new_hashes_cons, new_hashes_one.
  destruct (add_chunk_sections d self c) as [_ B]. rewrite B.
  change (omap filed_hash (c :: chunks))
    with (match filed_hash c with
          | Some y => y :: omap filed_hash chunks
          | None => omap filed_hash chunks
          end).
  destruct (filed_hash c) as [h|].
  - rewrite hashes_of_dd_add, decide_True by reflexivity.
    destruct (omap filed_hash chunks) eqn:Eo.
    + unfold dd_add. rewrite lookup_insert_eq. unfold new_hashes. rewrite Eo.
      f_equal. unfold hashes_of. set_solver.
    + f_equal. set_solver.
  - destruct (omap filed_hash chunks); [reflexivity|]. f_equal. set_solver.
Qed.

(** X10.  Adding the chunks of a document a second time changes no set of
    hashes, but files every reference again: each of its sections then has
    two references or more and is reported by [find_duplicate_sections],
    also when no other document holds it. *)
Theorem add_twice_duplicates (d : string) (chunks : list Chunk) (self : Service) :
  document_to_hashes (add_document_chunks d chunks (add_document_chunks d chunks self))
  = document_to_hashes (add_document_chunks d chunks self)
  /\ (forall h, refs_at (hash_to_documents
                           (add_document_chunks d chunks (add_document_chunks d chunks self))) h
                = refs_at (hash_to_documents (add_document_chunks d chunks self)) h
                  ++ new_refs d chunks h)
  /\ Forall (fun c => match filed_hash c with
                      | Some h => h ∈ duplicate_hashes
                                        (find_duplicate_sections
                                           (add_document_chunks d chunks
                                              (add_document_chunks d chunks self)))
                      | None => True
                      end) chunks.
Proof.
  unfold add_document_chunks, _save_data. cbn [hash_to_documents document_to_hashes].
  set (s1 := fold_left (add_chunk d) chunks self).
  set (s1' := mkService _ _ _ _ _).
  assert (R : forall h, refs_at (hash_to_documents (fold_left (add_chunk d) chunks s1')) h
                        = (refs_at (hash_to_documents self) h ++ new_refs d chunks h)
                          ++ new_refs d chunks h).
  { intros h. rewrite add_chunks_refs. subst s1'. cbn [hash_to_documents]. subst s1.
    rewrite add_chunks_refs. reflexivity. }
  split; [|split].
  - apply map_eq. intros d'. destruct (decide (d' = d)) as [->|Hne].
    + rewrite add_chunks_lookup_hashes. subst s1'. cbn [document_to_hashes]. subst s1.
      pose proof (add_chunks_hashes d chunks self d) as H1.
      rewrite decide_True in H1 by reflexivity. rewrite H1.
      rewrite add_chunks_lookup_hashes.
      destruct (omap filed_hash chunks); [reflexivity|]. f_equal. set_solver.
    + rewrite add_chunks_other by assumption. reflexivity.
  - intros h. rewrite R. subst s1. rewrite add_chunks_refs. reflexivity.
  - apply Forall_forall. intros c Hc. destruct (filed_hash c) as [h|] eqn:Eh; [|exact I].
    match goal with |- h ∈ duplicate_hashes (find_duplicate_sections ?s) =>
      apply (duplicate_hashes_elem s h); cbn [hash_to_documents] end.
    rewrite R, !length_app.
    assert (Hn : new_refs d chunks h <> []).
    { apply (elem_new_hashes d). unfold new_hashes.
      apply elem_of_list_to_set, list_elem_of_omap. eauto. }
    destruct (new_refs d chunks h); [contradiction|]. cbn [length]. lia.
Qed.

(** ** The comparison of sentences *)

Lemma similarity_sets (ha hb : gset string) :
  (0 <= similarity (size (ha ∩ hb)) (size ha) (size hb)
   /\ similarity (size (ha ∩ hb)) (size ha) (size hb) <= 1)%Q
  /\ ((similarity (size (ha ∩ hb)) (size ha) (size hb) == 1)%Q <-> ha = hb /\ ha <> ∅)
  /\ ((similarity (size (ha ∩ hb)) (size ha) (size hb) == 0)%Q <-> ha ## hb).
Proof.
  assert (Hn : size (ha ∩ hb) <= size ha) by (apply subseteq_size; set_solver).
  assert (Hm : size (ha ∩ hb) <= size hb) by (apply subseteq_size; set_solver).
  split; [apply similarity_bounds; assumption|]. split.
  - rewrite similarity_one by assumption. split.
    + intros (E & E' & Hpos).
      assert (A : ha ∩ hb = ha).
      { apply set_subseteq_size_eq; [set_solver | lia]. }
      assert (B : ha ∩ hb = hb).
      { apply set_subseteq_size_eq; [set_solver | lia]. }
      split; [congruence|]. intros ->. rewrite intersection_empty_l_L, size_empty in Hpos. lia.
    + intros [-> Hne]. assert (E : hb ∩ hb = hb) by set_solver. rewrite E.
      split; [reflexivity|]. split; [reflexivity|].
      assert (size hb <> 0); [|lia]. intros Hz. apply size_empty_inv in Hz.
      apply Hne. apply leibniz_equiv. assumption.
  - rewrite similarity_zero by assumption. rewrite disjoint_intersection_L. split.
    + intros Hz. apply leibniz_equiv. apply size_empty_inv. assumption.
    + intros ->. apply size_empty.
Qed.

Lemma find_sentence_of d refs :
  (exists r, r ∈ refs /\ sr_document_name r = d) ->
  exists r, List.find (sentence_of d) refs = Some r.
Proof.
  intros (r & Hr & Hn). destruct (List.find (sentence_of d) refs) as [x|] eqn:Ef; [eauto|].
  exfalso. apply list_elem_of_In in Hr. pose proof (find_none _ _ Ef r Hr) as Hf.
  unfold sentence_of in Hf. rewrite Hn, String.eqb_refl in Hf. discriminate.
Qed.

Lemma sentence_fold_hashes a b l : forall s2d ms,
  (forall h, h ∈ l -> (exists r, r ∈ refs_at s2d h /\ sr_document_name r = a)
                      /\ (exists r, r ∈ refs_at s2d h /\ sr_document_name r = b)) ->
  map sm_sentence_hash (snd (fold_left (sentence_step a b) l (s2d, ms)))
  = map sm_sentence_hash ms ++ l.
Proof.
  induction l as [|h l IH]; intros s2d ms P; cbn [fold_left].
  - rewrite app_nil_r. reflexivity.
  - unfold sentence_step at 2.
    pose proof (dd_get_value h s2d) as Hv. pose proof (fun k => dd_get_refs h k s2d) as Hr.
    destruct (dd_get h s2d) as [docs s2d1]. cbn [fst snd] in Hv, Hr. subst docs.
    destruct (P h) as [Pa Pb]; [apply elem_of_cons; auto|].
    apply find_sentence_of in Pa as (ra & ->). apply find_sentence_of in Pb as (rb & ->).
    rewrite IH.
    + rewrite map_app, <- app_assoc. reflexivity.
    + intros k Hk. rewrite !Hr. apply P, elem_of_cons. auto.
Qed.

(** X4.  In every state of a session [compare_documents_sentence_level]
    lists one match for every sentence hash that both documents record, and
    returns the sizes of the two sets and of their intersection; its score
    is the Dice coefficient of the two sets of sentence hashes, twice the
    size of the intersection over the sum of the two sizes: between 0 and
    1, 1 exactly for equal sets that are not empty, 0 exactly for disjoint
    ones.  A pair with a document without recorded sentences is refused. *)
Theorem compare_documents_sentence_level_matches (requests : list request) (a b : string) :
  match document_to_sentence_hashes (session requests) !! a,
        document_to_sentence_hashes (session requests) !! b with
  | Some ha, Some hb =>
      map sm_sentence_hash
          (sentence_matches_of (fst (compare_documents_sentence_level a b (session requests))))
      = elements (ha ∩ hb)
      /\ sentence_compare_counts (fst (compare_documents_sentence_level a b (session requests)))
         = Some (size ha, size hb, size (ha ∩ hb))
      /\ exists score,
           sentence_score_of (fst (compare_documents_sentence_level a b (session requests)))
           = Some score
           /\ (score == inject_Z (2 * Z.of_nat (size (ha ∩ hb)))
                        / inject_Z (Z.of_nat (size ha) + Z.of_nat (size hb)))%Q
           /\ (0 <= score /\ score <= 1)%Q
           /\ ((score == 1)%Q <-> ha = hb /\ ha <> ∅)
           /\ ((score == 0)%Q <-> ha ## hb)
  | _, _ =>
      fst (compare_documents_sentence_level a b (session requests))
      = SentenceCompareError "One or both documents not found"
  end.
Proof.
  destruct (session_consistent requests) as (_ & _ & _ & S).
  generalize dependent (session requests). intros self S.
  unfold compare_documents_sentence_level.
  destruct (document_to_sentence_hashes self !! a) as [ha|] eqn:Ea; [|reflexivity].
  destruct (document_to_sentence_hashes self !! b) as [hb|] eqn:Eb; [|reflexivity].
  pose proof (sentence_fold_hashes a b (elements (ha ∩ hb)) (sentence_hash_to_documents self) [])
    as H.
  destruct (fold_left _ _ _) as [s2d ms].
  cbn [fst snd sentence_matches_of sentence_compare_counts sentence_score_of map app] in *.
  split; [|split].
  - apply H. intros h Hh. apply elem_of_elements, elem_of_intersection in Hh as [H1 H2]. split.
    + apply S. apply hashes_of_elem. eauto.
    + apply S. apply hashes_of_elem. eauto.
  - reflexivity.
  - eexists. split; [reflexivity|]. split; [apply similarity_formula | apply similarity_sets].
Qed.

(** ** The format of a hash *)

Lemma length_be_bytes n x : length (Sha256.be_bytes n x) = n.
Proof. induction n as [|n IH]; cbn [Sha256.be_bytes length]; [reflexivity | rewrite IH; reflexivity]. Qed.

Lemma be_bytes_small n x : Forall (fun b => (b < 256)%N) (Sha256.be_bytes n x).
Proof.
  induction n as [|n IH]; cbn [Sha256.be_bytes]; constructor; [|exact IH].
  change 255%N with (N.ones 8). rewrite N.land_ones. apply N.mod_lt. discriminate.
Qed.

Lemma length_compress h block : length h = 8 -> length (Sha256.compress h block) = 8.
Proof.
  intros H. unfold Sha256.compress. rewrite length_map, length_combine, H. reflexivity.
Qed.

Lemma length_blocks fuel : forall h bs, length h = 8 -> length (Sha256.blocks fuel h bs) = 8.
Proof.
  induction fuel as [|k IH]; intros h bs H; cbn [Sha256.blocks]; [exact H|].
  destruct bs; [exact H|]. apply IH, length_compress, H.
Qed.

Lemma hex_digit_ok n : (n < 16)%N -> is_hex (Sha256.hex_digit n) = true.
Proof.
  intros H. rewrite <- (N2Nat.id n).
  assert (L : N.to_nat n < 16) by lia.
  generalize dependent (N.to_nat n). intros k L.
  do 16 (destruct k as [|k]; [vm_compute; reflexivity|]). lia.
Qed.

Lemma hex_of_bytes_format bs :
  Forall (fun b => (b < 256)%N) bs ->
  String.length (Sha256.hex_of_bytes bs) = 2 * length bs
  /\ PyStr.all_chars is_hex (Sha256.hex_of_bytes bs) = true.
Proof.
  induction 1 as [|b bs Hb _ [IH1 IH2]]; [split; reflexivity|].
  cbn [Sha256.hex_of_bytes String.length length PyStr.all_chars]. split; [lia|].
  rewrite IH2, !hex_digit_ok; [reflexivity | |].
  - change 15%N with (N.ones 4). rewrite N.land_ones. apply N.mod_lt. discriminate.
  - rewrite N.shiftr_div_pow2. apply N.Div0.div_lt_upper_bound. exact Hb.
Qed.

Lemma hexdigest_format s :
  String.length (Sha256.hexdigest s) = 64
  /\ PyStr.all_chars is_hex (Sha256.hexdigest s) = true.
Proof.
  unfold Sha256.hexdigest.
  set (h := Sha256.blocks _ _ _).
  assert (L : length h = 8) by (apply length_blocks; reflexivity).
  destruct (hex_of_bytes_format (flat_map (Sha256.be_bytes 4) h)) as [A B].
  - apply Forall_flat_map. apply Forall_forall. intros x _. apply be_bytes_small.
  - split; [|exact B]. rewrite A.
    assert (E : length (flat_map (Sha256.be_bytes 4) h) = 4 * length h).
    { clear. induction h as [|x h IH]; cbn [flat_map length]; [reflexivity|].
      rewrite length_app, length_be_bytes, IH. lia. }
    rewrite E, L. reflexivity.
Qed.

Lemma hexdigest_nonempty s : PyStr.nonempty (Sha256.hexdigest s) = true.
Proof.
  destruct (hexdigest_format s) as [L _]. destruct (Sha256.hexdigest s); [discriminate | reflexivity].
Qed.

Lemma append_assoc (a b c : string) : (a +:+ b) +:+ c = a +:+ (b +:+ c).
Proof. induction a as [|x a IH]; [reflexivity|]. rewrite !append_cons, IH. reflexivity. Qed.

Lemma rstrip_cons c s :
  PyStr.rstrip (String c s)
  = match PyStr.rstrip s with
    | EmptyString => if PyStr.isspace c then EmptyString else String c EmptyString
    | r => String c r
    end.
Proof. reflexivity. Qed.

Lemma words_from_some w s : PyStr.words_from (Some w) s <> [].
Proof.
  revert w. induction s as [|c s IH]; intros w; cbn [PyStr.words_from]; [discriminate|].
  destruct (PyStr.isspace c); [discriminate | apply IH].
Qed.

Lemma words_from_collapse s :
  (forall w, PyStr.join " " (PyStr.words_from (Some w) s)
             = w +:+ PyStr.collapse_from false (PyStr.rstrip s))
  /\ PyStr.join " " (PyStr.words_from None s) = PyStr.collapse_from true (PyStr.rstrip s)
  /\ (PyStr.words_from None s = [] <-> PyStr.rstrip s = EmptyString).
Proof.
  induction s as [|c s (A & B & C)].
  - split; [|split]; [|reflexivity|split; reflexivity].
    intros w. cbn. rewrite append_empty_r. reflexivity.
  - rewrite rstrip_cons. cbn [PyStr.words_from]. destruct (PyStr.isspace c) eqn:Ec.
    + split; [|split].
      * intros w. destruct (PyStr.rstrip s) as [|x r] eqn:Er.
        { apply proj2 in C. rewrite (C eq_refl). cbn. rewrite append_empty_r. reflexivity. }
        destruct (PyStr.words_from None s) as [|y ys] eqn:Ew.
        { apply proj1 in C. specialize (C eq_refl). discriminate. }
        change (PyStr.join " " (w :: y :: ys)) with (w +:+ " " +:+ PyStr.join " " (y :: ys)).
        rewrite B. cbn [PyStr.collapse_from]. rewrite Ec. reflexivity.
      * destruct (PyStr.rstrip s) as [|x r] eqn:Er; [rewrite B; reflexivity|].
        rewrite B. cbn [PyStr.collapse_from]. rewrite Ec. reflexivity.
      * rewrite C. destruct (PyStr.rstrip s); split; intros H; congruence.
    + split; [|split].
      * intros w. rewrite A.
        assert (E : match PyStr.rstrip s with
                    | EmptyString => String c EmptyString
                    | String x r => String c (String x r)
                    end = String c (PyStr.rstrip s)) by (destruct (PyStr.rstrip s); reflexivity).
        rewrite E. cbn [PyStr.collapse_from]. rewrite Ec.
        rewrite append_assoc. reflexivity.
      * rewrite A.
        assert (E : match PyStr.rstrip s with
                    | EmptyString => String c EmptyString
                    | String x r => String c (String x r)
                    end = String c (PyStr.rstrip s)) by (destruct (PyStr.rstrip s); reflexivity).
        rewrite E. cbn [PyStr.collapse_from]. rewrite Ec. reflexivity.
      * split.
        { intros H. exfalso. exact (words_from_some _ _ H). }
        { destruct (PyStr.rstrip s); discriminate. }
Qed.

Lemma collapse_lstrip r :
  PyStr.collapse_from false (PyStr.lstrip r) = PyStr.collapse_from true r.
Proof.
  induction r as [|c r IH]; [reflexivity|]. cbn [PyStr.lstrip PyStr.collapse_from].
  destruct (PyStr.isspace c) eqn:Ec; [exact IH|]. cbn [PyStr.collapse_from]. rewrite Ec.
  reflexivity.
Qed.

Lemma collapse_strip_words s :
  PyStr.collapse_ws (PyStr.strip s) = PyStr.join " " (PyStr.words s).
Proof.
  unfold PyStr.collapse_ws, PyStr.strip, PyStr.words.
  destruct (words_from_collapse s) as (_ & B & _). rewrite B. apply collapse_lstrip.
Qed.

Lemma normalize_words t : normalize t = PyStr.join " " (PyStr.words (PyStr.lower t)).
Proof. unfold normalize. rewrite lower_strip. apply collapse_strip_words. Qed.

(** X16.  A content hash is the SHA-256 digest of the lower-case words of the
    text joined by single spaces: a string of 64 lowercase hexadecimal
    digits, the same for two texts that differ in case and white space
    only. *)
Theorem content_hash_of_words (t : string) :
  _generate_content_hash t
  = Sha256.hexdigest (PyStr.join " " (PyStr.words (PyStr.lower t)))
  /\ String.length (_generate_content_hash t) = 64
  /\ PyStr.all_chars is_hex (_generate_content_hash t) = true.
Proof.
  split; [|apply hexdigest_format].
  unfold _generate_content_hash. fold (normalize t). rewrite normalize_words. reflexivity.
Qed.

(** ** The hashes of the sentences *)

Lemma sentence_hash_content x :
  Sha256.hexdigest (PyStr.collapse_ws (PyStr.strip (PyStr.lower (PyStr.strip x))))
  = _generate_content_hash (PyStr.strip x).
Proof.
  unfold _generate_content_hash. rewrite strip_twice, <- lower_strip, strip_twice. reflexivity.
Qed.

Lemma sentence_hashes_from_spec sentences : forall i,
  Forall (fun sh =>
            sh_sentence_hash sh = _generate_content_hash (sh_sentence_text sh)
            /\ 10 < String.length (sh_sentence_text sh)
            /\ PyStr.strip (sh_sentence_text sh) = sh_sentence_text sh
            /\ sh_word_count sh = length (PyStr.words (sh_sentence_text sh))
            /\ i <= sh_sentence_index sh < i + length sentences
            /\ option_map PyStr.strip (sentences !! (sh_sentence_index sh - i))
               = Some (sh_sentence_text sh))
         (sentence_hashes_from i sentences).
Proof.
  induction sentences as [|x rest IH]; intros i; cbn [sentence_hashes_from]; [constructor|].
  assert (W : Forall (fun sh =>
            sh_sentence_hash sh = _generate_content_hash (sh_sentence_text sh)
            /\ 10 < String.length (sh_sentence_text sh)
            /\ PyStr.strip (sh_sentence_text sh) = sh_sentence_text sh
            /\ sh_word_count sh = length (PyStr.words (sh_sentence_text sh))
            /\ i <= sh_sentence_index sh < i + length (x :: rest)
            /\ option_map PyStr.strip ((x :: rest) !! (sh_sentence_index sh - i))
               = Some (sh_sentence_text sh))
           (sentence_hashes_from (S i) rest)).
  { eapply Forall_impl; [apply IH|]. intros sh (A & B & C & D & E & F).
    repeat split; try assumption; cbn [length]; try lia.
    replace (sh_sentence_index sh - i) with (S (sh_sentence_index sh - S i)) by lia.
    exact F. }
  destruct (10 <? String.length (PyStr.strip x)) eqn:L; [|exact W].
  constructor; [|exact W].
  cbn [sh_sentence_hash sh_sentence_text sh_word_count sh_sentence_index length].
  repeat split; try lia.
  - apply sentence_hash_content.
  - apply Nat.ltb_lt. exact L.
  - apply strip_twice.
  - rewrite Nat.sub_diag. reflexivity.
Qed.

(** X17.  Every entry of [_generate_sentence_hashes] carries a piece of the
    text between sentence terminators, trimmed and longer than 10
    characters, at its position among the pieces; its hash is the content
    hash of that sentence, and its word count the number of its words. *)
Theorem sentence_hashes_of_sentences (text : string) :
  Forall (fun sh =>
            sh_sentence_hash sh = _generate_content_hash (sh_sentence_text sh)
            /\ 10 < String.length (sh_sentence_text sh)
            /\ PyStr.strip (sh_sentence_text sh) = sh_sentence_text sh
            /\ sh_word_count sh = length (PyStr.words (sh_sentence_text sh))
            /\ option_map PyStr.strip (Re.split_terminal text !! sh_sentence_index sh)
               = Some (sh_sentence_text sh))
         (_generate_sentence_hashes text).
Proof.
  unfold _generate_sentence_hashes.
  eapply Forall_impl; [apply (sentence_hashes_from_spec (Re.split_terminal text) 0)|].
  intros sh (A & B & C & D & E & F). rewrite Nat.sub_0_r in F. auto.
Qed.

(** ** The sections that are detected *)

Lemma match_header_valid patterns line lvl num title :
  match_header_from patterns line = Some (lvl, num, title) ->
  _is_valid_section title = true.
Proof.
  induction patterns as [|p ps IH]; cbn [match_header_from]; [discriminate|].
  destruct (Re.rmatch true p line) as [groups|]; [|exact IH].
  match goal with |- context [if _is_valid_section ?t then _ else _] =>
    destruct (_is_valid_section t) eqn:V end; [|exact IH].
  intros H. injection H as <- <- <-. exact V.
Qed.

Lemma level_of_shape_range number :
  level_of_shape number = 1 \/ level_of_shape number = 2 \/ level_of_shape number = 3.
Proof.
  unfold level_of_shape, level_in_spec. destruct (is_lower_letter number); [auto|].
  destruct (count_char "." number) as [|[|[|n]]]; auto.
Qed.

Lemma match_header_title patterns line lvl num ttl :
  match_header_from patterns line = Some (lvl, num, ttl) ->
  PyStr.strip line = line -> PyStr.strip ttl = ttl.
Proof.
  intros H L. revert H.
  induction patterns as [|p ps IH]; cbn [match_header_from]; [discriminate|].
  destruct (Re.rmatch true p line) as [groups|]; [|exact IH].
  match goal with |- context [if _is_valid_section ?t then _ else _] =>
    destruct (_is_valid_section t) end; [|exact IH].
  intros H. injection H as <- <- <-.
  destruct groups as [|g1 [|g2 gs]]; try exact L. apply strip_twice.
Qed.

Lemma valid_title_length t :
  _is_valid_section t = true -> PyStr.strip t = t -> 2 <= String.length t <= 100.
Proof.
  unfold _is_valid_section. intros H S. rewrite S in H.
  destruct (String.length t <? 2) eqn:A; [discriminate|].
  destruct (100 <? String.length t) eqn:B; [discriminate|].
  apply Nat.ltb_ge in A, B. lia.
Qed.

Lemma close_section_ok cur buffer pos :
  header_ok cur -> section_ok (close_section cur buffer pos).
Proof.
  intros (A & B & C & D). unfold section_ok, close_section.
  cbn [number level title content].
  pose proof (valid_title_length _ C D) as [L1 L2].
  repeat split; try assumption.
  - rewrite B. apply level_of_shape_range.
  - apply strip_twice.
Qed.

Lemma header_of_match line lvl num ttl pos parent :
  _match_section_header line = Some (lvl, num, ttl) ->
  PyStr.strip line = line ->
  header_ok (mkSection lvl num ttl EmptyString pos 0 parent).
Proof.
  intros H L. pose proof (match_header_valid _ _ _ _ _ H) as V.
  pose proof (match_header_title _ _ _ _ _ H L) as T.
  apply match_header_from_inv in H as (p & groups & Hin & Hm & -> & ->).
  pose proof (pattern_number_shape p line groups Hin Hm) as S.
  unfold header_ok. cbn [number level title].
  split; [exact S|]. split; [apply level_of_number_shape, S | split; [exact V | exact T]].
Qed.

Lemma detect_line_inv text st i line : detect_inv st -> detect_inv (detect_line text st i line).
Proof.
  intros [A B]. unfold detect_line.
  destruct (if PyStr.nonempty (PyStr.strip line)
            then _match_section_header (PyStr.strip line) else None)
    as [[[lvl num] ttl]|] eqn:M.
  - assert (M' : _match_section_header (PyStr.strip line) = Some (lvl, num, ttl)).
    { destruct (PyStr.nonempty (PyStr.strip line)); [exact M | discriminate]. }
    split; cbn [sections current_section].
    + destruct (current_section st) as [cur|]; [|exact A].
      apply Forall_app. split; [exact A|]. constructor; [|constructor].
      apply close_section_ok, B.
    + eapply header_of_match; [exact M' | apply strip_twice].
  - destruct (current_section st) as [cur|] eqn:Ec; [|split; [exact A | rewrite Ec; exact I]].
    split; cbn [sections current_section]; [exact A | exact B].
Qed.

Lemma detect_loop_inv text lines : forall st i,
  detect_inv st -> detect_inv (detect_loop text st i lines).
Proof.
  induction lines as [|line rest IH]; intros st i H; cbn [detect_loop]; [exact H|].
  apply IH, detect_line_inv, H.
Qed.

Lemma document_content_ok text : section_ok (document_content text).
Proof.
  unfold section_ok, document_content. cbn [number level title content].
  split; [apply shape_integer; reflexivity|].
  split; [reflexivity|]. split; [auto|]. split; [vm_compute; reflexivity|].
  split; [vm_compute; reflexivity|]. split; [cbn; lia | apply strip_twice].
Qed.

(** X18.  [detect_sections] never returns an empty list, and every section it
    returns has a number of one of the shapes of the header patterns, the
    level 1, 2 or 3 that this shape fixes, a trimmed title of 2 to 100
    characters that passed [_is_valid_section], and a trimmed content. *)
Theorem detect_sections_well_formed (text : string) :
  detect_sections text <> [] /\ Forall section_ok (detect_sections text).
Proof.
  unfold detect_sections.
  pose proof (detect_loop_inv text (PyStr.split (String PyStr.newline EmptyString) text)
                (mkDetect [] None []) 0) as [A B].
  { split; [constructor | exact I]. }
  set (st := detect_loop _ _ _ _) in *.
  assert (F : Forall section_ok
                (match current_section st with
                 | Some cur => sections st
                               ++ [close_section cur (content_buffer st) (String.length text)]
                 | None => sections st
                 end)).
  { destruct (current_section st) as [cur|]; [|exact A].
    apply Forall_app. split; [exact A|]. constructor; [|constructor].
    apply close_section_ok, B. }
  destruct (match current_section st with Some _ => _ | None => _ end) as [|s ss].
  - split; [discriminate|]. constructor; [apply document_content_ok | constructor].
  - split; [discriminate | exact F].
Qed.

(** ** Positions *)

Lemma fold_offsets (l : list string) : forall a,
  fold_left (fun position x => position + (String.length x + 1)) l a
  = a + fold_left (fun position x => position + (String.length x + 1)) l 0.
Proof.
  induction l as [|x l IH]; intros a; cbn [fold_left]; [lia|].
  rewrite IH, (IH (0 + _)). lia.
Qed.

Lemma split_from_total a s :
  String.length (fst (PyStr.split_from (String a EmptyString) 0 s))
  + fold_left (fun position x => position + (String.length x + 1))
              (snd (PyStr.split_from (String a EmptyString) 0 s)) 0
  = String.length s.
Proof.
  induction s as [|c s IH]; [reflexivity|]. cbn [PyStr.split_from].
  destruct (PyStr.startswith (String a EmptyString) (String c s)).
  - change (String.length (String a EmptyString) - 1) with 0.
    destruct (PyStr.split_from (String a EmptyString) 0 s) as [h t].
    cbn [fst snd fold_left String.length] in *. rewrite fold_offsets. lia.
  - destruct (PyStr.split_from (String a EmptyString) 0 s) as [h t].
    cbn [fst snd String.length] in *. lia.
Qed.

Lemma split_total a s :
  fold_left (fun position x => position + (String.length x + 1))
            (PyStr.split (String a EmptyString) s) 0
  = String.length s + 1.
Proof.
  unfold PyStr.split. pose proof (split_from_total a s) as H.
  destruct (PyStr.split_from (String a EmptyString) 0 s) as [h t].
  cbn [fst snd fold_left] in *. rewrite fold_offsets. lia.
Qed.

Lemma offsets_firstn (l : list string) i j :
  i <= j ->
  fold_left (fun position x => position + (String.length x + 1)) (firstn i l) 0
  <= fold_left (fun position x => position + (String.length x + 1)) (firstn j l) 0.
Proof.
  revert i j. induction l as [|x l IH]; intros i j H.
  - rewrite !firstn_nil. lia.
  - destruct i as [|i]; [change (firstn 0 (x :: l)) with (@nil string); cbn [fold_left]; lia|].
    destruct j as [|j]; [lia|]. cbn [firstn fold_left].
    rewrite fold_offsets, (fold_offsets _ (0 + _)).
    specialize (IH i j). lia.
Qed.

Lemma offsets_before (l : list string) i :
  i < length l ->
  fold_left (fun position x => position + (String.length x + 1)) (firstn i l) 0
  < fold_left (fun position x => position + (String.length x + 1)) l 0.
Proof.
  revert i. induction l as [|x l IH]; intros i H; cbn [length] in H; [lia|].
  destruct i as [|i]; cbn [firstn fold_left].
  - rewrite fold_offsets. lia.
  - rewrite fold_offsets, (fold_offsets _ (0 + _)). specialize (IH i). lia.
Qed.

Lemma get_text_position_mono text i j :
  i <= j -> _get_text_position text i <= _get_text_position text j.
Proof. intros H. unfold _get_text_position. apply offsets_firstn. lia. Qed.

Lemma get_text_position_bound text i :
  i < length (PyStr.split (String PyStr.newline EmptyString) text) ->
  _get_text_position text i <= String.length text.
Proof.
  intros H. unfold _get_text_position. rewrite Nat.min_l by lia.
  pose proof (offsets_before _ i H) as L. rewrite split_total in L. lia.
Qed.

Lemma chained_snoc ss c final :
  match ss with [] => True | _ => chained ss (start_pos c) end ->
  end_pos c = final -> chained (ss ++ [c]) final.
Proof.
  intros H E. induction ss as [|s ss IH]; [exact E|].
  cbn [app chained] in *. destruct ss as [|s' ss'].
  - cbn [app]. split; [exact H | exact E].
  - cbn [app] in *. destruct H as [H1 H2]. split; [exact H1 | exact (IH H2)].
Qed.

Lemma detect_line_positions text st i line :
  i < length (PyStr.split (String PyStr.newline EmptyString) text) ->
  position_inv text i st -> position_inv text (S i) (detect_line text st i line).
Proof.
  intros Hi [A B]. unfold detect_line.
  destruct (if PyStr.nonempty (PyStr.strip line)
            then _match_section_header (PyStr.strip line) else None)
    as [[[lvl num] ttl]|].
  - destruct (current_section st) as [cur|].
    + destruct B as ((j & Hj & Ej) & C). split; cbn [sections current_section start_pos].
      * apply Forall_app. split; [exact A|]. constructor; [|constructor].
        cbn [close_section start_pos end_pos]. split.
        { rewrite Ej. apply get_text_position_mono. lia. }
        { apply get_text_position_bound, Hi. }
      * split; [exists i; split; [lia | reflexivity]|].
        assert (Ch : chained (sections st ++ [close_section cur (content_buffer st)
                                                (_get_text_position text i)])
                             (_get_text_position text i)).
        { apply chained_snoc; [exact C | reflexivity]. }
        destruct (sections st ++ _); [exact I | exact Ch].
    + split; cbn [sections current_section start_pos].
      * exact A.
      * split; [exists i; split; [lia | reflexivity]|]. rewrite B. exact I.
  - destruct (current_section st) as [cur|] eqn:Ec.
    + split; cbn [sections current_section]; [exact A|].
      destruct B as ((j & Hj & Ej) & C). split; [|exact C]. exists j. split; [lia | exact Ej].
    + split; [exact A | rewrite Ec; exact B].
Qed.

Lemma detect_loop_positions text lines : forall st i,
  i + length lines = length (PyStr.split (String PyStr.newline EmptyString) text) ->
  position_inv text i st ->
  position_inv text (i + length lines) (detect_loop text st i lines).
Proof.
  induction lines as [|line rest IH]; intros st i Hn H; cbn [detect_loop length] in *.
  - rewrite Nat.add_0_r. exact H.
  - replace (i + S (length rest)) with (S i + length rest) by lia.
    apply IH; [lia|]. apply detect_line_positions; [lia | exact H].
Qed.

(** X20.  The sections that [detect_sections] returns are consecutive
    intervals of the text: each one starts at or before its end, each one
    ends where the next one starts, and the last one ends at the length of
    the text. *)
Theorem detect_sections_positions (text : string) :
  chained (detect_sections text) (String.length text)
  /\ Forall (fun s => start_pos s <= end_pos s /\ end_pos s <= String.length text)
            (detect_sections text).
Proof.
  unfold detect_sections.
  pose proof (detect_loop_positions text (PyStr.split (String PyStr.newline EmptyString) text)
                (mkDetect [] None []) 0 eq_refl) as [A B].
  { split; [constructor | reflexivity]. }
  cbn [Nat.add] in *.
  set (st := detect_loop _ _ _ _) in *.
  destruct (current_section st) as [cur|].
  - destruct B as ((j & Hj & Ej) & C).
    assert (Ch : chained (sections st ++ [close_section cur (content_buffer st)
                                            (String.length text)])
                         (String.length text)).
    { apply chained_snoc; [exact C | reflexivity]. }
    assert (F : Forall (fun s => start_pos s <= end_pos s /\ end_pos s <= String.length text)
                       (sections st ++ [close_section cur (content_buffer st)
                                          (String.length text)])).
    { apply Forall_app. split; [exact A|]. constructor; [|constructor].
      cbn [close_section start_pos end_pos]. split; [|lia].
      rewrite Ej. apply get_text_position_bound, Hj. }
    destruct (sections st ++ _) as [|s ss] eqn:El; [|split; assumption].
    apply app_eq_nil in El as [_ El]. discriminate.
  - rewrite B. cbn [chained start_pos end_pos]. split; [reflexivity|].
    constructor; [|constructor]. cbn [start_pos end_pos]. lia.
Qed.

(** ** The chunks *)

Lemma sub_chunks_ok fn md ps : forall i,
  md_filename md = fn ->
  (md_section_level md = 1 \/ md_section_level md = 2 \/ md_section_level md = 3) ->
  Forall (chunk_ok fn) (sub_chunks_from md i ps).
Proof.
  intros i Hf Hl. revert i.
  induction ps as [|p ps IH]; intros i; cbn [sub_chunks_from]; [constructor|].
  destruct (String.length (PyStr.strip p) <? 30) eqn:L; [apply IH|].
  constructor; [|apply IH]. apply Nat.ltb_ge in L.
  unfold chunk_ok, sub_chunk.
  cbn [ck_content_hash ck_text ck_metadata ck_sentence_hashes md_content_hash md_filename
       md_char_count md_word_count md_section_level md_chunk_type].
  repeat split; auto.
Qed.

Lemma refine_chunk_ok fn c : chunk_ok fn c -> Forall (chunk_ok fn) (refine_chunk c).
Proof.
  intros H. unfold refine_chunk, _subdivide_large_section.
  destruct (2000 <? md_char_count (ck_metadata c)); [|constructor; [exact H | constructor]].
  pose proof H as (_ & _ & Hf & _ & _ & Hl & _).
  pose proof (sub_chunks_ok fn (ck_metadata c) (sub_paragraphs (ck_text c)) 0 Hf Hl) as F.
  destruct (sub_chunks_from _ _ _); [|exact F].
  constructor; [exact H | constructor].
Qed.

Lemma words_empty_text s : PyStr.nonempty s = false -> length (PyStr.words s) = 0.
Proof. destruct s; [reflexivity | discriminate]. Qed.

Lemma section_chunks_ok fn ss : forall i,
  Forall section_ok ss -> Forall (chunk_ok fn) (section_chunks_from fn i ss).
Proof.
  intros i H. revert i. induction H as [|s ss Hs _ IH]; intros i; cbn [section_chunks_from];
    [constructor|].
  destruct (String.length (PyStr.strip (content s)) <? 50) eqn:L; [apply IH|].
  constructor; [|apply IH]. apply Nat.ltb_ge in L. destruct Hs as (_ & _ & Hl & _).
  unfold chunk_ok, section_chunk.
  cbn [ck_content_hash ck_text ck_metadata ck_sentence_hashes md_content_hash md_filename
       md_char_count md_word_count md_section_level md_chunk_type].
  repeat split; auto; [|lia].
  destruct (PyStr.nonempty (content s)) eqn:E; [reflexivity|].
  symmetry. apply words_empty_text, E.
Qed.

Lemma create_section_chunks_ok text filename :
  Forall (chunk_ok filename) (create_section_chunks text filename).
Proof.
  unfold create_section_chunks. apply Forall_flat_map_refine.
  eapply Forall_impl; [apply section_chunks_ok, detect_sections_well_formed|].
  intros c. apply refine_chunk_ok.
Qed.

(** X21.  Every chunk that [create_section_chunks] returns carries the hash
    of its own text, as field and in the metadata, the file name, the
    numbers of characters and of words of its text, a level of 1, 2 or 3,
    and a text of 30 characters or more once trimmed; it is a section or,
    without sentence hashes, a subdivision of one. *)
Theorem create_section_chunks_well_formed (text filename : string) :
  Forall (chunk_ok filename) (create_section_chunks text filename).
Proof. apply create_section_chunks_ok. Qed.

(** ** Storing and deleting a document *)

Lemma filed_hash_chunk fn c :
  chunk_ok fn c -> filed_hash c = Some (_generate_content_hash (ck_text c)).
Proof.
  intros (H & _). unfold filed_hash. rewrite H. unfold _generate_content_hash.
  rewrite hexdigest_nonempty. reflexivity.
Qed.

(** X23.  [process_and_store_document] files every chunk of
    [create_section_chunks] in the exact-match index: none is skipped for a
    missing or empty hash; each has its reference under the hash of its
    text, and that hash is recorded for the file name. *)
Theorem store_section_chunks_files_every_chunk (text filename : string) (self : Service) :
  Forall (fun c =>
            chunk_ref filename c
              ∈ refs_at (hash_to_documents
                           (DocumentProcessor.store_section_chunks text filename self))
                        (_generate_content_hash (ck_text c))
            /\ _generate_content_hash (ck_text c)
                 ∈ hashes_of (document_to_hashes
                                (DocumentProcessor.store_section_chunks text filename self))
                             filename)
         (create_section_chunks text filename)
  /\ forall h, length (refs_at (hash_to_documents
                                  (DocumentProcessor.store_section_chunks text filename self)) h)
               = length (refs_at (hash_to_documents self) h)
                 + length (List.filter
                             (fun c => String.eqb (_generate_content_hash (ck_text c)) h)
                             (create_section_chunks text filename)).
Proof.
  unfold DocumentProcessor.store_section_chunks, add_document_chunks, _save_data.
  cbn [hash_to_documents document_to_hashes].
  pose proof (create_section_chunks_ok text filename) as Ok.
  set (chunks := create_section_chunks text filename) in *.
  split.
  - apply Forall_forall. intros c Hc.
    pose proof (proj1 (Forall_forall _ _) Ok c Hc) as Hok.
    pose proof (filed_hash_chunk filename c Hok) as Hf. split.
    + rewrite add_chunks_refs. apply elem_of_app. right. unfold new_refs.
      apply list_elem_of_fmap. exists c. split; [reflexivity|].
      apply list_elem_of_In, filter_In. split; [apply list_elem_of_In, Hc|].
      apply bool_decide_eq_true_2, Hf.
    + rewrite add_chunks_hashes, decide_True by reflexivity. apply elem_of_union. right.
      unfold new_hashes. apply elem_of_list_to_set, list_elem_of_omap. eauto.
  - intros h. rewrite add_chunks_refs, length_app. f_equal. unfold new_refs.
    rewrite length_map. f_equal. clear -Ok.
    induction Ok as [|c l Hc _ IH]; [reflexivity|]. cbn [List.filter].
    rewrite (filed_hash_chunk filename c Hc), IH.
    destruct (String.eqb_spec (_generate_content_hash (ck_text c)) h) as [E|E].
    + rewrite bool_decide_eq_true_2 by congruence. reflexivity.
    + rewrite bool_decide_eq_false_2 by congruence. reflexivity.
Qed.

(** X24.  [delete_document_from_vector_db] changes neither the sentence-level
    maps nor the persistence file, so a restart after it finds the index as
    the last [process_and_store_document] wrote it, deleted document
    included. *)
Theorem delete_then_restart (text filename d : string) (self : Service) :
  sentence_hash_to_documents (DocumentProcessor.delete_document d self)
  = sentence_hash_to_documents self
  /\ document_to_sentence_hashes (DocumentProcessor.delete_document d self)
     = document_to_sentence_hashes self
  /\ persistence_file (DocumentProcessor.delete_document d self) = persistence_file self
  /\ restart (DocumentProcessor.delete_document d
                (DocumentProcessor.store_section_chunks text filename self))
     = DocumentProcessor.store_section_chunks text filename self.
Proof.
  unfold DocumentProcessor.delete_document.
  destruct (remove_document_sentence_maps d self) as (A & B & C).
  split; [exact A|]. split; [exact B|]. split; [exact C|].
  unfold DocumentProcessor.store_section_chunks.
  destruct (remove_document_sentence_maps d
              (add_document_chunks filename (create_section_chunks text filename) self))
    as (_ & _ & C').
  unfold restart in *. rewrite C'.
  exact (restart_add_document_chunks filename (create_section_chunks text filename) self).
Qed.

(** ** The hierarchy of a list of chunks *)

Lemma size_list_to_set_le (l : list string) : size (list_to_set l : gset string) <= length l.
Proof.
  induction l as [|x l IH]; cbn [list_to_set length].
  - rewrite size_empty. lia.
  - rewrite size_union_alt, size_singleton.
    assert (size (list_to_set l ∖ {[x]} : gset string) <= size (list_to_set l : gset string))
      by (apply subseteq_size; set_solver).
    lia.
Qed.

Lemma hierarchy_fold chunks : forall h,
  hy_section_count (fold_left hierarchy_step chunks h)
  = hy_section_count h + length (level_chunks 1 chunks)
  /\ hy_subsection_count (fold_left hierarchy_step chunks h)
     = hy_subsection_count h + length (level_chunks 2 chunks)
  /\ hy_total_chunks (fold_left hierarchy_step chunks h) = hy_total_chunks h
  /\ dom (hy_document_structure (fold_left hierarchy_step chunks h))
     = dom (hy_document_structure h)
       ∪ list_to_set (map (fun c => md_section_number (ck_metadata c)) (level_chunks 1 chunks)).
Proof.
  induction chunks as [|c chunks IH]; intros h; cbn [fold_left].
  - unfold level_chunks. cbn. repeat split; try lia. set_solver.
  - destruct (IH (hierarchy_step h c)) as (A & B & C & D). rewrite A, B, C, D.
    unfold level_chunks, hierarchy_step. cbn [List.filter].
    destruct (md_section_level (ck_metadata c) =? 1) eqn:L1.
    + apply Nat.eqb_eq in L1. rewrite L1.
      cbn [hy_section_count hy_subsection_count hy_total_chunks hy_document_structure
           Nat.eqb length map list_to_set].
      rewrite dom_insert_L. repeat split; try lia. set_solver.
    + destruct (md_section_level (ck_metadata c) =? 2) eqn:L2.
      * cbn [hy_section_count hy_subsection_count hy_total_chunks hy_document_structure length].
        repeat split; try lia. f_equal.
        destruct (PyStr.nonempty (md_parent_section (ck_metadata c))); [|reflexivity].
        destruct (hy_document_structure h !! md_parent_section (ck_metadata c)) eqn:E;
          [|reflexivity].
        rewrite dom_insert_L. apply elem_of_dom_2 in E. set_solver.
      * repeat split; lia.
Qed.

Lemma level_chunks_disjoint chunks :
  length (level_chunks 1 chunks) + length (level_chunks 2 chunks) <= length chunks.
Proof.
  unfold level_chunks. induction chunks as [|c chunks IH]; cbn [List.filter length]; [lia|].
  destruct (md_section_level (ck_metadata c)) as [|[|[|n]]]; cbn [Nat.eqb length]; lia.
Qed.

(** X22.  [get_section_hierarchy] counts chunks, not sections: [section_count]
    is the number of chunks of level 1 and [subsection_count] the number of
    chunks of level 2, together at most [total_chunks], the length of the
    list; the keys of [document_structure] are the numbers of the chunks of
    level 1, so there are at most [section_count] of them. *)
Theorem get_section_hierarchy_counts (chunks : list Chunk) :
  hy_total_chunks (get_section_hierarchy chunks) = length chunks
  /\ hy_section_count (get_section_hierarchy chunks) = length (level_chunks 1 chunks)
  /\ hy_subsection_count (get_section_hierarchy chunks) = length (level_chunks 2 chunks)
  /\ hy_section_count (get_section_hierarchy chunks)
     + hy_subsection_count (get_section_hierarchy chunks) <= length chunks
  /\ dom (hy_document_structure (get_section_hierarchy chunks))
     = list_to_set (map (fun c => md_section_number (ck_metadata c)) (level_chunks 1 chunks))
  /\ size (hy_document_structure (get_section_hierarchy chunks))
     <= hy_section_count (get_section_hierarchy chunks).
Proof.
  unfold get_section_hierarchy.
  destruct (hierarchy_fold chunks (mkHierarchy ∅ 0 0 (length chunks))) as (A & B & C & D).
  cbn [hy_section_count hy_subsection_count hy_total_chunks hy_document_structure] in *.
  rewrite dom_empty_L, union_empty_l_L in D.
  rewrite A, B, C. cbn [Nat.add]. split; [reflexivity|]. split; [reflexivity|].
  split; [reflexivity|]. split; [apply level_chunks_disjoint|]. split; [exact D|].
  rewrite <- size_dom, D.
  etransitivity; [apply size_list_to_set_le|]. rewrite length_map. lia.
Qed.

(** ** Parents *)

Lemma split_from_join a s :
  PyStr.join (String a EmptyString)
             (fst (PyStr.split_from (String a EmptyString) 0 s)
              :: snd (PyStr.split_from (String a EmptyString) 0 s)) = s
  /\ count_char a (fst (PyStr.split_from (String a EmptyString) 0 s)) = 0
  /\ Forall (fun p => count_char a p = 0) (snd (PyStr.split_from (String a EmptyString) 0 s)).
Proof.
  induction s as [|c s (J & C & F)]; [repeat split; constructor|].
  cbn [PyStr.split_from PyStr.startswith].
  change (String.length (String a EmptyString) - 1) with 0.
  destruct (PyStr.split_from (String a EmptyString) 0 s) as [h t]. cbn [fst snd] in *.
  destruct (Ascii.eqb_spec a c) as [E|E].
  - cbn [fst snd]. subst c. split; [|split; [reflexivity | constructor; assumption]].
    change (PyStr.join (String a EmptyString) (EmptyString :: h :: t))
      with (EmptyString +:+ String a EmptyString +:+ PyStr.join (String a EmptyString) (h :: t)).
    rewrite J. reflexivity.
  - cbn [fst snd]. split; [|split; [|exact F]].
    + destruct t as [|x t]; [cbn in *; congruence|].
      change (PyStr.join (String a EmptyString) (String c h :: x :: t))
        with (String c h +:+ String a EmptyString +:+ PyStr.join (String a EmptyString) (x :: t)).
      change (PyStr.join (String a EmptyString) (h :: x :: t))
        with (h +:+ String a EmptyString +:+ PyStr.join (String a EmptyString) (x :: t)) in J.
      rewrite append_cons, J. reflexivity.
    + cbn [count_char]. rewrite C. destruct (Ascii.eqb_spec a c); [contradiction | reflexivity].
Qed.

Lemma split_join a s :
  PyStr.join (String a EmptyString) (PyStr.split (String a EmptyString) s) = s
  /\ Forall (fun p => count_char a p = 0) (PyStr.split (String a EmptyString) s).
Proof.
  unfold PyStr.split. destruct (split_from_join a s) as (J & C & F).
  destruct (PyStr.split_from (String a EmptyString) 0 s) as [h t]. cbn [fst snd] in *.
  split; [exact J | constructor; assumption].
Qed.

Lemma join_snoc sep l x :
  l <> [] -> PyStr.join sep (l ++ [x]) = PyStr.join sep l +:+ sep +:+ x.
Proof.
  induction l as [|y l IH]; intros H; [contradiction|].
  destruct l as [|z l]; [reflexivity|].
  change (PyStr.join sep ((y :: z :: l) ++ [x]))
    with (y +:+ sep +:+ PyStr.join sep ((z :: l) ++ [x])).
  rewrite IH by discriminate.
  change (PyStr.join sep (y :: z :: l)) with (y +:+ sep +:+ PyStr.join sep (z :: l)).
  rewrite !append_assoc. reflexivity.
Qed.

Lemma find_parent_exists number existing p :
  _find_parent_section number existing = Some p ->
  (exists j s', existing !! j = Some s' /\ SectionChunker.number s' = p)
  /\ exists last, number = p +:+ "." +:+ last /\ count_char "." last = 0.
Proof.
  unfold _find_parent_section.
  destruct (contains_char "." number && negb (number =? "auto")%string); [|discriminate].
  destruct (1 <? length (PyStr.split "." number)) eqn:L; [|discriminate].
  destruct (existsb _ existing) eqn:E; [|discriminate].
  intros H. injection H as <-. split.
  - apply existsb_exists in E as (s' & Hin & Hs).
    apply String.eqb_eq in Hs. apply list_elem_of_In, list_elem_of_lookup in Hin as (j & Hj).
    eauto.
  - apply Nat.ltb_lt in L. destruct (split_join "." number) as [J F].
    set (parts := PyStr.split "." number) in *.
    assert (Hp : parts <> []) by (destruct parts; [cbn in L; lia | discriminate]).
    pose proof (app_removelast_last EmptyString Hp) as Ep.
    exists (List.last parts EmptyString). split.
    + rewrite <- J at 1. rewrite Ep at 1. apply join_snoc.
      destruct parts as [|x [|y l]]; cbn in L; try lia. discriminate.
    + rewrite Forall_forall in F. apply F. rewrite Ep at 2.
      apply elem_of_app. right. apply list_elem_of_singleton. reflexivity.
Qed.

Lemma last_dot x : forall x' y y',
  x +:+ String "."%char y = x' +:+ String "."%char y' ->
  count_char "." y = 0 -> count_char "." y' = 0 -> x = x' /\ y = y'.
Proof.
  induction x as [|c x IH]; intros x' y y' E Cy Cy'.
  - destruct x' as [|c' x']; cbn in E.
    + injection E as <-. auto.
    + rewrite append_cons in E. injection E as <- ->.
      rewrite count_char_app in Cy. cbn [count_char] in Cy. rewrite Ascii.eqb_refl in Cy. lia.
  - rewrite append_cons in E. destruct x' as [|c' x'].
    + cbn in E. injection E as -> <-.
      rewrite count_char_app in Cy'. cbn [count_char] in Cy'. rewrite Ascii.eqb_refl in Cy'. lia.
    + rewrite append_cons in E. injection E as <- E.
      destruct (IH x' y y' E Cy Cy') as [-> ->]. auto.
Qed.

Lemma level_of_shape_digits d : is_digits d = true -> level_of_shape d = 1.
Proof.
  intros H. rewrite <- (level_of_number_shape d (shape_integer d H)). apply level_integer, H.
Qed.

Lemma letter_no_dot c : is_letter c = true -> count_char "." (String c EmptyString) = 0.
Proof.
  cbn [count_char]. destruct (Ascii.eqb_spec "."%char c) as [<-|]; [|reflexivity].
  vm_compute. discriminate.
Qed.

Lemma child_level number p last :
  number_shape number -> number = p +:+ "." +:+ last -> count_char "." last = 0 ->
  level_of_shape number = S (level_of_shape p).
Proof.
  intros S E C.
  assert (D : 1 <= count_char "." number).
  { rewrite E, count_char_app, append_cons. cbn [count_char]. rewrite Ascii.eqb_refl. lia. }
  destruct S as [d H | d1 d2 H1 H2 | d1 d2 d3 H1 H2 H3 | c H | r Hn Ha].
  - rewrite (count_dot_is_digits d H) in D. lia.
  - destruct (last_dot d1 p d2 last E (count_dot_is_digits d2 H2) C) as [<- _].
    rewrite <- (level_of_number_shape _ (shape_decimal d1 d2 H1 H2)).
    rewrite (level_decimal d1 d2 H1 H2), (level_of_shape_digits d1 H1). reflexivity.
  - assert (E' : (d1 +:+ String "."%char d2) +:+ String "."%char d3 = p +:+ String "."%char last).
    { rewrite append_assoc. exact E. }
    destruct (last_dot _ p d3 last E' (count_dot_is_digits d3 H3) C) as [<- _].
    rewrite <- (level_of_number_shape _ (shape_three d1 d2 d3 H1 H2 H3)).
    rewrite (level_three d1 d2 d3 H1 H2 H3).
    rewrite <- (level_of_number_shape _ (shape_decimal d1 d2 H1 H2)).
    rewrite (level_decimal d1 d2 H1 H2). reflexivity.
  - rewrite (letter_no_dot c H) in D. lia.
  - rewrite (count_dot_roman r Ha) in D. lia.
Qed.

Lemma parents_before_snoc ss cur buffer pos :
  parents_before ss -> parent_ok ss cur ->
  parents_before (ss ++ [close_section cur buffer pos]).
Proof.
  intros P C i s p Hi Hp.
  destruct (decide (i < length ss)) as [Hlt|Hge].
  - rewrite lookup_app_l in Hi by assumption.
    destruct (P i s p Hi Hp) as (j & s' & last & Hj & Hs & Hn & R). exists j, s', last.
    split; [assumption|]. split; [|split; assumption]. rewrite lookup_app_l by lia. assumption.
  - rewrite lookup_app_r in Hi by lia.
    destruct (i - length ss) as [|k] eqn:Ek; [|destruct k; discriminate].
    cbn in Hi. injection Hi as <-. cbn [close_section parent_section number level] in *.
    destruct (C p Hp) as (j & s' & last & Hj & Hn & R). exists j, s', last.
    pose proof (lookup_lt_Some _ _ _ Hj) as Hlt.
    split; [lia|]. split; [|split; assumption]. rewrite lookup_app_l by assumption. assumption.
Qed.

Lemma detect_line_parents text st i line : parent_inv st -> parent_inv (detect_line text st i line).
Proof.
  intros (A & B & C).
  assert (Inv : detect_inv st).
  { split; [exact A|]. destruct (current_section st); [apply C | exact I]. }
  pose proof (detect_line_inv text st i line Inv) as [A' C'].
  split; [exact A'|]. revert A' C'. unfold detect_line.
  destruct (if PyStr.nonempty (PyStr.strip line)
            then _match_section_header (PyStr.strip line) else None)
    as [[[lvl num] ttl]|].
  - cbn [sections current_section]. intros A' C'. split.
    + destruct (current_section st) as [cur|]; [|exact B].
      apply parents_before_snoc; [exact B | apply C].
    + split; [exact C'|]. intros p Hp. cbn [parent_section number level] in *.
      apply find_parent_exists in Hp as ((j & s' & Hj & Hn) & last & E & Cl).
      exists j, s', last. repeat split; try assumption.
      destruct C' as (S & L & _). cbn [number level] in S, L.
      rewrite L, (child_level num p last S E Cl).
      rewrite Forall_forall in A'. apply list_elem_of_lookup_2 in Hj.
      destruct (A' s' Hj) as (_ & L' & _). rewrite L', Hn. reflexivity.
  - destruct (current_section st) as [cur|] eqn:Ec.
    + cbn [sections current_section]. intros _ _. split; [exact B | exact C].
    + intros _ _. split; [exact B | rewrite Ec; exact I].
Qed.

Lemma detect_loop_parents text lines : forall st i,
  parent_inv st -> parent_inv (detect_loop text st i lines).
Proof.
  induction lines as [|line rest IH]; intros st i H; cbn [detect_loop]; [exact H|].
  apply IH, detect_line_parents, H.
Qed.

(** X19.  In the list that [detect_sections] returns, the parent of a section
    is always the number of a section that stands before it and is one
    level up, and it is the number of the section without its last dotted
    part: a subsection whose parent was not seen earlier has no parent. *)
Theorem detect_sections_parents (text : string) : parents_before (detect_sections text).
Proof.
  unfold detect_sections.
  pose proof (detect_loop_parents text (PyStr.split (String PyStr.newline EmptyString) text)
                (mkDetect [] None []) 0) as (_ & A & B).
  { split; [constructor|]. split; [|exact I]. intros i s p Hi. discriminate. }
  set (st := detect_loop _ _ _ _) in *.
  assert (F : parents_before
                (match current_section st with
                 | Some cur => sections st
                               ++ [close_section cur (content_buffer st) (String.length text)]
                 | None => sections st
                 end)).
  { destruct (current_section st) as [cur|]; [|exact A].
    apply parents_before_snoc; [exact A | apply B]. }
  destruct (match current_section st with Some _ => _ | None => _ end) as [|s ss]; [|exact F].
  intros i s p Hi Hp. destruct i as [|i]; [|discriminate].
  cbn in Hi. injection Hi as <-. discriminate.
Qed.

(** ** The paragraphs packed from sentences *)

Lemma length_append (a b : string) :
  String.length (a +:+ b) = String.length a + String.length b.
Proof.
  induction a as [|c a IH]; [reflexivity|]. rewrite append_cons. cbn [String.length].
  rewrite IH. reflexivity.
Qed.

Lemma packed_strip sentences cur : packed sentences false cur -> packed sentences true (PyStr.strip cur).
Proof.
  intros [H | (s & Hs & ->)].
  - left. pose proof (length_strip_le cur). lia.
  - right. exists s. auto.
Qed.

Lemma pack_sentences_packed all sentences : forall cur,
  (forall s, s ∈ sentences -> s ∈ all) -> packed all false cur ->
  Forall (packed all true) (fst (pack_sentences sentences cur))
  /\ packed all false (snd (pack_sentences sentences cur)).
Proof.
  induction sentences as [|s rest IH]; intros cur Hin Hc; cbn [pack_sentences].
  - split; [constructor | exact Hc].
  - assert (Hin' : forall x, x ∈ rest -> x ∈ all).
    { intros x Hx. apply Hin, elem_of_cons. auto. }
    destruct (String.length (cur +:+ s) <? 1000) eqn:L.
    + apply IH; [exact Hin'|]. left. apply Nat.ltb_lt in L.
      rewrite <- append_assoc, length_append. cbn [String.length]. lia.
    + destruct (IH (s +:+ ". ") Hin') as [A B].
      { right. exists s. split; [apply Hin, elem_of_cons; auto | reflexivity]. }
      destruct (pack_sentences rest (s +:+ ". ")) as [paragraphs last]. cbn [fst snd] in *.
      split; [|exact B]. destruct (PyStr.nonempty cur); [|exact A].
      constructor; [apply packed_strip, Hc | exact A].
Qed.

(** X25.  When [_subdivide_large_section] falls back on sentences, every
    paragraph it packs is shorter than 1002 characters, unless it is one
    single sentence of the split, followed by a full stop. *)
Theorem sentence_paragraphs_bounded (content : string) :
  Forall (packed (Re.split_sentence content) true) (sentence_paragraphs content).
Proof.
  unfold sentence_paragraphs.
  destruct (pack_sentences_packed (Re.split_sentence content) (Re.split_sentence content)
              EmptyString) as [A B]; [auto | left; cbn; lia |].
  destruct (pack_sentences _ _) as [paragraphs last]. cbn [fst snd] in *.
  destruct (PyStr.nonempty last); [|exact A].
  apply Forall_app. split; [exact A|]. constructor; [apply packed_strip, B | constructor].
Qed.

(** * The subdivision of an oversized section *)






(** * Sub-chunks and the sentence-level index *)





